(** * ayushma/utils/openaiapi.py: the conversation turn pipeline

    A shallow embedding of [add_reference_documents], [handle_post_response]
    and [converse] (with the helpers they call), and the properties of the
    streaming consumer, the post-processing chain and the error path.

    Conventions of the embedding:
    - Python [str] values are [string]s (code points below 256);
    - the database, the clock, the dictionaries that are passed by reference
      and the trace of calls to the outside live in a [World] that every
      operation threads through ([M], a state-and-exception monad);
    - the services the module imports but does not define (translation,
      speech synthesis, upload, the document table, the tokenizer, the
      embedding API, the vector index and the language-model helper) are
      the fields of the class [Collaborators];
    - the [while True] loop of the streaming branch runs on fuel, one unit per
      iteration, and the producer task is the schedule of what it pushes
      between two iterations of the consumer. *)

From Stdlib Require Import ZArith Ascii String DecimalString List Lia.
From stdpp Require Import gmap strings list.

#[local] Set Warnings "-clear-no-such-hyp".
#[local] Set Warnings "-abstract-large-number".
Local Open Scope Z_scope.

(** ** Python string built-ins used by the module *)

Module PyStr.

Definition newline : ascii := "010"%char.
Definition dquote : ascii := "034"%char.

(** [len(s)] *)
Definition len (s : string) : Z := Z.of_nat (String.length s).

(** [s.find(sub)]: lowest index where [sub] occurs, or [-1]. *)
Definition find (s sub : string) : Z :=
  match String.index 0 sub s with
  | Some i => Z.of_nat i
  | None => -1
  end.

(** [s[i:]] and [s[:i]] for an index [i >= 0]. *)
Fixpoint drop_chars (n : nat) (s : string) : string :=
  match n, s with
  | O, _ => s
  | S n', String _ s' => drop_chars n' s'
  | S _, EmptyString => EmptyString
  end.

Fixpoint take_chars (n : nat) (s : string) : string :=
  match n, s with
  | S n', String c s' => String c (take_chars n' s')
  | _, _ => EmptyString
  end.

Definition slice_from (s : string) (i : Z) : string := drop_chars (Z.to_nat i) s.
Definition slice_to (s : string) (i : Z) : string := take_chars (Z.to_nat i) s.

(** [s.split(sep)] for a separator of one character (the module only splits
    on [","] and ["-"]): every separator cuts, empty pieces are kept. *)
Fixpoint split (sep : ascii) (s : string) : list string :=
  match s with
  | EmptyString => [EmptyString]
  | String c s' =>
      if Ascii.eqb c sep then EmptyString :: split sep s'
      else match split sep s' with
           | piece :: rest => String c piece :: rest
           | [] => [String c EmptyString]
           end
  end.

(** [s.lstrip(chars)], [s.rstrip(chars)] and [s.strip(chars)], the character
    set given as a predicate. *)
Fixpoint lstrip (p : ascii -> bool) (s : string) : string :=
  match s with
  | EmptyString => EmptyString
  | String c s' => if p c then lstrip p s' else s
  end.

Fixpoint rstrip (p : ascii -> bool) (s : string) : string :=
  match s with
  | EmptyString => EmptyString
  | String c s' =>
      match rstrip p s' with
      | EmptyString => if p c then EmptyString else String c EmptyString
      | r => String c r
      end
  end.

Definition strip_with (p : ascii -> bool) (s : string) : string :=
  rstrip p (lstrip p s).

Definition in_chars (chars : list ascii) (c : ascii) : bool :=
  existsb (Ascii.eqb c) chars.

(** Whitespace in the sense of [str.strip()] with no argument: TAB..CR,
    FS..US, space, NEL and NBSP among the code points below 256. *)
Definition isspace (c : ascii) : bool :=
  let n := nat_of_ascii c in
  ((9 <=? n)%nat && (n <=? 13)%nat) || ((28 <=? n)%nat && (n <=? 32)%nat)
  || (n =? 133)%nat || (n =? 160)%nat.

Definition strip (s : string) : string := strip_with isspace s.

(** [s.replace(old, new)] for a non-empty [old]: the occurrences are found
    left to right and do not overlap. [skip] counts the characters of the
    occurrence just replaced that are still to be passed over. *)
Fixpoint replace_go (old new : string) (skip : nat) (s : string) : string :=
  match s with
  | EmptyString => EmptyString
  | String c s' =>
      match skip with
      | S k => replace_go old new k s'
      | O =>
          if String.prefix old s
          then new +:+ replace_go old new (String.length old - 1) s'
          else String c (replace_go old new 0 s')
      end
  end.

Definition replace (s old new : string) : string := replace_go old new 0 s.

(** [str(n)] for an integer [n >= 0]: its decimal digits. *)
Definition str_int (n : nat) : string := NilEmpty.string_of_uint (Nat.to_uint n).

(** Truthiness of an optional string: [None] and the empty string are
    false. *)
Definition truthy (o : option string) : bool :=
  match o with
  | Some (String _ _) => true
  | _ => false
  end.

End PyStr.

(** ** Data model *)

(** Instants returned by [time.time()]: ticks of the world clock. *)
Definition time := nat.

Inductive ChatMessageType := USER | AYUSHMA.

Record Project := {
  project_external_id : option string;
  project_prompt : option string
}.

Record Chat := {
  chat_id : nat;
  chat_external_id : string;
  chat_prompt : option string;
  chat_project : option Project
}.

(** The [meta] JSON object of a message: a dict literal, in source order. *)
Definition Meta := list (string * option time).

(** A row of the [ChatMessage] table (and the in-memory object of one). The
    fields a [create] call does not pass are [None]. *)
Module ChatMessage.
Record t := {
  pk : nat;
  chat : nat;
  messageType : ChatMessageType;
  message : option string;
  original_message : string;
  language : string;
  top_k : option Z;
  temperature : option Z;
  ayushma_audio_url : option string;
  meta : option Meta
}.

Definition with_original_message (m : t) (s : string) : t :=
  {| pk := pk m; chat := chat m; messageType := messageType m;
     message := message m; original_message := s; language := language m;
     top_k := top_k m; temperature := temperature m;
     ayushma_audio_url := ayushma_audio_url m; meta := meta m |}.

Definition with_results (m : t) (msg : string) (url : option string) (mt : Meta) : t :=
  {| pk := pk m; chat := chat m; messageType := messageType m;
     message := Some msg; original_message := original_message m;
     language := language m; top_k := top_k m; temperature := temperature m;
     ayushma_audio_url := url; meta := Some mt |}.

Definition with_pk (m : t) (n : nat) : t :=
  {| pk := n; chat := chat m; messageType := messageType m;
     message := message m; original_message := original_message m;
     language := language m; top_k := top_k m; temperature := temperature m;
     ayushma_audio_url := ayushma_audio_url m; meta := meta m |}.
End ChatMessage.

(** Python exceptions: the class name and [str(e)]. *)
Record Exn := { exn_class : string; exn_text : string }.

Definition str_exn (e : Exn) : string := exn_text e.

(** Calls that leave the process, in the order they were made. *)
Inductive Effect :=
| DbCreate (row : nat)
| DbSave (row : nat)
| DbAddReference (row doc : nat)
| DocumentGet (external_id : string)
| CallTranslate (target text : string)
| CallTextToSpeech (text lang : string)
| CallUpload (audio s3_key : string)
| CallGetEmbedding (text : string)
| CallIndexQuery (namespace : string) (top_k : Z)
| CallGetResponse (text : string)
| StartProducer (text : string).

(** The state outside the function: the clock, the uuid source, the
    [ChatMessage] table (a row's primary key is its position), the
    many-to-many table of reference documents, the dict objects reachable
    by address, and the trace of effects. *)
Record World := {
  clock : time;
  uuids : nat;
  rows : list ChatMessage.t;
  reference_documents : gmap nat (gset nat);
  dicts : gmap nat (gmap string time);
  trace : list Effect
}.

Definition tick (w : World) : World :=
  {| clock := S (clock w); uuids := uuids w; rows := rows w;
     reference_documents := reference_documents w; dicts := dicts w;
     trace := trace w |}.

Definition draw_uuid (w : World) : World :=
  {| clock := clock w; uuids := S (uuids w); rows := rows w;
     reference_documents := reference_documents w; dicts := dicts w;
     trace := trace w |}.

Definition set_rows (w : World) (r : list ChatMessage.t) : World :=
  {| clock := clock w; uuids := uuids w; rows := r;
     reference_documents := reference_documents w; dicts := dicts w;
     trace := trace w |}.

Definition set_reference_documents (w : World) (r : gmap nat (gset nat)) : World :=
  {| clock := clock w; uuids := uuids w; rows := rows w;
     reference_documents := r; dicts := dicts w; trace := trace w |}.

Definition set_dicts (w : World) (d : gmap nat (gmap string time)) : World :=
  {| clock := clock w; uuids := uuids w; rows := rows w;
     reference_documents := reference_documents w; dicts := d;
     trace := trace w |}.

Definition record (w : World) (e : Effect) : World :=
  {| clock := clock w; uuids := uuids w; rows := rows w;
     reference_documents := reference_documents w; dicts := dicts w;
     trace := trace w ++ [e] |}.

Definition record_all (w : World) (es : list Effect) : World :=
  {| clock := clock w; uuids := uuids w; rows := rows w;
     reference_documents := reference_documents w; dicts := dicts w;
     trace := trace w ++ es |}.

(** ** The state-and-exception monad *)

Inductive Outcome (A : Type) :=
| Ret (a : A)
| Raise (e : Exn).
Arguments Ret {A} a.
Arguments Raise {A} e.

Definition M (A : Type) : Type := World -> Outcome A * World.

Definition ret {A} (a : A) : M A := fun w => (Ret a, w).

Definition raise {A} (e : Exn) : M A := fun w => (Raise e, w).

Definition bind {A B} (c : M A) (k : A -> M B) : M B :=
  fun w =>
    match c w with
    | (Ret a, w') => k a w'
    | (Raise e, w') => (Raise e, w')
    end.

(** [try: c  except Exception: pass] *)
Definition try_pass (c : M unit) : M unit :=
  fun w =>
    match c w with
    | (Ret _, w') => (Ret tt, w')
    | (Raise _, w') => (Ret tt, w')
    end.

(** Lifting the answer of a collaborator, with the call left in the trace. *)
Definition call {A} (e : Effect) (r : Outcome A) : M A :=
  fun w => (r, record w e).

Declare Scope py_scope.
Delimit Scope py_scope with py.
Notation "'let*' x := c 'in' k" := (bind c (fun x => k))
  (at level 10, x name, c at level 100, k at level 200) : py_scope.
Notation "c ;; k" := (bind c (fun _ => k))
  (at level 100, k at level 200, right associativity) : py_scope.
Local Open Scope py_scope.

(** [time.time()] *)
Definition time_time : M time := fun w => (Ret (clock w), tick w).

(** The address of the dict object bound to the default of [stats] when
    [converse] was defined: one object for the life of the process. *)
Definition default_stats : nat := 0%nat.

Definition dict_at (w : World) (d : nat) : gmap string time :=
  default ∅ (dicts w !! d).

(** [stats[key] = value] and [stats.get(key)] on the dict at address [d]. *)
Definition stats_set (d : nat) (key : string) (value : time) : M unit :=
  fun w => (Ret tt, set_dicts w (<[d := <[key := value]> (dict_at w d)]> (dicts w))).

Definition stats_get (d : nat) (key : string) : M (option time) :=
  fun w => (Ret (dict_at w d !! key), w).

(** [stats[key] = time.time()] *)
Definition stamp (d : nat) (key : string) : M unit :=
  let* now := time_time in stats_set d key now.

(** [ChatMessage.objects.create(...)]: inserts the row and returns the object
    with its primary key. *)
Definition ChatMessage_objects_create (fields : ChatMessage.t) : M ChatMessage.t :=
  fun w =>
    let row := ChatMessage.with_pk fields (length (rows w)) in
    (Ret row, record (set_rows w (rows w ++ [row])) (DbCreate (ChatMessage.pk row))).

(** [chat_message.save()]: writes the object over its row (the object always
    comes from a [create], so the row is there). *)
Definition ChatMessage_save (m : ChatMessage.t) : M unit :=
  fun w =>
    (Ret tt, record (set_rows w (<[ChatMessage.pk m := m]> (rows w)))
                    (DbSave (ChatMessage.pk m))).

(** [chat_message.reference_documents.add(doc)]: written at once, no [save]
    needed. *)
Definition reference_documents_add (m : ChatMessage.t) (doc : nat) : M unit :=
  fun w =>
    let row := ChatMessage.pk m in
    let old := default ∅ (reference_documents w !! row) in
    (Ret tt, record (set_reference_documents w
                       (<[row := {[doc]} ∪ old]> (reference_documents w)))
                    (DbAddReference row doc)).

Definition references_of (w : World) (row : nat) : gset nat :=
  default ∅ (reference_documents w !! row).

(** ** Retrieval: [split_text], [get_sanitized_reference], [get_reference] *)

Module Retrieval.

(** [range(start, stop, step)] for a positive step, as the loop that yields
    it: [fuel] bounds the number of values. *)
Fixpoint range_from (fuel start stop step : nat) : list nat :=
  match fuel with
  | O => []
  | S fuel' =>
      if (start <? stop)%nat then start :: range_from fuel' (start + step) stop step
      else []
  end.

Definition range (start stop step : nat) : list nat :=
  range_from (stop - start) start stop step.

(** [text[i : i + number_of_chars]] *)
Definition part_at (number_of_chars : nat) (text : string) (i : nat) : string :=
  PyStr.take_chars number_of_chars (PyStr.drop_chars i text).

(** [split_text] for a part size [number_of_chars] (8192 in the source). *)
Definition split_text_by (number_of_chars : nat) (text : string) : list string :=
  let n := String.length text in
  map (part_at number_of_chars text) (range 0 n number_of_chars).

Definition number_of_chars : nat := 8192.

Definition split_text (text : string) : list string :=
  split_text_by number_of_chars text.

(** A match of the vector index: the two entries of [metadata] that are
    read, each absent when the key is missing (the [KeyError] is caught). *)
Record Match := {
  metadata_document : option string;
  metadata_text : option string
}.

(** A [QueryResponse], by its [matches]. *)
Definition QueryResponse := list Match.

(** Lines 71-80: one match goes into the dict, or is passed over. *)
Definition add_match (sanitized_reference : gmap string string) (m : Match)
    : gmap string string :=
  match metadata_document m, metadata_text m with
  | Some document_id, Some text =>
      let text := PyStr.replace text (String PyStr.newline EmptyString) " " +:+ "," in
      match sanitized_reference !! document_id with
      | Some so_far => <[document_id := so_far +:+ text]> sanitized_reference
      | None => <[document_id := text]> sanitized_reference
      end
  | _, _ => sanitized_reference
  end.

(** [get_sanitized_reference], up to the dict that [json.dumps] is given. *)
Definition get_sanitized_reference (pinecone_references : list QueryResponse)
    : gmap string string :=
  foldl (fun sanitized_reference reference =>
           foldl add_match sanitized_reference reference)
        ∅ pinecone_references.

(** What [get_reference] hands back: the dict of references (dumped as JSON
    by the source), or, from line 125, an exception object as a value. *)
Inductive Reference :=
| ReferenceText (sanitized_reference : gmap string string)
| ReferenceException (e : Exn).

Section GetReference.
(** An embedding, as the embedding API returns it. *)
Context {Vector : Type}.

(** Calls to the embedding API and to the vector index, in order. *)
Inductive Call :=
| Embed (text : string)
| Query (vector : Vector).

(** The tokenizer, the embedding API and the vector index. *)
Class Index := {
  num_tokens_from_string : string -> string -> nat;
  get_embedding : string -> string -> Outcome Vector;
  PINECONE_query : Vector -> Z -> string -> Outcome QueryResponse
}.

Context {I : Index}.

(** [raise Exception(e.__str__())] and [return Exception(e.__str__())] *)
Definition rewrap (e : Exn) : Exn :=
  {| exn_class := "Exception"; exn_text := exn_text e |}.

(** Lines 130-136: the parts are embedded one after the other; the first
    failure is raised. The calls made come with the result. *)
Fixpoint embed_parts (parts : list string) (openai_key : string)
    : Outcome (list Vector) * list Call :=
  match parts with
  | [] => (Ret [], [])
  | part :: rest =>
      match get_embedding part openai_key with
      | Raise e => (Raise (rewrap e), [Embed part])
      | Ret embedding =>
          let (embedded, calls) := embed_parts rest openai_key in
          (match embedded with
           | Ret embeddings => Ret (embedding :: embeddings)
           | Raise e => Raise e
           end, Embed part :: calls)
      end
  end.

(** Lines 140-147: one query per embedding; a query that raises is not
    caught. *)
Fixpoint query_all (embeddings : list Vector) (top_k : Z) (namespace : string)
    : Outcome (list QueryResponse) * list Call :=
  match embeddings with
  | [] => (Ret [], [])
  | embedding :: rest =>
      match PINECONE_query embedding top_k namespace with
      | Raise e => (Raise e, [Query embedding])
      | Ret similar =>
          let (answered, calls) := query_all rest top_k namespace in
          (match answered with
           | Ret responses => Ret (similar :: responses)
           | Raise e => Raise e
           end, Query embedding :: calls)
      end
  end.

Definition find_similar (embeddings : list Vector) (top_k : Z) (namespace : string)
    (calls : list Call) : Outcome Reference * list Call :=
  let (answered, more) := query_all embeddings top_k namespace in
  (match answered with
   | Ret pinecone_references =>
       Ret (ReferenceText (get_sanitized_reference pinecone_references))
   | Raise e => Raise e
   end, calls ++ more).

(** [get_reference], with the calls it made. *)
Definition get_reference (text openai_key namespace : string) (top_k : Z)
    : Outcome Reference * list Call :=
  let num_tokens := num_tokens_from_string text "cl100k_base" in
  if (num_tokens <? 8192)%nat then
    match get_embedding text openai_key with
    | Raise e => (Ret (ReferenceException (rewrap e)), [Embed text])
    | Ret embedding => find_similar [embedding] top_k namespace [Embed text]
    end
  else
    let (embedded, calls) := embed_parts (split_text text) openai_key in
    match embedded with
    | Raise e => (Raise e, calls)
    | Ret embeddings => find_similar embeddings top_k namespace calls
    end.

End GetReference.

(** The characters of a string, and the texts of the matches of a
    document, as they go into the dict. *)
Definition chars (s : string) : list ascii := list_ascii_of_string s.

Definition sanitized (text : string) : string :=
  PyStr.replace text (String PyStr.newline EmptyString) " " +:+ ",".

Definition texts_of (document_id : string) (matches : list Match) : list string :=
  omap (fun m =>
          match metadata_document m, metadata_text m with
          | Some d, Some text =>
              if String.eqb d document_id then Some (sanitized text) else None
          | _, _ => None
          end) matches.

(** A text of [n] copies of a character. *)
Fixpoint repeated (c : ascii) (n : nat) : string :=
  match n with
  | O => EmptyString
  | S n' => String c (repeated c n')
  end.

(** A tokenizer that counts characters, an embedding API that fails on the
    texts of [failing] and answers the length of the others, and an index
    that answers one match per query. *)
Definition toy_index (failing : list string) : @Index nat :=
  {| num_tokens_from_string := fun text _ => String.length text;
     get_embedding := fun text _ =>
       if bool_decide (text ∈ failing)
       then Raise {| exn_class := "APIError"; exn_text := "rate limit" |}
       else Ret (String.length text);
     PINECONE_query := fun vector _ _ =>
       Ret [{| metadata_document := Some "28";
               metadata_text := Some "How are you" |}] |}.

End Retrieval.

(** ** The collaborators the module imports *)

Inductive DocumentLookup :=
| Found (doc : nat)
| DoesNotExist
| LookupRaises (e : Exn).

(** [langchain.schema] messages of the chat history. *)
Inductive HistoryMessage :=
| HumanMessage (content : string)
| AIMessage (content : string).

(** The arguments [LangChainHelper] is built with. *)
Record LangChainHelper := {
  lc_stream : bool;
  lc_openai_api_key : string;
  lc_prompt_template : option string;
  lc_temperature : Z
}.

(** What travels through [token_queue]: a token (a [str]), the [RESPONSE_END]
    object, or any other object (its class name), such as an exception that
    the producer hands over. *)
Inductive QValue :=
| Token (text : string)
| RESPONSE_END
| Other (class_name : string).

(** The [reference] that [converse] hands to the model (lines 269-276): the
    caller's [references] or the empty text, or what [get_reference] returned,
    the dict of references or the exception object of line 125. *)
Inductive TurnReference :=
| Supplied (references : string)
| Retrieved (reference : Retrieval.Reference).

(** The answers of the outside world. A call either returns or raises. The
    tokenizer, the embedding API and the vector index that [get_reference]
    calls are the fields of [retrieval], for embeddings of type [Embedding].
    [get_aresponse] is the producer task: the batches it puts on the queue,
    one batch per iteration of the consumer (an empty batch when it puts
    nothing in between). *)
Class Collaborators := {
  translate_text : string -> string -> Outcome string;
  text_to_speech : string -> string -> Outcome (option string);
  upload_file : string -> string -> Outcome (option string);
  Document_objects_get : string -> DocumentLookup;
  uuid4 : nat -> string;
  Embedding : Type;
  retrieval : @Retrieval.Index Embedding;
  get_response :
    LangChainHelper -> string -> TurnReference -> list HistoryMessage -> Outcome string;
  get_aresponse :
    LangChainHelper -> string -> TurnReference -> list HistoryMessage
    -> list (list QValue)
}.

(** ** The module's functions *)

(** The payload of [create_json_response]; the function returns it as one
    server-sent event (the text "data: ", the JSON dump and a blank line). *)
Record JsonResponse := {
  json_chat : string;
  json_input : string;
  json_delta : string;
  json_message : string;
  json_stop : bool;
  json_ayushma_voice : option string
}.

Definition create_json_response (input_text chat_id delta message : string)
    (stop : bool) (ayushma_voice : option string) : JsonResponse :=
  {| json_chat := chat_id; json_input := input_text; json_delta := delta;
     json_message := message; json_stop := stop;
     json_ayushma_voice := ayushma_voice |}.

(** What the generator [converse] hands to its caller. *)
Inductive Yielded :=
| YieldMessage (m : ChatMessage.t)
| YieldData (d : JsonResponse).

Definition ref_text : string := "References:".

(** The characters the ids are trimmed of (line 160): space, full stop,
    comma, square brackets, star and both quote marks. *)
Definition doc_id_padding : list ascii :=
  [" "; "."; ","; "["; "]"; "*"; "'"; PyStr.dquote]%char.

(** Lines 159-161: the ids after the marker, cut at commas, trimmed, the empty
    ones dropped, without repetition (the order a Python [set] is walked in is
    not fixed; here each id stands where it occurs last). *)
Definition parse_doc_ids (chat_text : string) (ref_start_idx : Z) : list string :=
  let doc_ids := PyStr.split "," (PyStr.slice_from chat_text (ref_start_idx + PyStr.len ref_text)) in
  let doc_ids := map (PyStr.strip_with (PyStr.in_chars doc_id_padding)) doc_ids in
  remove_dups (filter (fun doc_id => doc_id <> EmptyString) doc_ids).

Section Pipeline.
Context {C : Collaborators}.

(** Lines 162-167: the loop over the ids. An unknown id is passed over; any
    other exception leaves the loop. *)
Fixpoint add_documents (chat_message : ChatMessage.t) (doc_ids : list string) : M unit :=
  match doc_ids with
  | [] => ret tt
  | doc_id :: rest =>
      let* found := call (DocumentGet doc_id) (Ret (Document_objects_get doc_id)) in
      match found with
      | Found doc =>
          reference_documents_add chat_message doc ;;
          add_documents chat_message rest
      | DoesNotExist => add_documents chat_message rest
      | LookupRaises e => raise e
      end
  end.

(** [add_reference_documents]: the object is changed in place, so the
    changed object is returned. *)
Definition add_reference_documents (chat_message : ChatMessage.t) : M ChatMessage.t :=
  let chat_text := ChatMessage.original_message chat_message in
  let ref_start_idx := PyStr.find chat_text ref_text in
  if ref_start_idx =? -1 then ret chat_message
  else
    try_pass (add_documents chat_message (parse_doc_ids chat_text ref_start_idx)) ;;
    let chat_message :=
      ChatMessage.with_original_message chat_message
        (PyStr.strip (PyStr.slice_to chat_text ref_start_idx)) in
    ChatMessage_save chat_message ;;
    ret chat_message.

(** The ten timing marks copied into [meta] (lines 221-232 and 400-411). *)
Definition response_meta (stats : gmap string time) : Meta :=
  [ ("translate_start", stats !! "response_translation_start_time");
    ("translate_end", stats !! "response_translation_end_time");
    ("reference_start", stats !! "reference_start_time");
    ("reference_end", stats !! "reference_end_time");
    ("response_start", stats !! "response_start_time");
    ("response_end", stats !! "response_end_time");
    ("tts_start", stats !! "tts_start_time");
    ("tts_end", stats !! "tts_end_time");
    ("upload_start", stats !! "upload_start_time");
    ("upload_end", stats !! "upload_end_time") ].

Definition read_response_meta (stats : nat) : M Meta :=
  fun w => (Ret (response_meta (dict_at w stats)), w).

(** The key of the upload (line 215): [f"{chat.id}_{uuid.uuid4()}.mp3"]. *)
Definition s3_key (chat : Chat) (suffix : string) : string :=
  PyStr.str_int (chat_id chat) +:+ "_" +:+ suffix +:+ ".mp3".

Definition draw_uuid4 : M string :=
  fun w => (Ret (uuid4 (uuids w)), draw_uuid w).

(** Lines 196-234 of [handle_post_response]: translation, speech, upload
    and the last write, for the message as marker extraction left it. *)
Definition post_stages (chat_message : ChatMessage.t) (chat : Chat)
    (user_language : string) (stats : nat) (generate_audio : bool)
    : M (string * option string * ChatMessage.t) :=
  let* translated_chat_response :=
    (if negb (String.eqb user_language "en-IN") then
       stamp stats "response_translation_start_time" ;;
       call (CallTranslate user_language (ChatMessage.original_message chat_message))
            (translate_text user_language (ChatMessage.original_message chat_message))
     else ret (ChatMessage.original_message chat_message)) in
  stamp stats "response_translation_end_time" ;;
  let* ayushma_voice :=
    (if generate_audio then
       stamp stats "tts_start_time" ;;
       let* voice := call (CallTextToSpeech translated_chat_response user_language)
                          (text_to_speech translated_chat_response user_language) in
       stamp stats "tts_end_time" ;;
       ret voice
     else ret None) in
  (* [if ayushma_voice:] holds for a non-empty byte string only *)
  let* url :=
    (match ayushma_voice with
     | Some (String c audio) =>
         stamp stats "upload_start_time" ;;
         let* suffix := draw_uuid4 in
         let* url := call (CallUpload (String c audio) (s3_key chat suffix))
                          (upload_file (String c audio) (s3_key chat suffix)) in
         stamp stats "upload_end_time" ;;
         ret url
     | _ => ret None
     end) in
  let* meta := read_response_meta stats in
  let chat_message :=
    ChatMessage.with_results chat_message translated_chat_response url meta in
  ChatMessage_save chat_message ;;
  ret (translated_chat_response, url, chat_message).

(** The fields of the [create] call of lines 187-194. *)
Definition new_response (chat_response : string) (chat : Chat) (match_number : Z)
    (temperature : Z) (language : string) : ChatMessage.t :=
  {| ChatMessage.pk := 0%nat;
     ChatMessage.chat := chat_id chat;
     ChatMessage.messageType := AYUSHMA;
     ChatMessage.message := None;
     ChatMessage.original_message := chat_response;
     ChatMessage.language := language;
     ChatMessage.top_k := Some match_number;
     ChatMessage.temperature := Some temperature;
     ChatMessage.ayushma_audio_url := None;
     ChatMessage.meta := None |}.

Definition handle_post_response (chat_response : string) (chat : Chat)
    (match_number : Z) (user_language : string) (temperature : Z) (stats : nat)
    (language : string) (generate_audio : bool)
    : M (string * option string * ChatMessage.t) :=
  let* chat_message :=
    ChatMessage_objects_create
      (new_response chat_response chat match_number temperature language) in
  let* chat_message := add_reference_documents chat_message in
  post_stages chat_message chat user_language stats generate_audio.

(** *** [converse] *)

Record Args := {
  english_text : string;
  local_translated_text : string;
  openai_key : option string;
  chat : Chat;
  match_number : Z;
  user_language : string;
  temperature : Z;
  stats : option nat;          (* [None]: the argument is left out *)
  stream : bool;
  references : option string;
  generate_audio : bool
}.

(** The dict the body works on: the caller's, or the one default object. *)
Definition stats_of (a : Args) : nat := default default_stats (stats a).

(** How a run of the generator, driven to its end, finishes. [Running] is
    a loop that has used up its fuel and is still going round. *)
Inductive Ending :=
| Returned
| Raised (e : Exn)
| Running.

Record Run := {
  yields : list Yielded;
  ending : Ending;
  final : World
}.

Definition missing_key : Exn :=
  {| exn_class := "Exception";
     exn_text := "OpenAI-Key header is required to create a chat or converse" |}.

(** [f"{message.message}"] *)
Definition format_message (m : option string) : string :=
  match m with
  | Some s => s
  | None => "None"
  end.

(** Lines 285-295: the earlier messages of the chat, oldest first, without
    the query just stored. *)
Definition chat_history_of (all : list ChatMessage.t) (chat : Chat) (nurse_query : ChatMessage.t)
    : list HistoryMessage :=
  let previous_messages :=
    filter (fun m => ChatMessage.chat m = chat_id chat /\ ChatMessage.pk m <> ChatMessage.pk nurse_query) all in
  map (fun m =>
         match ChatMessage.messageType m with
         | USER => HumanMessage ("Nurse: " +:+ format_message (ChatMessage.message m))
         | AYUSHMA => AIMessage ("Ayushma: " +:+ format_message (ChatMessage.message m))
         end) previous_messages.

(** What the body has at hand when it reaches line 297. *)
Record Prepared := {
  p_english_text : string;
  p_language : string;
  p_reference : TurnReference;
  p_prompt : option string;
  p_chat_history : list HistoryMessage
}.

(** The calls of [get_reference] as effects of the turn. *)
Definition retrieval_effect {Vector : Type} (namespace : string) (top_k : Z)
    (c : @Retrieval.Call Vector) : Effect :=
  match c with
  | Retrieval.Embed text => CallGetEmbedding text
  | Retrieval.Query _ => CallIndexQuery namespace top_k
  end.

(** [get_reference] called from [converse]: the calls it makes go into the
    trace, whether it returns or raises. *)
Definition call_get_reference (text openai_key namespace : string) (top_k : Z)
    : M Retrieval.Reference :=
  fun w =>
    let (reference, calls) :=
      @Retrieval.get_reference Embedding retrieval text openai_key namespace top_k in
    (reference, record_all w (retrieval_effect namespace top_k <$> calls)).

(** Lines 253-295. *)
Definition prepare (a : Args) : M Prepared :=
  let stats := stats_of a in
  let english_text := PyStr.replace (english_text a) (String PyStr.newline EmptyString) " " in
  let language := hd EmptyString (PyStr.split "-" (user_language a)) in
  let* translate_start := stats_get stats "request_translation_start_time" in
  let* translate_end := stats_get stats "request_translation_end_time" in
  let* nurse_query :=
    ChatMessage_objects_create
      {| ChatMessage.pk := 0%nat;
         ChatMessage.chat := chat_id (chat a);
         ChatMessage.messageType := USER;
         ChatMessage.message := Some (local_translated_text a);
         ChatMessage.original_message := english_text;
         ChatMessage.language := language;
         ChatMessage.top_k := None;
         ChatMessage.temperature := None;
         ChatMessage.ayushma_audio_url := None;
         ChatMessage.meta :=
           Some [("translate_start", translate_start); ("translate_end", translate_end)] |} in
  stamp stats "reference_start_time" ;;
  let* reference :=
    (match references a with
     | Some (String c r) => ret (Supplied (String c r))
     | _ =>
         match chat_project (chat a) with
         | Some {| project_external_id := Some (String c x) |} =>
             let* reference :=
               call_get_reference english_text (default EmptyString (openai_key a))
                 (String c x) (match_number a) in
             ret (Retrieved reference)
         | _ => ret (Supplied EmptyString)
         end
     end) in
  stamp stats "reference_end_time" ;;
  stamp stats "response_start_time" ;;
  let prompt :=
    if PyStr.truthy (chat_prompt (chat a)) then chat_prompt (chat a)
    else match chat_project (chat a) with
         | Some project => project_prompt project
         | None => None
         end in
  let* chat_history := (fun w => (Ret (chat_history_of (rows w) (chat a) nurse_query), w)) in
  ret {| p_english_text := english_text; p_language := language;
         p_reference := reference; p_prompt := prompt;
         p_chat_history := chat_history |}.

Definition helper_of (a : Args) (p : Prepared) : LangChainHelper :=
  {| lc_stream := stream a;
     lc_openai_api_key := default EmptyString (openai_key a);
     lc_prompt_template := p_prompt p;
     lc_temperature := temperature a |}.

(** Lines 298-318: the branch [stream == False]. *)
Definition converse_blocking (a : Args) (p : Prepared) : M ChatMessage.t :=
  let* response :=
    call (CallGetResponse (p_english_text p))
         (get_response (helper_of a p) (p_english_text p) (p_reference p) (p_chat_history p)) in
  let chat_response := PyStr.replace response "Ayushma: " EmptyString in
  stamp (stats_of a) "response_end_time" ;;
  let* result :=
    handle_post_response chat_response (chat a) (match_number a) (user_language a)
      (temperature a) (stats_of a) (p_language p) (generate_audio a) in
  ret (snd result).

(** [queue.Queue]: [empty()] and [get(True, timeout)]. A blocked [get] waits
    through at most [timeout] batches of the producer. *)
Definition Queue_empty (token_queue : list QValue) : bool :=
  match token_queue with
  | [] => true
  | _ :: _ => false
  end.

Definition queue_Empty : Exn := {| exn_class := "Empty"; exn_text := EmptyString |}.

Fixpoint Queue_get (timeout : nat) (token_queue : list QValue) (producer : list (list QValue))
    : option QValue * list QValue * list (list QValue) :=
  match token_queue with
  | item :: token_queue' => (Some item, token_queue', producer)
  | [] =>
      match timeout with
      | O => (None, [], producer)
      | S timeout' => Queue_get timeout' (hd [] producer) (tl producer)
      end
  end.

(** [chat_response += next_token] with a [next_token] that is no [str]. *)
Definition concat_TypeError (class_name : string) : Exn :=
  {| exn_class := "TypeError";
     exn_text := "can only concatenate str (not " +:+ String PyStr.dquote class_name
                 +:+ String PyStr.dquote ") to str" |}.

(** How the [try] block of lines 344-386 is left. *)
Inductive Exit :=
| Broke
| Threw (e : Exn)
| Looping (skip_token : nat) (chat_response : string).

Record Consumed := {
  c_yields : list Yielded;
  c_exit : Exit;
  c_world : World
}.

(** Lines 352-377: the end marker was taken off the queue. *)
Definition finish (a : Args) (p : Prepared) (chat_response : string)
    (out : list Yielded) (w : World) : Consumed :=
  match (stamp (stats_of a) "response_end_time" ;;
         handle_post_response chat_response (chat a) (match_number a) (user_language a)
           (temperature a) (stats_of a) (p_language p) (generate_audio a)) w with
  | (Ret (translated_chat_response, url, _), w') =>
      {| c_yields :=
           out ++ [YieldData (create_json_response (local_translated_text a)
                                (chat_external_id (chat a)) EmptyString
                                translated_chat_response true url)];
         c_exit := Broke;
         c_world := w' |}
  | (Raise e, w') => {| c_yields := out; c_exit := Threw e; c_world := w' |}
  end.

(** Lines 345-386: the [while True] loop, one unit of fuel per iteration.
    Before each iteration the producer's next batch reaches the queue. *)
Fixpoint consume (fuel : nat) (a : Args) (p : Prepared)
    (token_queue : list QValue) (producer : list (list QValue))
    (skip_token : nat) (chat_response : string)
    (out : list Yielded) (w : World) : Consumed :=
  match fuel with
  | O => {| c_yields := out; c_exit := Looping skip_token chat_response; c_world := w |}
  | S fuel' =>
      let token_queue := token_queue ++ hd [] producer in
      let producer := tl producer in
      if Queue_empty token_queue then
        consume fuel' a p token_queue producer skip_token chat_response out w
      else
        match Queue_get 10 token_queue producer with
        | (None, _, _) => {| c_yields := out; c_exit := Threw queue_Empty; c_world := w |}
        | (Some next_token, token_queue, producer) =>
            if (0 <? skip_token)%nat then
              consume fuel' a p token_queue producer (skip_token - 1) chat_response out w
            else
              match next_token with
              | RESPONSE_END => finish a p chat_response out w
              | Token text =>
                  let chat_response := chat_response +:+ text in
                  consume fuel' a p token_queue producer skip_token chat_response
                    (out ++ [YieldData (create_json_response (local_translated_text a)
                                          (chat_external_id (chat a)) text chat_response
                                          false None)]) w
              | Other class_name =>
                  {| c_yields := out; c_exit := Threw (concat_TypeError class_name);
                     c_world := w |}
              end
        end
  end.

(** Lines 387-415: the [except Exception as e] block. *)
Definition on_exception (a : Args) (p : Prepared) (e : Exn) : M JsonResponse :=
  let error_text := str_exn e in
  let* translated_error_text :=
    (if negb (String.eqb (user_language a) "en-IN") then
       call (CallTranslate (user_language a) error_text)
            (translate_text (user_language a) error_text)
     else ret error_text) in
  let* meta := read_response_meta (stats_of a) in
  ChatMessage_objects_create
    {| ChatMessage.pk := 0%nat;
       ChatMessage.chat := chat_id (chat a);
       ChatMessage.messageType := AYUSHMA;
       ChatMessage.message := Some translated_error_text;
       ChatMessage.original_message := error_text;
       ChatMessage.language := p_language p;
       ChatMessage.top_k := None;
       ChatMessage.temperature := None;
       ChatMessage.ayushma_audio_url := None;
       ChatMessage.meta := Some meta |} ;;
  ret (create_json_response (local_translated_text a) (chat_external_id (chat a))
         EmptyString (str_exn e) true None).

(** Lines 321-415: the streaming branch. *)
Definition converse_streaming (fuel : nat) (a : Args) (p : Prepared) (w : World) : Run :=
  let producer :=
    get_aresponse (helper_of a p) (p_english_text p) (p_reference p) (p_chat_history p) in
  let w := record w (StartProducer (p_english_text p)) in
  let chat_response := EmptyString in
  let skip_token := String.length "Ayushma: " in
  let tried := consume fuel a p [] producer skip_token chat_response [] w in
  match c_exit tried with
  | Broke => {| yields := c_yields tried; ending := Returned; final := c_world tried |}
  | Looping _ _ => {| yields := c_yields tried; ending := Running; final := c_world tried |}
  | Threw e =>
      match on_exception a p e (c_world tried) with
      | (Ret event, w') =>
          {| yields := c_yields tried ++ [YieldData event]; ending := Returned; final := w' |}
      | (Raise e', w') =>
          {| yields := c_yields tried; ending := Raised e'; final := w' |}
      end
  end.

(** [converse], run until the generator is exhausted (its body starts at
    the first [next()] of the caller). *)
Definition converse (fuel : nat) (a : Args) (w : World) : Run :=
  if negb (PyStr.truthy (openai_key a)) then
    {| yields := []; ending := Raised missing_key; final := w |}
  else
    match prepare a w with
    | (Raise e, w1) => {| yields := []; ending := Raised e; final := w1 |}
    | (Ret p, w1) =>
        if negb (stream a) then
          match converse_blocking a p w1 with
          | (Ret chat_message, w2) =>
              {| yields := [YieldMessage chat_message]; ending := Returned; final := w2 |}
          | (Raise e, w2) => {| yields := []; ending := Raised e; final := w2 |}
          end
        else converse_streaming fuel a p w1
    end.

End Pipeline.

(** ** Vocabulary of the statements *)

(** [sub] occurs in [s]. *)
Definition occurs (sub s : string) : Prop :=
  exists before after, s = before +:+ sub +:+ after.

(** The stored text after marker extraction. *)
Definition without_references (chat_text : string) : string :=
  let ref_start_idx := PyStr.find chat_text ref_text in
  if ref_start_idx =? -1 then chat_text
  else PyStr.strip (PyStr.slice_to chat_text ref_start_idx).

(** The tokens of a list, one after the other. *)
Definition join (tokens : list string) : string :=
  foldr String.append EmptyString tokens.

(** Calls to speech synthesis and to the upload in a trace. *)
Definition is_audio_call (e : Effect) : bool :=
  match e with
  | CallTextToSpeech _ _ | CallUpload _ _ => true
  | _ => false
  end.

Definition audio_calls (t : list Effect) : nat :=
  length (List.filter is_audio_call t).

Definition is_save (e : Effect) : bool :=
  match e with
  | DbSave _ => true
  | _ => false
  end.

(** The four timing marks of the audio stages. *)
Definition audio_marks : list string :=
  ["tts_start_time"; "tts_end_time"; "upload_start_time"; "upload_end_time"].

(** [meta[key]] *)
Fixpoint meta_get (m : Meta) (key : string) : option time :=
  match m with
  | [] => None
  | (k, v) :: rest => if String.eqb k key then v else meta_get rest key
  end.

(** The world after [stats[key] = time.time()]. *)
Definition stamped (d : nat) (key : string) (w : World) : World :=
  set_dicts (tick w) (<[d := <[key := clock w]> (dict_at w d)]> (dicts w)).

Section Statements.
Context {C : Collaborators}.

(** The event of the [i]-th token that got past the skipped prefix: the
    token and all the text so far. *)
Definition delta_event (a : Args) (text cumulative : string) : Yielded :=
  YieldData (create_json_response (local_translated_text a)
               (chat_external_id (chat a)) text cumulative false None).

Definition delta_events (a : Args) (survivors : list string) : list Yielded :=
  imap (fun i text => delta_event a text (join (take (S i) survivors))) survivors.

(** The terminal event of a turn that ended well. *)
Definition final_event (a : Args) (text : string) (url : option string) : Yielded :=
  YieldData (create_json_response (local_translated_text a)
               (chat_external_id (chat a)) EmptyString text true url).

(** The terminal event of the [except] block. *)
Definition error_event (a : Args) (e : Exn) : Yielded :=
  YieldData (create_json_response (local_translated_text a)
               (chat_external_id (chat a)) EmptyString (str_exn e) true None).

(** The loop body applied to the values in the order they leave the queue,
    with no producer and no clock: what the loop does once the schedule is
    flattened. *)
Fixpoint drain (a : Args) (p : Prepared) (values : list QValue)
    (skip_token : nat) (chat_response : string)
    (out : list Yielded) (w : World) : Consumed :=
  match values with
  | [] => {| c_yields := out; c_exit := Looping skip_token chat_response; c_world := w |}
  | next_token :: rest =>
      if (0 <? skip_token)%nat then
        drain a p rest (skip_token - 1) chat_response out w
      else
        match next_token with
        | RESPONSE_END => finish a p chat_response out w
        | Token text =>
            drain a p rest skip_token (chat_response +:+ text)
              (out ++ [delta_event a text (chat_response +:+ text)]) w
        | Other class_name =>
            {| c_yields := out; c_exit := Threw (concat_TypeError class_name);
               c_world := w |}
        end
  end.

(** The rows of [w'] hold, at the key the next [create] of [w] gets, a
    message that the last step of [handle_post_response] never wrote. *)
Definition left_unfinished (w w' : World) : Prop :=
  exists row, rows w' !! length (rows w) = Some row
              /\ ChatMessage.message row = None
              /\ ChatMessage.ayushma_audio_url row = None
              /\ ChatMessage.meta row = None.

(** The text shown to the caller for the stored text [stored]: translated
    unless the caller's language is the default. *)
Definition display_text (user_language stored : string) : Outcome string :=
  if negb (String.eqb user_language "en-IN")
  then translate_text user_language stored
  else Ret stored.

(** One of the three enhancement stages raises [e] when
    [handle_post_response] reaches it. *)
Definition stage_fails (chat : Chat) (user_language stored : string)
    (generate_audio : bool) (w : World) (e : Exn) : Prop :=
  display_text user_language stored = Raise e
  \/ (exists shown,
        display_text user_language stored = Ret shown
        /\ generate_audio = true
        /\ text_to_speech shown user_language = Raise e)
  \/ (exists shown c audio,
        display_text user_language stored = Ret shown
        /\ generate_audio = true
        /\ text_to_speech shown user_language = Ret (Some (String c audio))
        /\ upload_file (String c audio) (s3_key chat (uuid4 (uuids w))) = Raise e).

(** The marks of the audio stages as a stored [meta] shows them. *)
Definition audio_meta (mt : Meta) : list (option time) :=
  [meta_get mt "tts_start"; meta_get mt "tts_end";
   meta_get mt "upload_start"; meta_get mt "upload_end"].

Definition audio_stats (d : gmap string time) : list (option time) :=
  (fun key => d !! key) <$> audio_marks.

(** What the producer of a turn puts on the queue. *)
Definition pushed (a : Args) (p : Prepared) : list (list QValue) :=
  get_aresponse (helper_of a p) (p_english_text p) (p_reference p) (p_chat_history p).

(** The world when the loop is entered. *)
Definition started (p : Prepared) (w : World) : World :=
  record w (StartProducer (p_english_text p)).

(** The loop is still going round: nothing shown, nothing stored. *)
Definition still_waiting (p : Prepared) (w : World) : Run :=
  {| yields := []; ending := Running; final := started p w |}.

(** The [try] block of the streaming branch, from its first iteration. *)
Definition tried (fuel : nat) (a : Args) (p : Prepared) (w : World) : Consumed :=
  consume fuel a p [] (pushed a p) (String.length "Ayushma: ") EmptyString []
    (started p w).

(** The message the [except] block stores for the exception [e], shown to
    the caller as [shown]. *)
Definition error_message (a : Args) (p : Prepared) (e : Exn) (shown : string)
    (w : World) : ChatMessage.t :=
  {| ChatMessage.pk := length (rows w);
     ChatMessage.chat := chat_id (chat a);
     ChatMessage.messageType := AYUSHMA;
     ChatMessage.message := Some shown;
     ChatMessage.original_message := str_exn e;
     ChatMessage.language := p_language p;
     ChatMessage.top_k := None;
     ChatMessage.temperature := None;
     ChatMessage.ayushma_audio_url := None;
     ChatMessage.meta := Some (response_meta (dict_at w (stats_of a))) |}.

(** Steps that leave the clock, the uuid source, the dicts, the rows and
    the audio services alone. *)
Definition calm (w w' : World) : Prop :=
  clock w' = clock w /\ uuids w' = uuids w /\ dicts w' = dicts w
  /\ rows w' = rows w /\ audio_calls (trace w') = audio_calls (trace w).

(** The documents an id stands for: the one found, or none. *)
Definition resolve (doc_id : string) : gset nat :=
  match Document_objects_get doc_id with
  | Found doc => {[doc]}
  | _ => ∅
  end.

Definition resolved (doc_ids : list string) : gset nat :=
  ⋃ (resolve <$> doc_ids).

(** The lookup of the id answers, with a document or with
    [Document.DoesNotExist]. *)
Definition answers (doc_id : string) : Prop :=
  forall e, Document_objects_get doc_id <> LookupRaises e.

End Statements.

(** The audio marks of the message a blocking turn hands out. *)
Definition persisted_audio_marks (yielded : list Yielded) : option (list (option time)) :=
  match yielded with
  | [YieldMessage m] =>
      match ChatMessage.meta m with
      | Some mt => Some [meta_get mt "tts_start"; meta_get mt "tts_end";
                         meta_get mt "upload_start"; meta_get mt "upload_end"]
      | None => None
      end
  | _ => None
  end.

(** The audio marks in the [meta] of the row stored last. *)
Definition stored_audio_marks (w : World) : option (list (option time)) :=
  match last (rows w) with
  | Some m =>
      match ChatMessage.meta m with
      | Some mt => Some [meta_get mt "tts_start"; meta_get mt "tts_end";
                         meta_get mt "upload_start"; meta_get mt "upload_end"]
      | None => None
      end
  | None => None
  end.

(** The events with [stop] set among what a turn handed out. *)
Definition is_terminal (y : Yielded) : bool :=
  match y with
  | YieldData d => json_stop d
  | YieldMessage _ => false
  end.

(** ** Concrete turns *)

Module Scenario.

Definition room : Chat :=
  {| chat_id := 1%nat; chat_external_id := "chat-1";
     chat_prompt := None; chat_project := None |}.

(** An empty database, no dict yet at any address. *)
Definition fresh : World :=
  {| clock := 100%nat; uuids := 0%nat; rows := [];
     reference_documents := ∅; dicts := ∅; trace := [] |}.

Definition translation_down : Exn :=
  {| exn_class := "APIException"; exn_text := "Translation failed" |}.

(** Services that answer: documents 12 and 7 exist, the model replies
    "Ayushma: Hi there" when asked for a whole answer, and the producer of
    a streamed answer puts the batches [producer]. Translation answers or
    raises according to [translation_works]. *)
Definition services (translation_works : bool) (producer : list (list QValue))
    : Collaborators :=
  {| translate_text := fun target text =>
       if translation_works then Ret ("[" +:+ target +:+ "] " +:+ text)
       else Raise translation_down;
     text_to_speech := fun text lang => Ret (Some ("mp3:" +:+ text));
     upload_file := fun audio key => Ret (Some ("https://bucket/" +:+ key));
     Document_objects_get := fun external_id =>
       if String.eqb external_id "12" then Found 12%nat
       else if String.eqb external_id "7" then Found 7%nat
       else DoesNotExist;
     uuid4 := fun _ => "0000";
     Embedding := nat;
     retrieval := Retrieval.toy_index [];
     get_response := fun _ _ _ _ => Ret "Ayushma: Hi there";
     get_aresponse := fun _ _ _ _ => producer |}.

Definition turn (user_language : string) (stream generate_audio : bool) : Args :=
  {| english_text := "Hello"; local_translated_text := "Hello";
     openai_key := Some "sk-test"; chat := room; match_number := 3;
     user_language := user_language; temperature := 0; stats := None;
     stream := stream; references := None; generate_audio := generate_audio |}.

Definition prepared : Prepared :=
  {| p_english_text := "Hello"; p_language := "en"; p_reference := Supplied EmptyString;
     p_prompt := None; p_chat_history := [] |}.

(** The tokens of scenario B of the specification, then the end marker. *)
Definition scenario_b : list QValue :=
  [Token "Ayushma:"; Token " Hi"; Token " there"; Token "References:";
   Token " 12, 7"; RESPONSE_END].

(** The role label as nine values, one per character. *)
Definition label : list QValue :=
  Token <$> ["A"; "y"; "u"; "s"; "h"; "m"; "a"; ":"; " "].

Definition answer_with_marker : list QValue :=
  [Token " Hi"; Token " there"; Token "References:"; Token " 12, 7"; RESPONSE_END].

Definition turn_without_key : Args :=
  {| english_text := "Hello"; local_translated_text := "Hello";
     openai_key := None; chat := room; match_number := 3;
     user_language := "en-IN"; temperature := 0; stats := None;
     stream := true; references := None; generate_audio := true |}.

(** A stored answer with no marker in it. *)
Definition plain_answer : ChatMessage.t :=
  {| ChatMessage.pk := 0%nat; ChatMessage.chat := 1%nat;
     ChatMessage.messageType := AYUSHMA; ChatMessage.message := None;
     ChatMessage.original_message := "Hi there"; ChatMessage.language := "en";
     ChatMessage.top_k := Some 3; ChatMessage.temperature := Some 0;
     ChatMessage.ayushma_audio_url := None; ChatMessage.meta := None |}.

(** A producer that never puts anything. *)
Definition silent : Collaborators := services true (replicate 20 []).

(** A short answer: the end marker is the third value. *)
Definition early_end : Collaborators :=
  services true [[Token "Ayushma:"; Token " Hi"; RESPONSE_END]].

(** Scenario B as the specification gives it, and with the label as nine
    values. *)
Definition as_specified : Collaborators := services true [scenario_b].
Definition after_label : Collaborators := services true [label ++ answer_with_marker].

(** A producer that hands over an exception object after one token. *)
Definition broken_stream (translation_works : bool) : Collaborators :=
  services translation_works [label ++ [Token " partial"; Other "Exception"]].

(** Eleven tokens in six batches, and no end marker. *)
Definition eleven : list string :=
  ["A"; "y"; "u"; "s"; "h"; "m"; "a"; ":"; " "; " Hi"; " there"].

Definition in_batches : list (list QValue) :=
  [[Token "A"; Token "y"]; [];
   [Token "u"; Token "s"; Token "h"; Token "m"; Token "a"; Token ":"; Token " "];
   [Token " Hi"]; []; [Token " there"]].

End Scenario.

(** ** Vocabulary of the further statements *)

(** Effects of marker extraction before its [save]: lookups of documents
    and additions to the table of references. *)
Definition is_lookup (e : Effect) : bool :=
  match e with
  | DocumentGet _ | DbAddReference _ _ => true
  | _ => false
  end.

(** The namespace [converse] asks [get_reference] for: none when the caller
    supplies references, or when the chat has no project with an id. *)
Definition namespace_of (a : Args) : option string :=
  match references a with
  | Some (String _ _) => None
  | _ =>
      match chat_project (chat a) with
      | Some {| project_external_id := Some (String c x) |} => Some (String c x)
      | _ => None
      end
  end.

(** The reference of a turn that needs no retrieval. *)
Definition supplied_reference (a : Args) : string :=
  match references a with
  | Some (String c r) => String c r
  | _ => EmptyString
  end.

(** The query as [converse] stores it and sends it on. *)
Definition clean_query (a : Args) : string :=
  PyStr.replace (english_text a) (String PyStr.newline EmptyString) " ".

(** A stored message as the model is shown it. *)
Definition as_history (m : ChatMessage.t) : HistoryMessage :=
  match ChatMessage.messageType m with
  | USER => HumanMessage ("Nurse: " +:+ format_message (ChatMessage.message m))
  | AYUSHMA => AIMessage ("Ayushma: " +:+ format_message (ChatMessage.message m))
  end.

(** Every row has its position as primary key. *)
Definition rows_keyed (w : World) : Prop :=
  forall i m, rows w !! i = Some m -> ChatMessage.pk m = i.

(** The exception of line 378 for a value of class [class_name]. *)
Definition not_a_token (class_name : string) : Exn := concat_TypeError class_name.

(** The message [converse] stores for the query (lines 255-265). *)
Definition nurse_query (a : Args) (w : World) : ChatMessage.t :=
  {| ChatMessage.pk := length (rows w);
     ChatMessage.chat := chat_id (chat a);
     ChatMessage.messageType := USER;
     ChatMessage.message := Some (local_translated_text a);
     ChatMessage.original_message := clean_query a;
     ChatMessage.language := hd EmptyString (PyStr.split "-" (user_language a));
     ChatMessage.top_k := None;
     ChatMessage.temperature := None;
     ChatMessage.ayushma_audio_url := None;
     ChatMessage.meta :=
       Some [("translate_start",
              dict_at w (stats_of a) !! "request_translation_start_time");
             ("translate_end",
              dict_at w (stats_of a) !! "request_translation_end_time")] |}.

(** The world once the query is stored and retrieval is about to start. *)
Definition after_query (a : Args) (w : World) : World :=
  stamped (stats_of a) "reference_start_time"
    (record (set_rows w (rows w ++ [nurse_query a w])) (DbCreate (length (rows w)))).

(** What [get_reference] answers for the query of the turn, with the calls
    it makes, and the world once it has answered. *)
Definition retrieved {C : Collaborators} (a : Args) (namespace : string)
    : Outcome Retrieval.Reference * list Retrieval.Call :=
  Retrieval.get_reference (I := retrieval) (clean_query a)
    (default EmptyString (openai_key a)) namespace (match_number a).

Definition after_retrieval {C : Collaborators} (a : Args) (w : World)
    (namespace : string) (calls : list (@Retrieval.Call Embedding)) : World :=
  record_all (after_query a w) (retrieval_effect namespace (match_number a) <$> calls).

(** The world once the reference is there. *)
Definition after_reference (a : Args) (w0 : World) : World :=
  stamped (stats_of a) "response_start_time"
    (stamped (stats_of a) "reference_end_time" w0).

(** [chat.prompt or (chat.project and chat.project.prompt)] *)
Definition prompt_of (a : Args) : option string :=
  if PyStr.truthy (chat_prompt (chat a)) then chat_prompt (chat a)
  else match chat_project (chat a) with
       | Some project => project_prompt project
       | None => None
       end.

(** What [prepare] hands on, for the reference [reference]. *)
Definition prepared_with (a : Args) (w : World) (reference : TurnReference) : Prepared :=
  {| p_english_text := clean_query a;
     p_language := hd EmptyString (PyStr.split "-" (user_language a));
     p_reference := reference;
     p_prompt := prompt_of a;
     p_chat_history :=
       chat_history_of (rows w ++ [nurse_query a w]) (chat a) (nurse_query a w) |}.

(** ** Further concrete turns *)

Module Cases.

(** A stored answer with a marker section. *)
Definition answer_with_references : ChatMessage.t :=
  {| ChatMessage.pk := 0%nat; ChatMessage.chat := 1%nat;
     ChatMessage.messageType := AYUSHMA; ChatMessage.message := None;
     ChatMessage.original_message := " Hi thereReferences: 12, 99";
     ChatMessage.language := "en"; ChatMessage.top_k := Some 3;
     ChatMessage.temperature := Some 0;
     ChatMessage.ayushma_audio_url := None; ChatMessage.meta := None |}.

(** A database that holds this answer. *)
Definition one_answer : World :=
  {| clock := 100%nat; uuids := 0%nat; rows := [answer_with_references];
     reference_documents := ∅; dicts := ∅; trace := [] |}.

(** A text of two lines, as a match of the index holds it. *)
Definition two_lines : string := String.append "How" (String PyStr.newline "are you").

Definition found : list Retrieval.QueryResponse :=
  [[{| Retrieval.metadata_document := Some "28";
       Retrieval.metadata_text := Some two_lines |}]].

(** A text that [split_text] cuts in two parts, of 8192 and of 8 characters. *)
Definition long_text : string := Retrieval.repeated "a" 8200.

(** A chat of a project, for which retrieval is asked. *)
Definition ward : Chat :=
  {| chat_id := 2%nat; chat_external_id := "chat-2"; chat_prompt := None;
     chat_project := Some {| project_external_id := Some "project-1";
                             project_prompt := Some "Be brief." |} |}.

Definition ward_turn : Args :=
  {| english_text := "Hello"; local_translated_text := "Hello";
     openai_key := Some "sk-test"; chat := ward; match_number := 3;
     user_language := "en-IN"; temperature := 0; stats := None;
     stream := true; references := None; generate_audio := false |}.

Definition index_down : Exn :=
  {| exn_class := "PineconeException"; exn_text := "index not found" |}.

Definition speech_failed : Exn :=
  {| exn_class := "APIException"; exn_text := "Speech synthesis failed" |}.

(** An index that cannot be reached: the tokenizer counts characters, the
    embedding API answers, every query raises. *)
Definition unreachable_index : @Retrieval.Index nat :=
  {| Retrieval.num_tokens_from_string := fun text _ => String.length text;
     Retrieval.get_embedding := fun text _ => Ret (String.length text);
     Retrieval.PINECONE_query := fun _ _ _ => Raise index_down |}.

(** The services of [Scenario.services] with this index. *)
Definition retrieval_down : Collaborators :=
  let base := Scenario.services true [] in
  {| translate_text := @translate_text base;
     text_to_speech := @text_to_speech base;
     upload_file := @upload_file base;
     Document_objects_get := @Document_objects_get base;
     uuid4 := @uuid4 base;
     Embedding := nat;
     retrieval := unreachable_index;
     get_response := @get_response base;
     get_aresponse := @get_aresponse base |}.

(** The services of [Scenario.services] with an embedding API that fails on
    the query "Hello". *)
Definition embedding_down : Collaborators :=
  let base := Scenario.services true [] in
  {| translate_text := @translate_text base;
     text_to_speech := @text_to_speech base;
     upload_file := @upload_file base;
     Document_objects_get := @Document_objects_get base;
     uuid4 := @uuid4 base;
     Embedding := nat;
     retrieval := Retrieval.toy_index ["Hello"];
     get_response := @get_response base;
     get_aresponse := @get_aresponse base |}.

(** The same services with a speech synthesis that answers [voice]. *)
Definition speaking (voice : Outcome (option string)) (producer : list (list QValue))
    : Collaborators :=
  let base := Scenario.services true producer in
  {| translate_text := @translate_text base;
     text_to_speech := fun _ _ => voice;
     upload_file := @upload_file base;
     Document_objects_get := @Document_objects_get base;
     uuid4 := @uuid4 base;
     Embedding := nat;
     retrieval := Retrieval.toy_index [];
     get_response := @get_response base;
     get_aresponse := @get_aresponse base |}.

(** The label, one token and the end marker. *)
Definition short_answer : list QValue := Scenario.label ++ [Token " Hi"; RESPONSE_END].

End Cases.

(** ** Strings *)

Example find_marker : PyStr.find " Hi thereReferences: 12, 7" "References:" = 9.
Proof. reflexivity. Qed.

Example find_absent : PyStr.find "Hi there" "References:" = -1.
Proof. reflexivity. Qed.

Example split_ids : PyStr.split "," " 12, 7" = [" 12"; " 7"].
Proof. reflexivity. Qed.

Example split_keeps_empty :
  PyStr.split "," "a,,b," = ["a"; EmptyString; "b"; EmptyString].
Proof. reflexivity. Qed.

Example strip_spaces : PyStr.strip " Hi there " = "Hi there".
Proof. reflexivity. Qed.

Example replace_label : PyStr.replace "Ayushma: Hi there" "Ayushma: " EmptyString = "Hi there".
Proof. reflexivity. Qed.

Example language_of_locale : hd EmptyString (PyStr.split "-" "en-IN") = "en".
Proof. reflexivity. Qed.

Example ids_of_marker_section :
  parse_doc_ids " Hi thereReferences: 12, 7" 9 = ["12"; "7"].
Proof. reflexivity. Qed.

Example ids_trimmed_and_unique :
  parse_doc_ids "References: [12], '7'., 12,, *3*" 0 = ["7"; "12"; "3"].
Proof. reflexivity. Qed.


Lemma append_nil (s : string) : EmptyString +:+ s = s.
Proof. reflexivity. Qed.

Lemma append_cons (c : ascii) (s1 s2 : string) :
  String c s1 +:+ s2 = String c (s1 +:+ s2).
Proof. reflexivity. Qed.

Ltac push_append := rewrite ?append_cons, ?append_nil in *.

Lemma append_empty_r (s : string) : s +:+ EmptyString = s.
Proof. induction s as [|c s IH]; push_append; [reflexivity | now rewrite IH]. Qed.

Lemma append_assoc (s1 s2 s3 : string) : (s1 +:+ s2) +:+ s3 = s1 +:+ (s2 +:+ s3).
Proof. induction s1 as [|c s1 IH]; push_append; [reflexivity | now rewrite IH]. Qed.

Lemma prefix_occurs (sub s : string) :
  String.prefix sub s = true -> exists after, s = sub +:+ after.
Proof.
  revert s. induction sub as [|c sub IH]; intros s H.
  - exists s. reflexivity.
  - destruct s as [|b s]; simpl in H; [discriminate|].
    destruct (ascii_dec c b) as [->|]; [|discriminate].
    destruct (IH s H) as [after ->]. exists after. reflexivity.
Qed.

Lemma index_occurs (sub s : string) (n i : nat) :
  String.index n sub s = Some i -> occurs sub s.
Proof.
  revert n i. induction s as [|b s IH]; intros n i H.
  - destruct n, sub; simpl in H; try discriminate.
    exists EmptyString, EmptyString. reflexivity.
  - destruct n as [|n].
    + cbn [String.index] in H.
      destruct (String.prefix sub (String b s)) eqn:Hp.
      * destruct (prefix_occurs _ _ Hp) as [after Ha].
        exists EmptyString, after. exact Ha.
      * destruct (String.index 0 sub s) as [j|] eqn:Hj; [|discriminate].
        destruct (IH _ _ Hj) as (before & after & ->).
        exists (String b before), after. reflexivity.
    + cbn [String.index] in H.
      destruct (String.index n sub s) as [j|] eqn:Hj; [|discriminate].
      destruct (IH _ _ Hj) as (before & after & ->).
      exists (String b before), after. reflexivity.
Qed.

Lemma substring_here (sub after : string) :
  String.substring 0 (String.length sub) (sub +:+ after) = sub.
Proof.
  induction sub as [|c sub IH]; push_append; simpl.
  - destruct after; reflexivity.
  - now rewrite IH.
Qed.

Lemma substring_occurrence (before sub after : string) :
  String.substring (String.length before) (String.length sub)
    (before +:+ sub +:+ after) = sub.
Proof.
  induction before as [|c before IH]; push_append; simpl.
  - apply substring_here.
  - exact IH.
Qed.

(** [find] answers [-1] exactly when the text has no occurrence. *)
Lemma find_absent_iff (s sub : string) :
  sub <> EmptyString -> PyStr.find s sub = -1 <-> ~ occurs sub s.
Proof.
  intros Hne. unfold PyStr.find. split.
  - destruct (String.index 0 sub s) as [i|] eqn:Hi; [lia|].
    intros _ (before & after & ->).
    apply (String.index_correct3 0 (String.length before) _ _ Hi Hne); [lia|].
    apply substring_occurrence.
  - intros Hno. destruct (String.index 0 sub s) as [i|] eqn:Hi; [|reflexivity].
    exfalso. apply Hno. eapply index_occurs; eassumption.
Qed.

Lemma length_append (s1 s2 : string) :
  String.length (s1 +:+ s2) = (String.length s1 + String.length s2)%nat.
Proof. induction s1 as [|c s1 IH]; push_append; simpl; [reflexivity | now rewrite IH]. Qed.

Lemma take_drop_chars (n : nat) (s : string) :
  s = PyStr.take_chars n s +:+ PyStr.drop_chars n s.
Proof.
  revert s. induction n as [|n IH]; intros s; [reflexivity|].
  destruct s as [|c s]; [reflexivity|].
  cbn [PyStr.take_chars PyStr.drop_chars]. push_append. now rewrite <- IH.
Qed.

Lemma length_take_chars (n : nat) (s : string) :
  (String.length (PyStr.take_chars n s) <= n)%nat.
Proof.
  revert s. induction n as [|n IH]; intros s; [simpl; lia|].
  destruct s as [|c s]; simpl; [lia|]. specialize (IH s). lia.
Qed.

Lemma lstrip_suffix (p : ascii -> bool) (s : string) :
  exists before, s = before +:+ PyStr.lstrip p s.
Proof.
  induction s as [|c s [before IH]].
  - exists EmptyString. reflexivity.
  - cbn [PyStr.lstrip]. destruct (p c).
    + exists (String c before). push_append. now rewrite <- IH.
    + exists EmptyString. reflexivity.
Qed.

Lemma rstrip_prefix (p : ascii -> bool) (s : string) :
  exists after, s = PyStr.rstrip p s +:+ after.
Proof.
  induction s as [|c s [after IH]].
  - exists EmptyString. reflexivity.
  - cbn [PyStr.rstrip]. destruct (PyStr.rstrip p s) as [|d r].
    + push_append. subst s. destruct (p c).
      * exists (String c after). reflexivity.
      * exists after. reflexivity.
    + exists after. push_append. now rewrite <- IH.
Qed.

Lemma occurs_inside (sub before s after : string) :
  occurs sub s -> occurs sub (before +:+ s +:+ after).
Proof.
  intros (b & e & ->). exists (before +:+ b), (e +:+ after).
  now rewrite !append_assoc.
Qed.

Lemma occurs_strip (sub s : string) : occurs sub (PyStr.strip s) -> occurs sub s.
Proof.
  unfold PyStr.strip, PyStr.strip_with. intros Hocc.
  destruct (lstrip_suffix PyStr.isspace s) as [before Hl].
  destruct (rstrip_prefix PyStr.isspace (PyStr.lstrip PyStr.isspace s)) as [after Hr].
  rewrite Hl, Hr. now apply occurs_inside.
Qed.

(** No occurrence lies wholly before the first one. *)
Lemma occurs_before_first (s sub : string) (i : nat) :
  sub <> EmptyString ->
  String.index 0 sub s = Some i ->
  ~ occurs sub (PyStr.take_chars i s).
Proof.
  intros Hne Hidx (before & after & Hcut).
  assert (Hlen : (String.length before < i)%nat).
  { pose proof (length_take_chars i s) as Hle.
    rewrite Hcut, !length_append in Hle.
    destruct sub; [congruence|]. simpl in Hle. lia. }
  apply (String.index_correct2 0 i sub s Hidx (String.length before)); [lia | exact Hlen|].
  rewrite (take_drop_chars i s), Hcut, !append_assoc.
  apply substring_occurrence.
Qed.

(** The stored text has no marker left. *)
Lemma without_references_clean (s : string) : ~ occurs ref_text (without_references s).
Proof.
  unfold without_references.
  destruct (PyStr.find s ref_text =? -1) eqn:Hfind.
  - apply find_absent_iff; [discriminate|]. now apply Z.eqb_eq.
  - unfold PyStr.find in *.
    destruct (String.index 0 ref_text s) as [i|] eqn:Hidx; [|discriminate].
    intros Hocc%occurs_strip. unfold PyStr.slice_to in Hocc.
    rewrite Nat2Z.id in Hocc.
    now apply (occurs_before_first s ref_text i).
Qed.

(** ** The queue and the loop *)

Section Consumer.
Context {C : Collaborators}.
Variables (a : Args) (p : Prepared).

(** A [get] on a queue that holds something returns at once. *)
Lemma Queue_get_ready (timeout : nat) (item : QValue) (q : list QValue)
    (producer : list (list QValue)) :
  Queue_get timeout (item :: q) producer = (Some item, q, producer).
Proof. destruct timeout; reflexivity. Qed.

(** A [get] on an empty queue gives up when the producer stays silent. *)
Lemma Queue_get_times_out (timeout n : nat) :
  (Queue_get timeout [] (replicate n [])).1.1 = None.
Proof.
  revert n. induction timeout as [|t IH]; intros n; [reflexivity|].
  destruct n as [|n]; simpl.
  - apply (IH 0%nat).
  - apply IH.
Qed.

Lemma Queue_empty_nil (q : list QValue) : Queue_empty q = true -> q = [].
Proof. destruct q; [reflexivity | discriminate]. Qed.

Lemma arrivals_flat (q : list QValue) (producer : list (list QValue)) :
  (q ++ hd [] producer) ++ List.concat (tl producer) = q ++ List.concat producer.
Proof.
  destruct producer as [|batch rest]; simpl.
  - now rewrite !app_nil_r.
  - now rewrite <- app_assoc.
Qed.

Lemma silent_flat (n : nat) : List.concat (replicate n (@nil QValue)) = [].
Proof. induction n as [|n IH]; [reflexivity | exact IH]. Qed.

(** Whatever the fuel and the batches, the loop has applied its body to a
    prefix of the values in the order they were put. *)
Lemma consume_drain_prefix (fuel : nat) :
  forall q producer skip_token chat_response out w,
  exists n,
    consume fuel a p q producer skip_token chat_response out w
    = drain a p (take n (q ++ List.concat producer)) skip_token chat_response out w.
Proof.
  induction fuel as [|fuel IH]; intros q producer skip_token chat_response out w.
  - exists 0%nat. reflexivity.
  - cbn [consume]. rewrite <- (arrivals_flat q producer).
    destruct (q ++ hd [] producer) as [|item q'] eqn:Hq.
    + cbn [Queue_empty]. apply IH.
    + cbn [Queue_empty]. rewrite Queue_get_ready.
      destruct (0 <? skip_token)%nat eqn:Hskip.
      * destruct (IH q' (tl producer) (skip_token - 1)%nat chat_response out w) as [n Hn].
        exists (S n). cbn [take app drain]. rewrite Hskip. exact Hn.
      * destruct item as [text| |class_name].
        -- destruct (IH q' (tl producer) skip_token (chat_response +:+ text)
                      (out ++ [delta_event a text (chat_response +:+ text)]) w) as [n Hn].
           exists (S n). cbn [take app drain]. rewrite Hskip. exact Hn.
        -- exists 1%nat. cbn [take app drain]. rewrite Hskip. reflexivity.
        -- exists 1%nat. cbn [take app drain]. rewrite Hskip. reflexivity.
Qed.

(** With one unit of fuel per batch and per value, every value is handled. *)
Lemma consume_drain_all (fuel : nat) :
  forall q producer skip_token chat_response out w,
    (length producer + length (q ++ List.concat producer) <= fuel)%nat ->
    consume fuel a p q producer skip_token chat_response out w
    = drain a p (q ++ List.concat producer) skip_token chat_response out w.
Proof.
  induction fuel as [|fuel IH]; intros q producer skip_token chat_response out w Hfuel.
  - destruct producer; [|simpl in Hfuel; lia].
    destruct q; [reflexivity | simpl in Hfuel; lia].
  - cbn [consume]. rewrite <- (arrivals_flat q producer) in *.
    assert (Hlen : (length (tl producer) <= length producer)%nat)
      by (destruct producer; simpl; lia).
    destruct (q ++ hd [] producer) as [|item q'] eqn:Hq.
    + cbn [Queue_empty]. apply IH.
      destruct producer as [|batch rest]; simpl in *; lia.
    + cbn [Queue_empty]. rewrite Queue_get_ready.
      cbn [app drain]. simpl in Hfuel.
      destruct (0 <? skip_token)%nat; [apply IH; lia|].
      destruct item; [apply IH; lia | reflexivity | reflexivity].
Qed.

(** Values that all fall within the skipped prefix leave no mark but the
    count, the end marker among them too. *)
Lemma drain_skipped (values : list QValue) :
  forall skip_token chat_response out w,
    (length values <= skip_token)%nat ->
    drain a p values skip_token chat_response out w
    = {| c_yields := out;
         c_exit := Looping (skip_token - length values) chat_response;
         c_world := w |}.
Proof.
  induction values as [|v values IH]; intros skip_token chat_response out w Hlen.
  - cbn [drain length]. now rewrite Nat.sub_0_r.
  - cbn [drain length] in *.
    destruct skip_token as [|k]; [lia|].
    change (0 <? S k)%nat with true. cbn iota.
    replace (S k - 1)%nat with k by lia.
    rewrite IH by lia. reflexivity.
Qed.

Lemma drain_skip_prefix (prefix values : list QValue) :
  forall chat_response out w,
    drain a p (prefix ++ values) (length prefix) chat_response out w
    = drain a p values 0 chat_response out w.
Proof.
  induction prefix as [|v prefix IH]; intros chat_response out w; [reflexivity|].
  cbn [app length drain]. change (0 <? S (length prefix))%nat with true.
  cbn iota. replace (S (length prefix) - 1)%nat with (length prefix) by lia.
  apply IH.
Qed.

Lemma join_cons (t : string) (ts : list string) : join (t :: ts) = t +:+ join ts.
Proof. reflexivity. Qed.

(** Tokens only: the first [skip_token] are dropped, each of the others is
    appended and shown with the text so far. *)
Lemma drain_tokens (ts : list string) :
  forall skip_token chat_response out w,
    drain a p (Token <$> ts) skip_token chat_response out w
    = {| c_yields :=
           out ++ imap (fun i text =>
                          delta_event a text
                            (chat_response +:+ join (take (S i) (drop skip_token ts))))
                       (drop skip_token ts);
         c_exit := Looping (skip_token - length ts)
                           (chat_response +:+ join (drop skip_token ts));
         c_world := w |}.
Proof.
  induction ts as [|t ts IH]; intros skip_token chat_response out w.
  - cbn [fmap list_fmap drain]. rewrite drop_nil. cbn [imap join foldr length].
    now rewrite app_nil_r, append_empty_r, Nat.sub_0_r.
  - cbn [fmap list_fmap drain]. fold (list_fmap _ _ Token ts). fold (fmap Token ts).
    destruct skip_token as [|k].
    + change (0 <? 0)%nat with false. cbn iota. rewrite IH.
      rewrite !drop_0. cbn [imap length]. rewrite <- app_assoc. cbn [app].
      f_equal.
      * f_equal. f_equal.
        -- cbn [take]. rewrite join_cons. cbn [join foldr]. now rewrite append_empty_r.
        -- apply imap_ext. intros i text _. cbn [compose take].
           now rewrite join_cons, append_assoc.
      * f_equal. now rewrite join_cons, append_assoc.
    + change (0 <? S k)%nat with true. cbn iota.
      replace (S k - 1)%nat with k by lia. rewrite IH. reflexivity.
Qed.

(** Tokens once the prefix is behind, and then the rest. *)
Lemma drain_tokens_then (ts : list string) (rest : list QValue) :
  forall chat_response out w,
    drain a p ((Token <$> ts) ++ rest) 0 chat_response out w
    = drain a p rest 0 (chat_response +:+ join ts)
        (out ++ imap (fun i text =>
                        delta_event a text (chat_response +:+ join (take (S i) ts)))
                     ts) w.
Proof.
  induction ts as [|t ts IH]; intros chat_response out w.
  - cbn [fmap list_fmap app imap join foldr]. now rewrite append_empty_r, app_nil_r.
  - cbn [fmap list_fmap app drain]. fold (list_fmap _ _ Token ts). fold (fmap Token ts).
    change (0 <? 0)%nat with false. cbn iota. rewrite IH.
    rewrite join_cons, append_assoc. f_equal.
    cbn [imap]. rewrite <- app_assoc. cbn [app]. f_equal. f_equal.
    + cbn [take]. rewrite join_cons. cbn [join foldr]. now rewrite append_empty_r.
    + apply imap_ext. intros i text _. cbn [compose take].
      now rewrite join_cons, append_assoc.
Qed.

(** Unless the loop is left by [break], it has handed out no event with
    [stop] set. *)
Lemma drain_no_terminal (values : list QValue) :
  forall skip_token chat_response out w,
    c_exit (drain a p values skip_token chat_response out w) <> Broke ->
    List.filter is_terminal (c_yields (drain a p values skip_token chat_response out w))
    = List.filter is_terminal out.
Proof.
  induction values as [|v values IH]; intros skip_token chat_response out w Hexit;
    [reflexivity|].
  cbn [drain] in *. destruct (0 <? skip_token)%nat; [now apply IH|].
  destruct v as [text| |class_name].
  - rewrite IH by exact Hexit. rewrite List.filter_app. cbn. apply app_nil_r.
  - unfold finish in *.
    destruct ((stamp (stats_of a) "response_end_time";;
               handle_post_response chat_response (chat a) (match_number a)
                 (user_language a) (temperature a) (stats_of a) (p_language p)
                 (generate_audio a)) w) as [[[[shown url] m]|e] w'];
      [now contradict Hexit | reflexivity].
  - reflexivity.
Qed.

Lemma consume_no_terminal (fuel : nat) (q : list QValue) (producer : list (list QValue))
    (skip_token : nat) (chat_response : string) (out : list Yielded) (w : World) :
  c_exit (consume fuel a p q producer skip_token chat_response out w) <> Broke ->
  List.filter is_terminal
    (c_yields (consume fuel a p q producer skip_token chat_response out w))
  = List.filter is_terminal out.
Proof.
  destruct (consume_drain_prefix fuel q producer skip_token chat_response out w) as [n ->].
  apply drain_no_terminal.
Qed.

End Consumer.

(** ** The streaming consumer *)

Section Streaming.
Context {C : Collaborators}.
Variables (a : Args) (p : Prepared).

(** C1 (the code departs from the claim). The claim: when the producer puts
    nothing on the queue for more than 10 time units, the [get] times out
    and the turn ends with one Error event and one stored error message.
    The code: [get(True, timeout=10)] is only reached when [empty()] is
    false, so it never waits; with a producer that stays silent for [n]
    batches and for ever after, the loop goes round for any amount of fuel,
    shows nothing and stores nothing. *)
Theorem silent_producer_spins_forever (w : World) (fuel n : nat) :
  pushed a p = replicate n [] ->
  converse_streaming fuel a p w = still_waiting p w.
Proof.
  intros Hsilent. unfold converse_streaming. fold (pushed a p). rewrite Hsilent.
  destruct (consume_drain_prefix a p fuel [] (replicate n []) (String.length "Ayushma: ")
              EmptyString [] (record w (StartProducer (p_english_text p)))) as [m ->].
  rewrite silent_flat. cbn [app]. rewrite take_nil. reflexivity.
Qed.

(** A stream whose end marker is among the first nine values. *)
Lemma short_stream_spins (w : World) (fuel : nat) (values : list QValue) :
  (length values <= String.length "Ayushma: ")%nat ->
  List.concat (pushed a p) = values ->
  converse_streaming fuel a p w = still_waiting p w.
Proof.
  intros Hshort Hpushed. unfold converse_streaming. fold (pushed a p).
  destruct (consume_drain_prefix a p fuel [] (pushed a p) (String.length "Ayushma: ")
              EmptyString [] (record w (StartProducer (p_english_text p)))) as [m ->].
  cbn [app]. rewrite Hpushed, drain_skipped; [reflexivity|].
  rewrite length_take. lia.
Qed.

(** C2 (the code departs from the claim). The claim: a stream that ends
    with the end marker always reaches the Final event, also when it has
    fewer tokens than the skip count. The code: the skip test of line 349
    comes before the test for [RESPONSE_END], so an end marker among the
    first nine values is thrown away like a token; the queue then stays
    empty and the loop goes round for any amount of fuel, with no Final
    event and no stored answer. *)
Theorem early_end_marker_is_skipped (w : World) (fuel : nat) (tokens : list string) :
  (length tokens < String.length "Ayushma: ")%nat ->
  List.concat (pushed a p) = (Token <$> tokens) ++ [RESPONSE_END] ->
  converse_streaming fuel a p w = still_waiting p w.
Proof.
  intros Hshort Hpushed.
  apply (short_stream_spins w fuel ((Token <$> tokens) ++ [RESPONSE_END])); [|exact Hpushed].
  rewrite length_app, length_fmap. cbn [length]. lia.
Qed.

(** The end marker once the nine skipped values are behind: every token
    in between has been shown, and lines 352-377 run on their concatenation. *)
Lemma end_marker_after_prefix (w : World) (fuel : nat) (prefix : list QValue)
    (tokens : list string) :
  length prefix = String.length "Ayushma: " ->
  List.concat (pushed a p) = prefix ++ (Token <$> tokens) ++ [RESPONSE_END] ->
  (length (pushed a p) + length prefix + length tokens + 1 <= fuel)%nat ->
  tried fuel a p w = finish a p (join tokens) (delta_events a tokens) (started p w).
Proof.
  intros Hnine Hpushed Hfuel. unfold tried.
  rewrite consume_drain_all
    by (cbn [app]; rewrite Hpushed, !length_app, length_fmap; cbn [length]; lia).
  cbn [app]. rewrite Hpushed, <- Hnine, drain_skip_prefix, drain_tokens_then.
  cbn [drain]. change (0 <? 0)%nat with false. cbn iota.
  rewrite append_nil. reflexivity.
Qed.

(** The state of the loop for a producer that puts tokens only. *)
Lemma consume_tokens_only (w : World) (fuel : nat)
    (producer : list (list QValue)) (tokens : list string) :
  List.concat producer = Token <$> tokens ->
  let survivors := drop (String.length "Ayushma: ") tokens in
  exists N skip_token,
    (N <= length survivors)%nat
    /\ consume fuel a p [] producer (String.length "Ayushma: ") EmptyString [] w
       = {| c_yields := delta_events a (take N survivors);
            c_exit := Looping skip_token (join (take N survivors));
            c_world := w |}
    /\ ((length producer + length tokens <= fuel)%nat -> N = length survivors).
Proof.
  intros Hpushed survivors.
  assert (Hshape : forall ts : list string,
    drain a p (Token <$> ts) (String.length "Ayushma: ") EmptyString [] w
    = {| c_yields := delta_events a (drop (String.length "Ayushma: ") ts);
         c_exit := Looping (String.length "Ayushma: " - length ts)
                           (join (drop (String.length "Ayushma: ") ts));
         c_world := w |}).
  { intros ts. rewrite drain_tokens. rewrite append_nil. reflexivity. }
  destruct (le_lt_dec (length producer + length tokens) fuel) as [Henough|Hshort].
  - exists (length survivors), (String.length "Ayushma: " - length tokens)%nat.
    split; [lia|]. split; [|reflexivity].
    rewrite consume_drain_all
      by (cbn [app]; rewrite Hpushed, length_fmap; exact Henough).
    cbn [app]. rewrite Hpushed, Hshape, firstn_all. reflexivity.
  - destruct (consume_drain_prefix a p fuel [] producer (String.length "Ayushma: ")
                EmptyString [] w) as [m Hm].
    cbn [app] in Hm. rewrite Hpushed, <- fmap_take, Hshape in Hm.
    assert (Hcut : drop (String.length "Ayushma: ") (take m tokens)
                   = take (m - String.length "Ayushma: ") survivors).
    { unfold survivors. destruct (le_lt_dec m (String.length "Ayushma: ")) as [Hle|Hgt].
      - rewrite drop_ge by (rewrite length_take; lia).
        replace (m - String.length "Ayushma: ")%nat with 0%nat by lia. reflexivity.
      - rewrite take_drop_commute. do 2 f_equal. lia. }
    rewrite Hcut in Hm.
    exists (length (take (m - String.length "Ayushma: ") survivors)),
           (String.length "Ayushma: " - length (take m tokens))%nat.
    split; [rewrite length_take; lia|]. split; [|lia].
    rewrite Hm. rewrite !length_take.
    assert (Hmin : forall k, take (k `min` length survivors) survivors = take k survivors).
    { intros k. destruct (le_lt_dec k (length survivors)).
      - now rewrite Nat.min_l by lia.
      - rewrite Nat.min_r by lia. now rewrite firstn_all, take_ge by lia. }
    now rewrite Hmin.
Qed.

(** The event of a token, field by field. *)
Lemma delta_events_lookup (survivors : list string) (i : nat) (token : string) :
  survivors !! i = Some token ->
  delta_events a survivors !! i
  = Some (YieldData {| json_chat := chat_external_id (chat a);
                       json_input := local_translated_text a;
                       json_delta := token;
                       json_message := join (take (S i) survivors);
                       json_stop := false;
                       json_ayushma_voice := None |}).
Proof.
  intros Hi. unfold delta_events. rewrite list_lookup_imap, Hi. reflexivity.
Qed.

(** C6. For a producer that puts tokens only (no end marker), at any point
    of the run [N] events have been shown, those of the first [N] tokens
    after the nine skipped ones, in the order they were put, and the text
    gathered so far is these [N] tokens one after the other. The event of
    the token of index [i] is a payload whose delta is this token and whose
    message is the text gathered up to it, the first [i + 1] tokens one
    after the other, with [stop] false and no audio. Once there is fuel for
    every batch and every token, [N] counts them all. *)
Theorem cumulative_text_is_concatenation (w : World) (fuel : nat)
    (producer : list (list QValue)) (tokens : list string) :
  List.concat producer = Token <$> tokens ->
  let survivors := drop (String.length "Ayushma: ") tokens in
  let loop := consume fuel a p [] producer (String.length "Ayushma: ") EmptyString [] w in
  exists N skip_token,
    (N <= length survivors)%nat
    /\ length (c_yields loop) = N
    /\ c_exit loop = Looping skip_token (join (take N survivors))
    /\ c_world loop = w
    /\ (forall i token,
          (i < N)%nat ->
          survivors !! i = Some token ->
          c_yields loop !! i
          = Some (YieldData {| json_chat := chat_external_id (chat a);
                               json_input := local_translated_text a;
                               json_delta := token;
                               json_message := join (take (S i) survivors);
                               json_stop := false;
                               json_ayushma_voice := None |}))
    /\ ((length producer + length tokens <= fuel)%nat -> N = length survivors).
Proof.
  intros Hpushed survivors loop.
  destruct (consume_tokens_only w fuel producer tokens Hpushed)
    as (N & skip_token & HN & Hloop & Hall).
  fold survivors in HN, Hloop, Hall. fold loop in Hloop.
  exists N, skip_token. rewrite Hloop. cbn [c_yields c_exit c_world].
  split; [exact HN|].
  split; [unfold delta_events; rewrite length_imap, length_take; lia|].
  split; [reflexivity|]. split; [reflexivity|]. split; [|exact Hall].
  intros i token Hi Htoken.
  rewrite (delta_events_lookup (take N survivors) i token)
    by (rewrite lookup_take_lt by exact Hi; exact Htoken).
  rewrite take_take. replace (S i `min` N)%nat with (S i) by lia. reflexivity.
Qed.

End Streaming.

(** ** Marker extraction *)

Section MarkerExtraction.
Context {C : Collaborators}.

Lemma ref_text_not_empty : ref_text <> EmptyString.
Proof. discriminate. Qed.

Lemma audio_calls_snoc (t : list Effect) (e : Effect) :
  audio_calls (t ++ [e])
  = (audio_calls t + (if is_audio_call e then 1 else 0))%nat.
Proof.
  unfold audio_calls. rewrite List.filter_app, length_app. cbn [List.filter].
  destruct (is_audio_call e); reflexivity.
Qed.

Lemma with_original_message_same (m : ChatMessage.t) :
  ChatMessage.with_original_message m (ChatMessage.original_message m) = m.
Proof. destruct m; reflexivity. Qed.

Lemma calm_refl (w : World) : calm w w.
Proof. repeat split. Qed.

Lemma calm_trans (w1 w2 w3 : World) : calm w1 w2 -> calm w2 w3 -> calm w1 w3.
Proof.
  intros (Hc & Hu & Hd & Hr & Ha) (Hc' & Hu' & Hd' & Hr' & Ha').
  repeat split; congruence.
Qed.

Lemma calm_record (w : World) (e : Effect) :
  is_audio_call e = false -> calm w (record w e).
Proof.
  intros He. repeat split. cbn [trace record].
  rewrite audio_calls_snoc, He. lia.
Qed.

Lemma calm_set_reference_documents (w : World) (r : gmap nat (gset nat)) :
  calm w (set_reference_documents w r).
Proof. repeat split. Qed.

(** Looking the ids up touches the table of references and the trace only. *)
Lemma add_documents_calm (m : ChatMessage.t) (doc_ids : list string) :
  forall w, calm w (add_documents m doc_ids w).2.
Proof.
  induction doc_ids as [|doc_id rest IH]; intros w.
  - apply calm_refl.
  - cbn [add_documents]. unfold bind, call. cbn [fst snd].
    destruct (Document_objects_get doc_id) as [doc| |e].
    + unfold reference_documents_add.
      eapply calm_trans; [|apply IH].
      eapply calm_trans; [|apply calm_record; reflexivity].
      eapply calm_trans; [|apply calm_set_reference_documents].
      apply calm_record; reflexivity.
    + eapply calm_trans; [|apply IH]. apply calm_record; reflexivity.
    + unfold raise. apply calm_record; reflexivity.
Qed.

(** Marker extraction always returns; it hands back the object with the
    marker section cut off, leaves the clock, the dicts and the audio
    services alone, and writes at most the row of the object. *)
Lemma add_reference_documents_effect (m : ChatMessage.t) (w : World) :
  let m' := ChatMessage.with_original_message m
              (without_references (ChatMessage.original_message m)) in
  exists w',
    add_reference_documents m w = (Ret m', w')
    /\ clock w' = clock w /\ uuids w' = uuids w /\ dicts w' = dicts w
    /\ audio_calls (trace w') = audio_calls (trace w)
    /\ (rows w' = rows w \/ rows w' = <[ChatMessage.pk m := m']> (rows w)).
Proof.
  cbn zeta. unfold add_reference_documents, without_references.
  destruct (PyStr.find (ChatMessage.original_message m) ref_text =? -1) eqn:Hfind.
  - exists w. rewrite with_original_message_same. unfold ret. repeat split. now left.
  - set (ids := parse_doc_ids _ _). set (m' := ChatMessage.with_original_message _ _).
    unfold bind at 1, try_pass at 1.
    destruct (add_documents_calm m ids w) as (Hc & Hu & Hd & Hr & Ha).
    destruct (add_documents m ids w) as [[[]|e] w1]; cbn [snd] in *.
    all: unfold bind, ChatMessage_save, ret; cbn [fst snd].
    all: eexists; split; [reflexivity|].
    all: cbn [clock uuids dicts rows trace record set_rows].
    all: rewrite audio_calls_snoc; cbn [is_audio_call].
    all: rewrite Hr; repeat split; try lia; try assumption; now right.
Qed.

(** C7. For an assistant text in which "References:" does not occur, marker
    extraction returns the message as it was (the stored text is the raw
    text) and leaves the world as it was: no reference document is added,
    no document is looked up and nothing is saved. *)
Theorem marker_extraction_without_marker (m : ChatMessage.t) (w : World) :
  ~ occurs ref_text (ChatMessage.original_message m) ->
  add_reference_documents m w = (Ret m, w)
  /\ without_references (ChatMessage.original_message m)
     = ChatMessage.original_message m.
Proof.
  intros Habsent.
  apply (find_absent_iff _ _ ref_text_not_empty) in Habsent.
  unfold add_reference_documents, without_references. rewrite Habsent.
  split; reflexivity.
Qed.

(** Running marker extraction again on its own result changes nothing. *)
Lemma marker_extraction_idempotent (m : ChatMessage.t) (w : World) :
  forall m1 w1,
    add_reference_documents m w = (Ret m1, w1) ->
    add_reference_documents m1 w1 = (Ret m1, w1).
Proof.
  intros m1 w1 Hfirst.
  destruct (add_reference_documents_effect m w) as (w' & Heq & _).
  rewrite Heq in Hfirst. injection Hfirst as <- <-.
  unfold add_reference_documents. cbn [ChatMessage.original_message
    ChatMessage.with_original_message].
  pose proof (without_references_clean (ChatMessage.original_message m)) as Hclean.
  apply (find_absent_iff _ _ ref_text_not_empty) in Hclean. now rewrite Hclean.
Qed.

End MarkerExtraction.

(** ** Post-processing *)


Lemma stamp_run (d : nat) (key : string) (w : World) :
  stamp d key w = (Ret tt, stamped d key w).
Proof. reflexivity. Qed.

Lemma dict_at_stamped (d : nat) (key : string) (w : World) :
  dict_at (stamped d key w) d = <[key := clock w]> (dict_at w d).
Proof. unfold dict_at, stamped. cbn [dicts set_dicts]. now rewrite lookup_insert_eq. Qed.

Lemma dict_at_record (w : World) (e : Effect) (d : nat) :
  dict_at (record w e) d = dict_at w d.
Proof. reflexivity. Qed.

Lemma dict_at_record_all (w : World) (es : list Effect) (d : nat) :
  dict_at (record_all w es) d = dict_at w d.
Proof. reflexivity. Qed.

Lemma dict_at_set_rows (w : World) (r : list ChatMessage.t) (d : nat) :
  dict_at (set_rows w r) d = dict_at w d.
Proof. reflexivity. Qed.

Lemma dict_at_draw_uuid (w : World) (d : nat) :
  dict_at (draw_uuid w) d = dict_at w d.
Proof. reflexivity. Qed.

Lemma dict_at_dicts (w w' : World) (d : nat) :
  dicts w' = dicts w -> dict_at w' d = dict_at w d.
Proof. unfold dict_at. now intros ->. Qed.

Lemma lookup_last_row (l : list ChatMessage.t) (m : ChatMessage.t) :
  (l ++ [m]) !! length l = Some m.
Proof. rewrite lookup_app_r by lia. now rewrite Nat.sub_diag. Qed.

Lemma lookup_saved_row (l : list ChatMessage.t) (n : nat) (m : ChatMessage.t) :
  (n < length l)%nat -> <[n := m]> l !! n = Some m.
Proof. intros Hn. now apply list_lookup_insert_eq. Qed.

Ltac run :=
  unfold bind, ret, call, read_response_meta, ChatMessage_save, draw_uuid4;
  repeat (rewrite stamp_run; cbn beta iota zeta);
  cbn [fst snd].

Ltac project :=
  cbn [clock uuids dicts trace rows record set_rows draw_uuid stamped set_dicts tick
       ChatMessage.pk ChatMessage.with_pk ChatMessage.with_results
       ChatMessage.with_original_message ChatMessage.message
       ChatMessage.ayushma_audio_url ChatMessage.meta
       ChatMessage.original_message new_response] in *.

Ltac settle :=
  project; rewrite ?dict_at_record, ?dict_at_set_rows;
  first [ exact eq_refl | split; exact eq_refl | idtac ].

Ltac not_an_audio_mark :=
  let Hin := fresh "Hin" in
  intros Hin; unfold audio_marks in Hin;
  repeat (apply elem_of_cons in Hin as [Hin|Hin]; [discriminate Hin|]);
  apply elem_of_nil in Hin; exact Hin.

Section PostProcessing.
Context {C : Collaborators}.

(** Up to the end of marker extraction: the new row is there, and nothing
    else has moved. *)
Lemma handle_post_response_front (chat_response : string) (chat : Chat)
    (match_number : Z) (user_language : string) (temperature : Z) (stats : nat)
    (language : string) (generate_audio : bool) (w : World) :
  let fields := new_response chat_response chat match_number temperature language in
  let m0 := ChatMessage.with_pk fields (length (rows w)) in
  let m1 := ChatMessage.with_original_message m0 (without_references chat_response) in
  let w2 := (add_reference_documents m0 (ChatMessage_objects_create fields w).2).2 in
  handle_post_response chat_response chat match_number user_language temperature
    stats language generate_audio w
  = post_stages m1 chat user_language stats generate_audio w2
  /\ clock w2 = clock w /\ uuids w2 = uuids w /\ dicts w2 = dicts w
  /\ audio_calls (trace w2) = audio_calls (trace w)
  /\ length (rows w2) = S (length (rows w))
  /\ (rows w2 !! length (rows w) = Some m0 \/ rows w2 !! length (rows w) = Some m1).
Proof.
  cbn zeta. unfold handle_post_response.
  unfold bind at 1. unfold ChatMessage_objects_create.
  unfold bind at 1. cbn [snd].
  match goal with |- context [add_reference_documents ?m ?w1] =>
    destruct (add_reference_documents_effect m w1) as (w2 & -> & Hc & Hu & Hd & Ha & Hr)
  end.
  cbn [snd]. project. rewrite audio_calls_snoc in Ha. cbn [is_audio_call] in Ha.
  repeat split; try assumption; try lia.
  - destruct Hr as [-> | ->]; rewrite ?length_insert, length_app; cbn [length]; lia.
  - destruct Hr as [-> | ->]; [left; apply lookup_last_row|right].
    apply lookup_saved_row. rewrite length_app. cbn [length]. lia.
Qed.

(** What [post_stages] leaves behind: when it raises, the rows are as they
    were; when it returns, the row of the message holds the returned
    object, with the text, the url and the marks of the dict. *)
Lemma post_stages_outcome (m : ChatMessage.t) (chat : Chat) (user_language : string)
    (stats : nat) (generate_audio : bool) (w : World) :
  let r := post_stages m chat user_language stats generate_audio w in
  match r.1 with
  | Raise e => rows r.2 = rows w
  | Ret (shown, url, saved) =>
      saved = ChatMessage.with_results m shown url (response_meta (dict_at r.2 stats))
      /\ rows r.2 = <[ChatMessage.pk m := saved]> (rows w)
  end.
Proof.
  cbn zeta. unfold post_stages.
  destruct (negb (String.eqb user_language "en-IN")); run;
    [destruct (translate_text user_language (ChatMessage.original_message m)) as [shown|e];
     run; [|reflexivity] |];
    (destruct generate_audio; run;
     [match goal with |- context [text_to_speech ?t ?l] =>
        destruct (text_to_speech t l) as [[[|c audio]|]|e] end; run;
      [| match goal with |- context [upload_file ?x ?k] =>
           destruct (upload_file x k) as [url|e] end; run | | ] |]);
    settle.
Qed.

Lemma audio_meta_response_meta (d : gmap string time) :
  audio_meta (response_meta d) = audio_stats d.
Proof. reflexivity. Qed.

Lemma audio_stats_insert (d : gmap string time) (key : string) (v : time) :
  key ∉ audio_marks -> audio_stats (<[key := v]> d) = audio_stats d.
Proof.
  intros Hkey. unfold audio_stats, audio_marks in *. cbn [fmap list_fmap].
  rewrite !lookup_insert_ne; [reflexivity|..]; intros ->; apply Hkey;
    repeat constructor.
Qed.

(** With speech synthesis off, [post_stages] calls neither audio service,
    leaves the audio marks of the dict alone and returns no url. *)
Lemma post_stages_no_audio (m : ChatMessage.t) (chat : Chat) (user_language : string)
    (stats : nat) (w : World) :
  let r := post_stages m chat user_language stats false w in
  audio_calls (trace r.2) = audio_calls (trace w)
  /\ audio_stats (dict_at r.2 stats) = audio_stats (dict_at w stats)
  /\ (forall shown url saved, r.1 = Ret (shown, url, saved) -> url = None).
Proof.
  cbn zeta. unfold post_stages.
  destruct (negb (String.eqb user_language "en-IN")); run;
    [destruct (translate_text user_language (ChatMessage.original_message m)) as [shown|e];
     run |];
    project;
    repeat first [rewrite dict_at_record | rewrite dict_at_set_rows | rewrite dict_at_stamped];
    rewrite ?audio_calls_snoc; cbn [is_audio_call];
    rewrite ?audio_stats_insert by not_an_audio_mark;
    (split; [lia|]); (split; [reflexivity|]);
    intros shown' url saved [=]; congruence.
Qed.

(** A stage that raises makes [post_stages] raise. *)
Lemma post_stages_failure (m : ChatMessage.t) (chat : Chat) (user_language : string)
    (stats : nat) (generate_audio : bool) (w : World) (e : Exn) :
  stage_fails chat user_language (ChatMessage.original_message m) generate_audio w e ->
  (post_stages m chat user_language stats generate_audio w).1 = Raise e.
Proof.
  unfold stage_fails, display_text, post_stages.
  intros [Hshow | [(shown & Hshow & -> & Htts) | (shown & c & audio & Hshow & -> & Htts & Hup)]];
    destruct (negb (String.eqb user_language "en-IN")); run;
    try discriminate; try rewrite Hshow; try injection Hshow as <-; run;
    try reflexivity; rewrite Htts; run; try reflexivity.
  all: project; rewrite Hup; reflexivity.
Qed.

(** [handle_post_response] with speech synthesis off, as its caller and
    the database see it. *)
Lemma handle_post_response_no_audio (chat_response : string) (chat : Chat)
    (match_number : Z) (user_language : string) (temperature : Z) (stats : nat)
    (language : string) (w : World) :
  let r := handle_post_response chat_response chat match_number user_language
             temperature stats language false w in
  audio_calls (trace r.2) = audio_calls (trace w)
  /\ audio_stats (dict_at r.2 stats) = audio_stats (dict_at w stats)
  /\ (exists row, rows r.2 !! length (rows w) = Some row
                  /\ ChatMessage.ayushma_audio_url row = None)
  /\ (forall shown url saved,
        r.1 = Ret (shown, url, saved) ->
        url = None
        /\ rows r.2 !! length (rows w) = Some saved
        /\ ChatMessage.ayushma_audio_url saved = None
        /\ exists mt, ChatMessage.meta saved = Some mt
                      /\ audio_meta mt = audio_stats (dict_at w stats)).
Proof.
  cbn zeta.
  destruct (handle_post_response_front chat_response chat match_number user_language
              temperature stats language false w)
    as (-> & Hc & Hu & Hd & Ha & Hlen & Hrow).
  set (m1 := ChatMessage.with_original_message _ _) in *.
  set (w2 := (add_reference_documents _ _).2) in *.
  pose proof (post_stages_no_audio m1 chat user_language stats w2) as (Hcalls & Hmarks & Hurl).
  pose proof (post_stages_outcome m1 chat user_language stats false w2) as Hout.
  cbn zeta in *.
  rewrite (dict_at_dicts w w2 stats Hd) in Hmarks.
  destruct (post_stages m1 chat user_language stats false w2) as [[[[shown url] saved]|e] w3];
    cbn [fst snd] in *.
  - destruct Hout as [Hsaved Hrows].
    specialize (Hurl shown url saved eq_refl). subst url.
    assert (Hat : rows w3 !! length (rows w) = Some saved).
    { rewrite Hrows. apply lookup_saved_row. subst m1. cbn [ChatMessage.pk ChatMessage.with_original_message ChatMessage.with_pk]. lia. }
    assert (Hnone : ChatMessage.ayushma_audio_url saved = None) by (now rewrite Hsaved).
    split; [congruence|]. split; [exact Hmarks|]. split; [eauto|].
    intros ? ? ? [= <- <- <-].
    split; [reflexivity|]. split; [exact Hat|]. split; [exact Hnone|].
    eexists. split; [rewrite Hsaved; reflexivity|].
    rewrite audio_meta_response_meta. exact Hmarks.
  - split; [congruence|]. split; [exact Hmarks|]. split; [|discriminate].
    rewrite Hout. destruct Hrow as [Hrow|Hrow]; eexists; (split; [exact Hrow|reflexivity]).
Qed.

(** C8 (amended). With [generate_audio] false, [handle_post_response] calls
    neither speech synthesis nor the upload (the count of such calls in the
    trace does not move), writes none of the four timing marks of these
    stages (the dict holds for them what it held before), and the stored
    message has no audio url, whether the function returns or raises; when
    it returns, the url it returns is [None]. The stored [meta] is not free
    of audio marks for that: lines 228-231 copy them from the dict whatever
    the flag, so the stored marks are those the dict held before the call,
    none for a dict that never had them, those of an earlier turn
    otherwise. *)
Theorem speech_disabled_no_audio (chat_response : string) (chat : Chat)
    (match_number : Z) (user_language : string) (temperature : Z) (stats : nat)
    (language : string) (w : World) :
  let r := handle_post_response chat_response chat match_number user_language
             temperature stats language false w in
  audio_calls (trace r.2) = audio_calls (trace w)
  /\ audio_stats (dict_at r.2 stats) = audio_stats (dict_at w stats)
  /\ (exists row, rows r.2 !! length (rows w) = Some row
                  /\ ChatMessage.ayushma_audio_url row = None)
  /\ (forall shown url saved,
        r.1 = Ret (shown, url, saved) ->
        url = None
        /\ rows r.2 !! length (rows w) = Some saved
        /\ ChatMessage.ayushma_audio_url saved = None
        /\ exists mt, ChatMessage.meta saved = Some mt
                      /\ audio_meta mt = audio_stats (dict_at w stats)).
Proof. apply handle_post_response_no_audio. Qed.

(** C5 (amended). A failure that translation, speech synthesis or the
    upload raises is not absorbed: [handle_post_response] raises it, the
    last write is never reached, and the stored message stays as creation
    and marker extraction left it, with no display text, no audio url and
    no timing marks. When the function returns, the last write has stored
    the display text, the url and the marks of the dict. *)
Theorem enhancement_failure_propagates (chat_response : string) (chat : Chat)
    (match_number : Z) (user_language : string) (temperature : Z) (stats : nat)
    (language : string) (generate_audio : bool) (w : World) :
  let r := handle_post_response chat_response chat match_number user_language
             temperature stats language generate_audio w in
  (forall e,
      stage_fails chat user_language (without_references chat_response)
        generate_audio w e ->
      r.1 = Raise e /\ left_unfinished w r.2)
  /\ (forall shown url saved,
        r.1 = Ret (shown, url, saved) ->
        rows r.2 !! length (rows w) = Some saved
        /\ ChatMessage.message saved = Some shown
        /\ ChatMessage.ayushma_audio_url saved = url
        /\ ChatMessage.meta saved = Some (response_meta (dict_at r.2 stats))).
Proof.
  cbn zeta.
  destruct (handle_post_response_front chat_response chat match_number user_language
              temperature stats language generate_audio w)
    as (-> & Hc & Hu & Hd & Ha & Hlen & Hrow).
  set (m1 := ChatMessage.with_original_message _ _) in *.
  set (w2 := (add_reference_documents _ _).2) in *.
  pose proof (post_stages_outcome m1 chat user_language stats generate_audio w2) as Hout.
  cbn zeta in Hout. split.
  - intros e Hfails.
    assert (Hfails2 : stage_fails chat user_language (ChatMessage.original_message m1)
                        generate_audio w2 e).
    { unfold stage_fails in *. rewrite Hu. exact Hfails. }
    apply (post_stages_failure m1 chat user_language stats) in Hfails2.
    split; [exact Hfails2|].
    rewrite Hfails2 in Hout. unfold left_unfinished. rewrite Hout.
    destruct Hrow as [Hrow|Hrow]; eexists; (split; [exact Hrow|repeat split]).
  - intros shown url saved Hret. rewrite Hret in Hout.
    destruct Hout as [Hsaved Hrows]. rewrite Hrows.
    split; [apply lookup_saved_row; subst m1;
            cbn [ChatMessage.pk ChatMessage.with_original_message ChatMessage.with_pk]; lia|].
    rewrite Hsaved at 1 2 3. repeat split.
Qed.

End PostProcessing.

(** ** The error path *)

Section ErrorPath.
Context {C : Collaborators}.

(** The [except] block, case by case on the translation of the error text. *)
Lemma on_exception_run (a : Args) (p : Prepared) (e : Exn) (w : World) :
  on_exception a p e w
  = match display_text (user_language a) (str_exn e) with
    | Ret shown =>
        let w1 := if negb (String.eqb (user_language a) "en-IN")
                  then record w (CallTranslate (user_language a) (str_exn e))
                  else w in
        (Ret (create_json_response (local_translated_text a) (chat_external_id (chat a))
                EmptyString (str_exn e) true None),
         record (set_rows w1 (rows w ++ [error_message a p e shown w]))
                (DbCreate (length (rows w))))
    | Raise e' => (Raise e', record w (CallTranslate (user_language a) (str_exn e)))
    end.
Proof.
  unfold on_exception, display_text.
  destruct (negb (String.eqb (user_language a) "en-IN")).
  - unfold bind at 1, call at 1.
    destruct (translate_text (user_language a) (str_exn e)); reflexivity.
  - reflexivity.
Qed.

(** C4 (amended). When the [try] block of the streaming branch is left by
    an exception [e]: if the caller's language is the default, or the
    translation of the error text returns, the [except] block stores one
    message (the text of [e] as raw text, its translation as display text),
    hands out one terminal event after the events already shown, with the
    untranslated text of [e], and the generator returns; if the translation
    raises, that exception leaves the generator: no message is stored and
    no terminal event is handed out. *)
Theorem error_path_outcome (fuel : nat) (a : Args) (p : Prepared) (w : World) (e : Exn) :
  c_exit (tried fuel a p w) = Threw e ->
  let before := c_world (tried fuel a p w) in
  let r := converse_streaming fuel a p w in
  match display_text (user_language a) (str_exn e) with
  | Ret shown =>
      yields r = c_yields (tried fuel a p w) ++ [error_event a e]
      /\ List.filter is_terminal (yields r) = [error_event a e]
      /\ ending r = Returned
      /\ rows (final r) = rows before ++ [error_message a p e shown before]
  | Raise e' =>
      yields r = c_yields (tried fuel a p w)
      /\ List.filter is_terminal (yields r) = []
      /\ ending r = Raised e'
      /\ rows (final r) = rows before
  end.
Proof.
  intros Hthrew. cbn zeta.
  assert (Hquiet : List.filter is_terminal (c_yields (tried fuel a p w)) = []).
  { unfold tried. rewrite consume_no_terminal; [reflexivity|].
    fold (tried fuel a p w). rewrite Hthrew. discriminate. }
  unfold converse_streaming.
  fold (pushed a p). fold (started p w). fold (tried fuel a p w).
  rewrite Hthrew, on_exception_run.
  destruct (display_text (user_language a) (str_exn e)) as [shown|e'].
  - cbn zeta. cbn [yields ending final].
    split; [reflexivity|]. split; [|split; [reflexivity|]].
    + rewrite List.filter_app, Hquiet. reflexivity.
    + cbn [rows record set_rows]. reflexivity.
  - cbn [yields ending final]. split; [reflexivity|]. split; [exact Hquiet|].
    split; reflexivity.
Qed.

End ErrorPath.

(** ** Reference documents of a finished turn *)

Section References.
Context {C : Collaborators}.

Lemma references_of_added (w : World) (row doc : nat) (e : Effect) :
  references_of
    (record (set_reference_documents w
               (<[row := {[doc]} ∪ default ∅ (reference_documents w !! row)]>
                  (reference_documents w))) e) row
  = {[doc]} ∪ references_of w row.
Proof.
  unfold references_of. cbn [reference_documents record set_reference_documents].
  now rewrite lookup_insert_eq.
Qed.

(** When every lookup answers, the message gets the documents found. *)
Lemma add_documents_references (m : ChatMessage.t) (doc_ids : list string) :
  forall w,
    Forall answers doc_ids ->
    references_of (add_documents m doc_ids w).2 (ChatMessage.pk m)
    = resolved doc_ids ∪ references_of w (ChatMessage.pk m).
Proof.
  induction doc_ids as [|doc_id rest IH]; intros w Hall.
  - unfold resolved. cbn. set_solver.
  - apply Forall_cons in Hall as [Hhere Hrest].
    cbn [add_documents]. unfold bind at 1, call at 1. cbn [fst snd].
    unfold resolved in *. cbn [fmap list_fmap union_list foldr].
    unfold resolve at 1.
    destruct (Document_objects_get doc_id) as [doc| |e] eqn:Hget.
    + unfold bind at 1, reference_documents_add at 1. rewrite (IH _ Hrest).
      rewrite references_of_added. unfold references_of.
      cbn [reference_documents record]. set_solver.
    + rewrite (IH _ Hrest). unfold references_of.
      cbn [reference_documents record]. set_solver.
    + exfalso. exact (Hhere e Hget).
Qed.

(** The later stages do not touch the table of references. *)
Lemma post_stages_keeps_references (m : ChatMessage.t) (chat : Chat)
    (user_language : string) (stats : nat) (generate_audio : bool) (w : World) :
  reference_documents (post_stages m chat user_language stats generate_audio w).2
  = reference_documents w.
Proof.
  unfold post_stages.
  destruct (negb (String.eqb user_language "en-IN")); run;
    [destruct (translate_text user_language (ChatMessage.original_message m)) as [shown|e];
     run; [|reflexivity] |];
    (destruct generate_audio; run;
     [match goal with |- context [text_to_speech ?t ?l] =>
        destruct (text_to_speech t l) as [[[|c audio]|]|e] end; run;
      [| match goal with |- context [upload_file ?x ?k] =>
           destruct (upload_file x k) as [url|e] end; run | | ] |]);
    exact eq_refl.
Qed.

(** With the default language and no audio, the later stages stamp one
    mark and write the row. *)
Lemma post_stages_plain (m : ChatMessage.t) (chat : Chat) (stats : nat) (w : World) :
  let w1 := stamped stats "response_translation_end_time" w in
  let saved := ChatMessage.with_results m (ChatMessage.original_message m) None
                 (response_meta (dict_at w1 stats)) in
  post_stages m chat "en-IN" stats false w
  = (Ret (ChatMessage.original_message m, None, saved),
     record (set_rows w1 (<[ChatMessage.pk m := saved]> (rows w)))
            (DbSave (ChatMessage.pk m))).
Proof. reflexivity. Qed.

End References.

(** ** The whole of [converse] *)

Section Converse.
Context {C : Collaborators}.

Lemma converse_without_key (fuel : nat) (a : Args) (w : World) :
  PyStr.truthy (openai_key a) = false ->
  converse fuel a w = {| yields := []; ending := Raised missing_key; final := w |}.
Proof. intros Hkey. unfold converse. now rewrite Hkey. Qed.

Lemma converse_streams (fuel : nat) (a : Args) (w : World) (p : Prepared) (w1 : World) :
  PyStr.truthy (openai_key a) = true ->
  stream a = true ->
  prepare a w = (Ret p, w1) ->
  converse fuel a w = converse_streaming fuel a p w1.
Proof. intros Hkey Hstream Hp. unfold converse. now rewrite Hkey, Hstream, Hp. Qed.

Lemma converse_blocks (fuel : nat) (a : Args) (w : World) :
  PyStr.truthy (openai_key a) = true ->
  stream a = false ->
  converse fuel a w
  = match prepare a w with
    | (Raise e, w1) => {| yields := []; ending := Raised e; final := w1 |}
    | (Ret p, w1) =>
        match converse_blocking a p w1 with
        | (Ret chat_message, w2) =>
            {| yields := [YieldMessage chat_message]; ending := Returned; final := w2 |}
        | (Raise e, w2) => {| yields := []; ending := Raised e; final := w2 |}
        end
    end.
Proof. intros Hkey Hstream. unfold converse. now rewrite Hkey, Hstream. Qed.

(** [prepare] stamps the marks of retrieval and of the start of the answer
    and no other. *)
Lemma prepare_audio_stats (a : Args) (w : World) :
  audio_stats (dict_at (prepare a w).2 (stats_of a))
  = audio_stats (dict_at w (stats_of a)).
Proof.
  unfold prepare.
  unfold bind, ret, call, stats_get, ChatMessage_objects_create. cbn [fst snd].
  rewrite !stamp_run. cbn beta iota zeta.
  assert (Hafter : forall w0 : World,
    audio_stats (dict_at (stamped (stats_of a) "response_start_time"
                            (stamped (stats_of a) "reference_end_time" w0)) (stats_of a))
    = audio_stats (dict_at w0 (stats_of a))).
  { intros w0. rewrite !dict_at_stamped.
    rewrite !audio_stats_insert by not_an_audio_mark. reflexivity. }
  assert (Hbefore :
    audio_stats (dict_at (stamped (stats_of a) "reference_start_time"
                   (record (set_rows w (rows w ++ [ChatMessage.with_pk
                      {| ChatMessage.pk := 0%nat;
                         ChatMessage.chat := chat_id (chat a);
                         ChatMessage.messageType := USER;
                         ChatMessage.message := Some (local_translated_text a);
                         ChatMessage.original_message :=
                           PyStr.replace (english_text a)
                             (String PyStr.newline EmptyString) " ";
                         ChatMessage.language :=
                           hd EmptyString (PyStr.split "-" (user_language a));
                         ChatMessage.top_k := None;
                         ChatMessage.temperature := None;
                         ChatMessage.ayushma_audio_url := None;
                         ChatMessage.meta :=
                           Some [("translate_start",
                                  dict_at w (stats_of a) !! "request_translation_start_time");
                                 ("translate_end",
                                  dict_at w (stats_of a) !! "request_translation_end_time")] |}
                      (length (rows w))]))
                      (DbCreate (length (rows w))))) (stats_of a))
    = audio_stats (dict_at w (stats_of a))).
  { rewrite dict_at_stamped, audio_stats_insert by not_an_audio_mark. reflexivity. }
  destruct (references a) as [[|c r]|];
    [| rewrite !stamp_run; cbn [snd]; rewrite Hafter; exact Hbefore |];
    (destruct (chat_project (chat a)) as [[[[|c' x]|] prompt]|];
     [| | |];
     try (rewrite !stamp_run; cbn [snd]; rewrite Hafter; exact Hbefore));
    (unfold call_get_reference;
     destruct (Retrieval.get_reference _ _ _ _) as [[reference|e] calls];
     cbn beta iota zeta;
     [rewrite !stamp_run; cbn [snd]; rewrite Hafter, dict_at_record_all; exact Hbefore
     | cbn [snd]; rewrite dict_at_record_all; exact Hbefore]).
Qed.

End Converse.

(** ** Turns from end to end *)

Section Turns.
Context {C : Collaborators}.

(** The references marker extraction leaves on the message. *)
Lemma add_reference_documents_references (m : ChatMessage.t) (w : World) :
  let chat_text := ChatMessage.original_message m in
  let ref_start_idx := PyStr.find chat_text ref_text in
  Forall answers (parse_doc_ids chat_text ref_start_idx) ->
  references_of (add_reference_documents m w).2 (ChatMessage.pk m)
  = (if ref_start_idx =? -1 then ∅
     else resolved (parse_doc_ids chat_text ref_start_idx))
    ∪ references_of w (ChatMessage.pk m).
Proof.
  cbn zeta. intros Hall. unfold add_reference_documents.
  destruct (PyStr.find (ChatMessage.original_message m) ref_text =? -1).
  - unfold ret. cbn [snd]. set_solver.
  - rewrite <- (add_documents_references m _ w Hall).
    unfold bind, try_pass, ChatMessage_save, ret.
    destruct (add_documents m _ w) as [[[]|e] w1]; reflexivity.
Qed.

(** [handle_post_response] for the default language with no audio: it
    returns the text without its marker section, stored as raw and as
    display text, with the documents of the marker section. *)
Lemma handle_post_response_plain (chat_response : string) (chat : Chat)
    (match_number : Z) (temperature : Z) (stats : nat) (language : string) (w : World) :
  let ref_start_idx := PyStr.find chat_response ref_text in
  Forall answers (parse_doc_ids chat_response ref_start_idx) ->
  exists saved w',
    handle_post_response chat_response chat match_number "en-IN" temperature stats
      language false w
    = (Ret (without_references chat_response, None, saved), w')
    /\ rows w' !! length (rows w) = Some saved
    /\ ChatMessage.message saved = Some (without_references chat_response)
    /\ ChatMessage.original_message saved = without_references chat_response
    /\ references_of w' (length (rows w))
       = (if ref_start_idx =? -1 then ∅
          else resolved (parse_doc_ids chat_response ref_start_idx))
         ∪ references_of w (length (rows w)).
Proof.
  cbn zeta. intros Hall.
  destruct (handle_post_response_front chat_response chat match_number "en-IN"
              temperature stats language false w)
    as (-> & Hc & Hu & Hd & Ha & Hlen & Hrow).
  set (fields := new_response _ _ _ _ _) in *.
  set (m0 := ChatMessage.with_pk fields (length (rows w))) in *.
  set (w1 := (ChatMessage_objects_create fields w).2) in *.
  set (w2 := (add_reference_documents m0 w1).2) in *.
  rewrite post_stages_plain. cbn zeta.
  eexists. eexists. split; [reflexivity|].
  cbn [rows record set_rows ChatMessage.pk ChatMessage.with_original_message
       ChatMessage.with_pk ChatMessage.message ChatMessage.original_message
       ChatMessage.with_results].
  split; [apply lookup_saved_row; subst m0; cbn [ChatMessage.pk ChatMessage.with_pk]; lia|].
  split; [reflexivity|]. split; [reflexivity|].
  pose proof (add_reference_documents_references m0 w1) as Hrefs.
  cbn zeta in Hrefs. specialize (Hrefs Hall). exact Hrefs.
Qed.

(** C3 (the code departs from the claim). The claim: the skip count is the
    length of the prefix token sequence, so of the tokens "Ayushma:", " Hi",
    " there", "References:", " 12, 7" only the first is held back, " Hi" and
    " there" are shown, and the end marker brings the Final event with the
    text "Hi there". The code: [skip_token] is [len("Ayushma: ")], nine, and
    it counts the values taken off the queue; the five tokens and the end
    marker are six values, all thrown away by the test of line 349. So
    whatever the batches and the fuel, nothing is shown, no answer is
    stored, nothing happens after the start of the producer, and the loop
    is still going round. *)
Theorem scenario_b_is_skipped_whole (fuel : nat) (a : Args) (p : Prepared) (w : World) :
  List.concat (pushed a p) = Scenario.scenario_b ->
  let r := converse_streaming fuel a p w in
  yields r = []
  /\ ending r = Running
  /\ rows (final r) = rows w
  /\ trace (final r) = trace w ++ [StartProducer (p_english_text p)].
Proof.
  intros Hpushed. cbn zeta.
  rewrite (short_stream_spins a p w fuel Scenario.scenario_b);
    [repeat split | vm_compute; lia | exact Hpushed].
Qed.

(** For a blocking turn with no audio and no [stats], the audio marks stored
    with the answer are those the dict at [default_stats] held when the turn
    began, that is, those earlier turns left there. *)
Lemma default_stats_leak (fuel : nat) (a : Args) (w : World) (saved : ChatMessage.t) :
  stats a = None ->
  stream a = false ->
  generate_audio a = false ->
  yields (converse fuel a w) = [YieldMessage saved] ->
  persisted_audio_marks (yields (converse fuel a w))
  = Some (audio_stats (dict_at w default_stats)).
Proof.
  intros Hstats Hstream Haudio Hyield.
  assert (Hkey : PyStr.truthy (openai_key a) = true).
  { destruct (PyStr.truthy (openai_key a)) eqn:Hk; [reflexivity|].
    rewrite (converse_without_key fuel a w Hk) in Hyield. discriminate. }
  rewrite (converse_blocks fuel a w Hkey Hstream) in *.
  pose proof (prepare_audio_stats a w) as Hprep.
  assert (Hd : stats_of a = default_stats) by (unfold stats_of; now rewrite Hstats).
  rewrite Hd in Hprep.
  destruct (prepare a w) as [[p|e] w1]; [|discriminate]. cbn [snd] in Hprep.
  unfold converse_blocking in *. unfold bind at 1, call at 1 in Hyield.
  unfold bind at 1, call at 1.
  destruct (get_response _ _ _ _) as [response|e]; [|discriminate].
  unfold bind at 1 in Hyield. unfold bind at 1.
  rewrite stamp_run in *. cbn beta iota in *.
  rewrite Haudio, Hd in *.
  unfold bind at 1 in Hyield. unfold bind at 1.
  match goal with |- context [handle_post_response ?r ?c ?k ?l ?t ?s ?g false ?w0] =>
    pose proof (handle_post_response_no_audio r c k l t s g w0) as (_ & _ & _ & Hret);
    destruct (handle_post_response r c k l t s g false w0)
      as [[[[shown url] stored]|e] w2]
  end; [|discriminate].
  cbn [fst snd] in *. unfold ret in *. cbn [yields] in *.
  destruct (Hret shown url stored eq_refl) as (_ & _ & _ & mt & Hmeta & Hmarks).
  unfold persisted_audio_marks. rewrite Hmeta. f_equal.
  change ([meta_get mt "tts_start"; meta_get mt "tts_end";
           meta_get mt "upload_start"; meta_get mt "upload_end"])
    with (audio_meta mt).
  rewrite Hmarks, dict_at_stamped, audio_stats_insert by not_an_audio_mark.
  rewrite dict_at_record. exact Hprep.
Qed.

(** C10. With no OpenAI key ([None] or the empty string), [converse]
    raises at once: nothing is handed out, and the world is the one before
    the call: no message created, no retrieval, no call to the model, no
    mark stamped. *)
Theorem missing_key_raises_first (fuel : nat) (a : Args) (w : World) :
  openai_key a = None \/ openai_key a = Some EmptyString ->
  converse fuel a w = {| yields := []; ending := Raised missing_key; final := w |}.
Proof.
  intros [Hkey|Hkey]; apply converse_without_key; now rewrite Hkey.
Qed.

End Turns.

(** ** Worked turns *)

(** C1, on a run: twenty silent batches, then silence. *)
Lemma silent_producer_run :
  @pushed Scenario.silent (Scenario.turn "en-IN" true false) Scenario.prepared
  = replicate 20 []
  /\ @converse_streaming Scenario.silent 1000 (Scenario.turn "en-IN" true false)
       Scenario.prepared Scenario.fresh
     = still_waiting Scenario.prepared Scenario.fresh.
Proof.
  split; [reflexivity|].
  apply (@silent_producer_spins_forever Scenario.silent _ _ Scenario.fresh 1000 20).
  reflexivity.
Defined.

(** C2, on a run: "Ayushma:", " Hi", end marker. *)
Lemma early_end_marker_run :
  (length ["Ayushma:"; " Hi"] < String.length "Ayushma: ")%nat
  /\ List.concat (@pushed Scenario.early_end (Scenario.turn "en-IN" true false)
                    Scenario.prepared)
     = (Token <$> ["Ayushma:"; " Hi"]) ++ [RESPONSE_END]
  /\ @converse_streaming Scenario.early_end 1000 (Scenario.turn "en-IN" true false)
       Scenario.prepared Scenario.fresh
     = still_waiting Scenario.prepared Scenario.fresh.
Proof.
  assert (Hshort : (length ["Ayushma:"; " Hi"] < String.length "Ayushma: ")%nat)
    by (vm_compute; lia).
  split; [exact Hshort|]. split; [reflexivity|].
  apply (@early_end_marker_is_skipped Scenario.early_end _ _ Scenario.fresh 1000
           ["Ayushma:"; " Hi"] Hshort).
  reflexivity.
Defined.

(** C6, on a run: eleven tokens in six batches. *)
Lemma cumulative_text_run :
  let a := Scenario.turn "en-IN" true false in
  let survivors := drop (String.length "Ayushma: ") Scenario.eleven in
  let loop := @consume Scenario.silent 100 a Scenario.prepared [] Scenario.in_batches
                (String.length "Ayushma: ") EmptyString [] Scenario.fresh in
  List.concat Scenario.in_batches = Token <$> Scenario.eleven
  /\ exists N skip_token,
       (N <= length survivors)%nat
       /\ length (c_yields loop) = N
       /\ c_exit loop = Looping skip_token (join (take N survivors))
       /\ c_world loop = Scenario.fresh
       /\ (forall i token,
             (i < N)%nat ->
             survivors !! i = Some token ->
             c_yields loop !! i
             = Some (YieldData {| json_chat := chat_external_id (chat a);
                                  json_input := local_translated_text a;
                                  json_delta := token;
                                  json_message := join (take (S i) survivors);
                                  json_stop := false;
                                  json_ayushma_voice := None |}))
       /\ ((length Scenario.in_batches + length Scenario.eleven <= 100)%nat ->
           N = length survivors).
Proof.
  cbn zeta. split; [reflexivity|].
  exact (@cumulative_text_is_concatenation Scenario.silent
           (Scenario.turn "en-IN" true false) Scenario.prepared Scenario.fresh 100
           Scenario.in_batches Scenario.eleven eq_refl).
Defined.

(** C7, on a run: the text "Hi there". *)
Lemma marker_extraction_run :
  ~ occurs ref_text (ChatMessage.original_message Scenario.plain_answer)
  /\ (@add_reference_documents Scenario.silent Scenario.plain_answer Scenario.fresh
      = (Ret Scenario.plain_answer, Scenario.fresh)
      /\ without_references (ChatMessage.original_message Scenario.plain_answer)
         = ChatMessage.original_message Scenario.plain_answer).
Proof.
  assert (Habsent : ~ occurs ref_text (ChatMessage.original_message Scenario.plain_answer)).
  { apply find_absent_iff; [discriminate | reflexivity]. }
  split; [exact Habsent|].
  apply (@marker_extraction_without_marker Scenario.silent Scenario.plain_answer
           Scenario.fresh Habsent).
Defined.

(** C10, on a run: the key is left out. *)
Lemma missing_key_run :
  (openai_key Scenario.turn_without_key = None
   \/ openai_key Scenario.turn_without_key = Some EmptyString)
  /\ @converse Scenario.silent 5 Scenario.turn_without_key Scenario.fresh
     = {| yields := []; ending := Raised missing_key; final := Scenario.fresh |}.
Proof.
  assert (Hkey : openai_key Scenario.turn_without_key = None
                 \/ openai_key Scenario.turn_without_key = Some EmptyString)
    by (left; reflexivity).
  split; [exact Hkey|].
  apply (@missing_key_raises_first Scenario.silent 5 Scenario.turn_without_key
           Scenario.fresh Hkey).
Defined.

(** C3, on a run: the five tokens of scenario B and the end marker in one
    batch, with audio asked for as by default. *)
Lemma scenario_b_run :
  let C := Scenario.as_specified in
  let a := Scenario.turn "en-IN" true true in
  let r := converse_streaming 1000 a Scenario.prepared Scenario.fresh in
  List.concat (pushed a Scenario.prepared) = Scenario.scenario_b
  /\ (yields r = []
      /\ ending r = Running
      /\ rows (final r) = rows Scenario.fresh
      /\ trace (final r)
         = trace Scenario.fresh ++ [StartProducer (p_english_text Scenario.prepared)]).
Proof.
  cbn zeta. split; [reflexivity|].
  exact (@scenario_b_is_skipped_whole Scenario.as_specified 1000
           (Scenario.turn "en-IN" true true) Scenario.prepared Scenario.fresh eq_refl).
Defined.

(** C8 as the specification states it fails: a call with audio leaves its
    four marks in the dict; a later call on the same dict with
    [generate_audio] false calls no audio service and stores no url, and
    yet the message it stores shows the four marks in its [meta], as if the
    audio stages had run. *)
Lemma speech_disabled_shows_earlier_marks :
  let C := Scenario.services true [] in
  let earlier := handle_post_response "Hi" Scenario.room 3 "en-IN" 0 default_stats "en"
                   true Scenario.fresh in
  let r := handle_post_response "Hi there" Scenario.room 3 "en-IN" 0 default_stats "en"
             false earlier.2 in
  audio_calls (trace r.2) = audio_calls (trace earlier.2)
  /\ ChatMessage.ayushma_audio_url <$> last (rows r.2) = Some None
  /\ stored_audio_marks r.2
     = Some [Some 101%nat; Some 102%nat; Some 103%nat; Some 104%nat].
Proof. vm_compute. repeat split. Qed.

(** C4 as the specification states it fails: the producer hands over an
    exception object, the caller's language is not the default and the
    translation service is down. The exception of the translation leaves the
    generator; no terminal event is handed out and no error message is
    stored (the only row is the user's). *)
Lemma error_path_raises_when_translation_fails :
  let r := @converse (Scenario.broken_stream false) 100
             (Scenario.turn "hi-IN" true false) Scenario.fresh in
  ending r = Raised Scenario.translation_down
  /\ List.filter is_terminal (yields r) = []
  /\ ChatMessage.messageType <$> rows (final r) = [USER].
Proof. vm_compute. repeat split. Qed.

(** C4 (amended), on a run: the same stream with the translation service
    up. *)
Lemma error_path_run :
  let C := Scenario.broken_stream true in
  let a := Scenario.turn "hi-IN" true false in
  let e := concat_TypeError "Exception" in
  let before := c_world (tried 100 a Scenario.prepared Scenario.fresh) in
  let r := converse_streaming 100 a Scenario.prepared Scenario.fresh in
  c_exit (tried 100 a Scenario.prepared Scenario.fresh) = Threw e
  /\ (yields r = c_yields (tried 100 a Scenario.prepared Scenario.fresh) ++ [error_event a e]
      /\ List.filter is_terminal (yields r) = [error_event a e]
      /\ ending r = Returned
      /\ rows (final r)
         = rows before
           ++ [error_message a Scenario.prepared e ("[hi-IN] " +:+ str_exn e) before]).
Proof.
  cbn zeta.
  assert (Hthrew : c_exit (@tried (Scenario.broken_stream true) 100
                             (Scenario.turn "hi-IN" true false) Scenario.prepared
                             Scenario.fresh)
                   = Threw (concat_TypeError "Exception")) by reflexivity.
  split; [exact Hthrew|].
  exact (@error_path_outcome (Scenario.broken_stream true) 100
           (Scenario.turn "hi-IN" true false) Scenario.prepared Scenario.fresh
           (concat_TypeError "Exception") Hthrew).
Defined.

(** C5 as the specification states it fails: the translation service is
    down for a caller whose language is not the default.
    [handle_post_response] raises, no [save] is ever made, and the stored
    message has no display text. *)
Lemma translation_failure_is_fatal :
  let r := @handle_post_response (Scenario.services false []) "Hi there" Scenario.room 3
             "hi-IN" 0 default_stats "hi" true Scenario.fresh in
  r.1 = Raise Scenario.translation_down
  /\ List.filter is_save (trace r.2) = []
  /\ ChatMessage.message <$> rows r.2 = [None].
Proof. vm_compute. repeat split. Qed.

(** C5 (amended), on a run: the same call. *)
Lemma enhancement_failure_run :
  let C := Scenario.services false [] in
  let r := handle_post_response "Hi there" Scenario.room 3 "hi-IN" 0 default_stats "hi"
             true Scenario.fresh in
  stage_fails Scenario.room "hi-IN" (without_references "Hi there") true Scenario.fresh
    Scenario.translation_down
  /\ (r.1 = Raise Scenario.translation_down /\ left_unfinished Scenario.fresh r.2).
Proof.
  cbn zeta.
  assert (Hfails : @stage_fails (Scenario.services false []) Scenario.room "hi-IN"
                     (without_references "Hi there") true Scenario.fresh
                     Scenario.translation_down) by (left; reflexivity).
  split; [exact Hfails|].
  exact (proj1 (@enhancement_failure_propagates (Scenario.services false []) "Hi there"
                  Scenario.room 3 "hi-IN" 0 default_stats "hi" true Scenario.fresh)
               Scenario.translation_down Hfails).
Defined.

(** ** Retrieval *)

Lemma drop_chars_add (a b : nat) (s : string) :
  PyStr.drop_chars (a + b) s = PyStr.drop_chars b (PyStr.drop_chars a s).
Proof.
  revert s. induction a as [|a IH]; intros s; [reflexivity|].
  destruct s as [|c s]; cbn [Nat.add PyStr.drop_chars]; [now destruct b | apply IH].
Qed.

Lemma drop_chars_all (n : nat) (s : string) :
  (String.length s <= n)%nat -> PyStr.drop_chars n s = EmptyString.
Proof.
  revert s. induction n as [|n IH]; intros s Hlen.
  - destruct s; [reflexivity | simpl in Hlen; lia].
  - destruct s as [|c s]; [reflexivity|]. apply IH. simpl in Hlen. lia.
Qed.

Lemma length_drop_chars (n : nat) (s : string) :
  String.length (PyStr.drop_chars n s) = (String.length s - n)%nat.
Proof.
  revert s. induction n as [|n IH]; intros s; [simpl; lia|].
  destruct s as [|c s]; [reflexivity | apply IH].
Qed.

Lemma length_take_chars_min (n : nat) (s : string) :
  String.length (PyStr.take_chars n s) = (n `min` String.length s)%nat.
Proof.
  revert s. induction n as [|n IH]; intros s; [reflexivity|].
  destruct s as [|c s]; [reflexivity|]. simpl. now rewrite IH.
Qed.

Lemma number_of_chars_positive : (0 < Retrieval.number_of_chars)%nat.
Proof. apply Nat.ltb_lt. vm_compute. reflexivity. Qed.

(** The starts of the parts, one by one. *)
Lemma range_from_lookup (step stop : nat) (fuel : nat) :
  forall start j x,
    Retrieval.range_from fuel start stop step !! j = Some x ->
    x = (start + j * step)%nat /\ (x < stop)%nat.
Proof.
  induction fuel as [|fuel IH]; intros start j x Hx; [discriminate|].
  cbn [Retrieval.range_from] in Hx.
  destruct (start <? stop)%nat eqn:Hlt; [|discriminate].
  apply Nat.ltb_lt in Hlt. destruct j as [|j].
  - injection Hx as <-. split; lia.
  - cbn [lookup list_lookup] in Hx. apply IH in Hx as [-> Hb]. split; lia.
Qed.

Lemma range_from_length (step stop : nat) (fuel : nat) :
  (0 < step)%nat ->
  forall start,
    (stop - start <= fuel)%nat ->
    length (Retrieval.range_from fuel start stop step)
    = ((stop - start + (step - 1)) / step)%nat.
Proof.
  intros Hstep. induction fuel as [|fuel IH]; intros start Hfuel.
  - cbn [Retrieval.range_from length].
    replace (stop - start)%nat with 0%nat by lia.
    symmetry. apply Nat.div_small. lia.
  - cbn [Retrieval.range_from].
    destruct (start <? stop)%nat eqn:Hlt.
    + apply Nat.ltb_lt in Hlt. cbn [length]. rewrite IH by lia.
      destruct (le_lt_dec step (stop - start)) as [Hfull|Hlast].
      * replace (stop - start + (step - 1))%nat
          with ((stop - (start + step) + (step - 1)) + 1 * step)%nat by lia.
        rewrite Nat.div_add by lia. lia.
      * replace (stop - (start + step))%nat with 0%nat by lia.
        rewrite (Nat.div_small (0 + (step - 1)) step) by lia.
        apply (Nat.div_unique _ _ 1 (stop - start - 1)); lia.
    + apply Nat.ltb_ge in Hlt. cbn [length].
      replace (stop - start)%nat with 0%nat by lia.
      symmetry. apply Nat.div_small. lia.
Qed.

Lemma join_parts (step : nat) (text : string) (fuel : nat) :
  (0 < step)%nat ->
  forall start,
    (String.length text - start <= fuel)%nat ->
    join (map (Retrieval.part_at step text)
              (Retrieval.range_from fuel start (String.length text) step))
    = PyStr.drop_chars start text.
Proof.
  intros Hstep. induction fuel as [|fuel IH]; intros start Hfuel.
  - cbn [Retrieval.range_from map join foldr].
    symmetry. apply drop_chars_all. lia.
  - cbn [Retrieval.range_from].
    destruct (start <? String.length text)%nat eqn:Hlt.
    + cbn [map]. rewrite join_cons, IH by lia.
      unfold Retrieval.part_at. rewrite drop_chars_add.
      symmetry. apply take_drop_chars.
    + apply Nat.ltb_ge in Hlt. cbn [map join foldr].
      symmetry. now apply drop_chars_all.
Qed.

(** X1. The parts of [split_text], one after the other, are the text: no
    character is lost, doubled or moved. *)
Theorem split_text_round_trip (text : string) :
  join (Retrieval.split_text text) = text.
Proof.
  unfold Retrieval.split_text, Retrieval.split_text_by, Retrieval.range.
  rewrite join_parts; [reflexivity | apply number_of_chars_positive | lia].
Qed.

(** X2. The part of index [j] starts at character [8192 * j], which lies
    within the text, and holds the next 8192 characters or, at the end of
    the text, those that are left: no part is empty, none is longer than
    8192, and every part but the last has 8192 characters exactly. *)
Theorem split_text_part_sizes (text part : string) (j : nat) :
  Retrieval.split_text text !! j = Some part ->
  (j * Retrieval.number_of_chars < String.length text)%nat
  /\ part = Retrieval.part_at Retrieval.number_of_chars text (j * Retrieval.number_of_chars)
  /\ String.length part
     = (Retrieval.number_of_chars
        `min` (String.length text - j * Retrieval.number_of_chars))%nat.
Proof.
  unfold Retrieval.split_text, Retrieval.split_text_by, Retrieval.range.
  intros Hpart. apply list_lookup_fmap_Some in Hpart as (start & -> & Hstart).
  apply range_from_lookup in Hstart as [-> Hin]. cbn [Nat.add] in *.
  split; [exact Hin|]. split; [reflexivity|].
  unfold Retrieval.part_at. now rewrite length_take_chars_min, length_drop_chars.
Qed.

(** X3. [split_text] gives as many parts as 8192-character pieces are needed
    to cover the text, the length divided by 8192 and rounded up: none for
    the empty text. *)
Theorem split_text_count (text : string) :
  length (Retrieval.split_text text)
  = ((String.length text + (Retrieval.number_of_chars - 1))
     / Retrieval.number_of_chars)%nat.
Proof.
  unfold Retrieval.split_text, Retrieval.split_text_by, Retrieval.range.
  rewrite length_map, range_from_length by (try apply number_of_chars_positive; lia).
  now rewrite Nat.sub_0_r.
Qed.

Lemma chars_append (s1 s2 : string) :
  Retrieval.chars (s1 +:+ s2) = Retrieval.chars s1 ++ Retrieval.chars s2.
Proof.
  unfold Retrieval.chars. induction s1 as [|c s1 IH]; push_append; [reflexivity|].
  cbn [list_ascii_of_string app]. now rewrite IH.
Qed.

(** Replacing one character by another, character by character. *)
Lemma replace_char (c d : ascii) (s : string) :
  Retrieval.chars (PyStr.replace s (String c EmptyString) (String d EmptyString))
  = map (fun x => if Ascii.eqb x c then d else x) (Retrieval.chars s).
Proof.
  unfold PyStr.replace, Retrieval.chars. induction s as [|x s IH]; [reflexivity|].
  cbn [PyStr.replace_go String.prefix String.length Nat.sub].
  destruct (ascii_dec c x) as [->|Hne].
  - assert (Hp : String.prefix EmptyString s = true) by (destruct s; reflexivity).
    rewrite Hp. push_append. cbn [list_ascii_of_string map].
    rewrite Ascii.eqb_refl. f_equal. exact IH.
  - cbn [list_ascii_of_string map].
    assert (Hx : Ascii.eqb x c = false) by (apply Ascii.eqb_neq; congruence).
    rewrite Hx. f_equal. exact IH.
Qed.

Lemma sanitized_no_newline (text : string) :
  PyStr.newline ∉ Retrieval.chars (Retrieval.sanitized text).
Proof.
  unfold Retrieval.sanitized. rewrite chars_append, replace_char.
  intros [Hin|Hin]%elem_of_app.
  - apply list_elem_of_fmap in Hin as (x & Hx & _).
    destruct (Ascii.eqb x PyStr.newline) eqn:Heq; [discriminate|].
    apply Ascii.eqb_neq in Heq. congruence.
  - apply list_elem_of_singleton in Hin. discriminate.
Qed.

Lemma nested_foldl_concat {A B : Type} (f : A -> B -> A) (lists : list (list B)) :
  forall a, foldl (fun acc l => foldl f acc l) a lists = foldl f a (List.concat lists).
Proof.
  induction lists as [|l lists IH]; intros a; [reflexivity|].
  cbn [foldl List.concat]. now rewrite IH, foldl_app.
Qed.

(** What the loop of lines 69-80 leaves under a key. *)
Lemma add_matches_lookup (matches : list Retrieval.Match) :
  forall (start : gmap string string) (document_id : string),
    foldl Retrieval.add_match start matches !! document_id
    = match Retrieval.texts_of document_id matches with
      | [] => start !! document_id
      | texts => Some (default EmptyString (start !! document_id) +:+ join texts)
      end.
Proof.
  induction matches as [|m matches IH]; intros start document_id; [reflexivity|].
  cbn [foldl]. rewrite IH. unfold Retrieval.texts_of at 2. cbn [omap list_omap].
  fold (Retrieval.texts_of document_id matches).
  unfold Retrieval.add_match.
  destruct (Retrieval.metadata_document m) as [d|], (Retrieval.metadata_text m) as [text|];
    try reflexivity.
  fold (Retrieval.sanitized text).
  destruct (String.eqb_spec d document_id) as [->|Hne].
  - assert (Hnow : (match start !! document_id with
                    | Some so_far =>
                        <[document_id := so_far +:+ Retrieval.sanitized text]> start
                    | None => <[document_id := Retrieval.sanitized text]> start
                    end) !! document_id
                   = Some (default EmptyString (start !! document_id)
                           +:+ Retrieval.sanitized text)).
    { destruct (start !! document_id); now rewrite lookup_insert_eq. }
    rewrite Hnow. cbn [default]. rewrite join_cons.
    destruct (Retrieval.texts_of document_id matches) as [|t ts].
    + cbn [join foldr]. now rewrite append_empty_r.
    + unfold id. now rewrite append_assoc.
  - assert (Hother : (match start !! d with
                      | Some so_far => <[d := so_far +:+ Retrieval.sanitized text]> start
                      | None => <[d := Retrieval.sanitized text]> start
                      end) !! document_id = start !! document_id).
    { destruct (start !! d); now rewrite lookup_insert_ne. }
    now rewrite Hother.
Qed.

Lemma sanitized_reference_lookup (pinecone_references : list Retrieval.QueryResponse)
    (document_id : string) :
  Retrieval.get_sanitized_reference pinecone_references !! document_id
  = match Retrieval.texts_of document_id (List.concat pinecone_references) with
    | [] => None
    | texts => Some (join texts)
    end.
Proof.
  unfold Retrieval.get_sanitized_reference.
  rewrite nested_foldl_concat, add_matches_lookup, lookup_empty.
  destruct (Retrieval.texts_of _ _); reflexivity.
Qed.

Lemma texts_of_sanitized (document_id : string) (matches : list Retrieval.Match) :
  Forall (fun t => exists text, t = Retrieval.sanitized text)
         (Retrieval.texts_of document_id matches).
Proof.
  induction matches as [|m matches IH]; [constructor|].
  unfold Retrieval.texts_of. cbn [omap list_omap].
  destruct (Retrieval.metadata_document m) as [d|], (Retrieval.metadata_text m) as [text|]; try exact IH.
  destruct (String.eqb d document_id); [|exact IH].
  constructor; [eauto | exact IH].
Qed.

(** X4. The dict of [get_sanitized_reference] has, under a document id, the
    texts of the matches of this document, in the order of the responses
    and of their matches, each with its newlines turned into spaces and a
    comma after it; a document with no such match has no entry, and a match
    whose metadata lacks the document or the text is passed over. *)
Theorem sanitized_reference_entries (pinecone_references : list Retrieval.QueryResponse)
    (document_id : string) :
  Retrieval.get_sanitized_reference pinecone_references !! document_id
  = match Retrieval.texts_of document_id (List.concat pinecone_references) with
    | [] => None
    | texts => Some (join texts)
    end.
Proof. apply sanitized_reference_lookup. Qed.

Lemma join_sanitized_no_newline (texts : list string) :
  Forall (fun t => exists text, t = Retrieval.sanitized text) texts ->
  PyStr.newline ∉ Retrieval.chars (join texts).
Proof.
  intros Hall. induction Hall as [|t ts [text ->] _ IH].
  - cbn. apply not_elem_of_nil.
  - rewrite join_cons, chars_append. intros [Hin|Hin]%elem_of_app.
    + now apply (sanitized_no_newline text).
    + now apply IH.
Qed.

(** X5. No value of the dict of [get_sanitized_reference] has a newline in
    it, whatever the texts of the matches. *)
Theorem sanitized_reference_no_newline (pinecone_references : list Retrieval.QueryResponse)
    (document_id value : string) :
  Retrieval.get_sanitized_reference pinecone_references !! document_id = Some value ->
  PyStr.newline ∉ Retrieval.chars value.
Proof.
  rewrite sanitized_reference_lookup.
  pose proof (texts_of_sanitized document_id (List.concat pinecone_references)) as Hall.
  destruct (Retrieval.texts_of _ _) as [|t ts]; [discriminate|].
  intros [= <-]. exact (join_sanitized_no_newline (t :: ts) Hall).
Qed.

Section GetReference.
Context {Vector : Type} {I : @Retrieval.Index Vector}.

Lemma embed_parts_failure (parts : list string) (openai_key : string) :
  Exists (fun part => exists e, Retrieval.get_embedding part openai_key = Raise e) parts ->
  exists e calls,
    Retrieval.embed_parts parts openai_key = (Raise e, calls)
    /\ exn_class e = "Exception"
    /\ Forall (fun c => exists part, c = Retrieval.Embed part) calls.
Proof.
  induction parts as [|part rest IH]; intros Hfail; [inversion Hfail|].
  cbn [Retrieval.embed_parts].
  destruct (Retrieval.get_embedding part openai_key) as [v|e] eqn:Hpart.
  - apply Exists_cons in Hfail as [[e He]|Hrest]; [congruence|].
    destruct (IH Hrest) as (e & calls & -> & Hclass & Hcalls).
    exists e, (Retrieval.Embed part :: calls). repeat split; [exact Hclass|].
    constructor; eauto.
  - exists (Retrieval.rewrap e), [Retrieval.Embed part]. repeat split.
    constructor; eauto.
Qed.

Lemma embed_parts_success (parts : list string) (openai_key : string)
    (vectors : list Vector) :
  Forall2 (fun part v => Retrieval.get_embedding part openai_key = Ret v) parts vectors ->
  Retrieval.embed_parts parts openai_key = (Ret vectors, Retrieval.Embed <$> parts).
Proof.
  induction 1 as [|part v parts vectors Hpart _ IH]; [reflexivity|].
  cbn [Retrieval.embed_parts]. now rewrite Hpart, IH.
Qed.

Lemma query_all_success (vectors : list Vector) (top_k : Z) (namespace : string)
    (responses : list Retrieval.QueryResponse) :
  Forall2 (fun v r => Retrieval.PINECONE_query v top_k namespace = Ret r)
          vectors responses ->
  Retrieval.query_all vectors top_k namespace = (Ret responses, Retrieval.Query <$> vectors).
Proof.
  induction 1 as [|v r vectors responses Hq _ IH]; [reflexivity|].
  cbn [Retrieval.query_all]. now rewrite Hq, IH.
Qed.

(** X6. A failure of the embedding API is handled in two ways. For a text
    of fewer than 8192 tokens [get_reference] does not raise: it returns an
    [Exception] object, as if it were the reference (line 125). For a longer
    text, cut in parts, the first part that fails makes it raise an
    [Exception] (line 134). Either way the vector index is not queried. *)
Theorem embedding_failure_returned_or_raised (text openai_key namespace : string)
    (top_k : Z) :
  (forall e,
      (Retrieval.num_tokens_from_string text "cl100k_base" < 8192)%nat ->
      Retrieval.get_embedding text openai_key = Raise e ->
      Retrieval.get_reference text openai_key namespace top_k
      = (Ret (Retrieval.ReferenceException (Retrieval.rewrap e)), [Retrieval.Embed text]))
  /\ ((8192 <= Retrieval.num_tokens_from_string text "cl100k_base")%nat ->
      Exists (fun part => exists e, Retrieval.get_embedding part openai_key = Raise e)
             (Retrieval.split_text text) ->
      exists e calls,
        Retrieval.get_reference text openai_key namespace top_k = (Raise e, calls)
        /\ exn_class e = "Exception"
        /\ Forall (fun c => exists part, c = Retrieval.Embed part) calls).
Proof.
  unfold Retrieval.get_reference. split.
  - intros e Hshort%Nat.ltb_lt Hfail. now rewrite Hshort, Hfail.
  - intros Hlong%Nat.ltb_ge Hfail. rewrite Hlong.
    destruct (embed_parts_failure _ openai_key Hfail) as (e & calls & -> & Hclass & Hcalls).
    eauto.
Qed.

(** X7. For a text of 8192 tokens or more whose parts are all embedded and
    whose queries all answer, [get_reference] embeds every part of
    [split_text], in order, before it makes one query per embedding, in the
    same order, and returns the dict that [get_sanitized_reference] builds
    from the responses. *)
Theorem long_text_reference (text openai_key namespace : string) (top_k : Z)
    (vectors : list Vector) (responses : list Retrieval.QueryResponse) :
  (8192 <= Retrieval.num_tokens_from_string text "cl100k_base")%nat ->
  Forall2 (fun part v => Retrieval.get_embedding part openai_key = Ret v)
          (Retrieval.split_text text) vectors ->
  Forall2 (fun v r => Retrieval.PINECONE_query v top_k namespace = Ret r)
          vectors responses ->
  Retrieval.get_reference text openai_key namespace top_k
  = (Ret (Retrieval.ReferenceText (Retrieval.get_sanitized_reference responses)),
     (Retrieval.Embed <$> Retrieval.split_text text) ++ (Retrieval.Query <$> vectors)).
Proof.
  intros Hlong%Nat.ltb_ge Hembed Hquery. unfold Retrieval.get_reference.
  rewrite Hlong, (embed_parts_success _ _ _ Hembed).
  unfold Retrieval.find_similar. now rewrite (query_all_success _ _ _ _ Hquery).
Qed.

(** X23. For a text of fewer than 8192 tokens whose embedding is returned,
    [get_reference] makes one embedding call and then one query. A query
    that raises is not caught: the exception of the index leaves
    [get_reference] as it is, unlike a failure of the embedding, which is
    returned as a value. *)
Theorem short_text_reference (text openai_key namespace : string) (top_k : Z)
    (vector : Vector) :
  (Retrieval.num_tokens_from_string text "cl100k_base" < 8192)%nat ->
  Retrieval.get_embedding text openai_key = Ret vector ->
  Retrieval.get_reference text openai_key namespace top_k
  = (match Retrieval.PINECONE_query vector top_k namespace with
     | Ret similar =>
         Ret (Retrieval.ReferenceText (Retrieval.get_sanitized_reference [similar]))
     | Raise e => Raise e
     end,
     [Retrieval.Embed text; Retrieval.Query vector]).
Proof.
  intros Hshort Hembed. unfold Retrieval.get_reference.
  apply Nat.ltb_lt in Hshort. rewrite Hshort, Hembed.
  unfold Retrieval.find_similar. cbn [Retrieval.query_all].
  destruct (Retrieval.PINECONE_query vector top_k namespace); reflexivity.
Qed.

End GetReference.

(** ** Marker extraction, further *)

Lemma rstrip_idempotent (p : ascii -> bool) (s : string) :
  PyStr.rstrip p (PyStr.rstrip p s) = PyStr.rstrip p s.
Proof.
  induction s as [|c s IH]; [reflexivity|].
  cbn [PyStr.rstrip]. destruct (PyStr.rstrip p s) as [|d r] eqn:Hr.
  - destruct (p c) eqn:Hc; [reflexivity|]. cbn [PyStr.rstrip]. now rewrite Hc.
  - change (PyStr.rstrip p (String c (String d r)))
      with (match PyStr.rstrip p (String d r) with
            | EmptyString => if p c then EmptyString else String c EmptyString
            | r' => String c r'
            end).
    now rewrite IH.
Qed.

Lemma rstrip_keeps_head (p : ascii -> bool) (c : ascii) (s : string) :
  p c = false -> exists r, PyStr.rstrip p (String c s) = String c r.
Proof.
  intros Hc. cbn [PyStr.rstrip]. destruct (PyStr.rstrip p s); rewrite ?Hc; eauto.
Qed.

Lemma lstrip_head (p : ascii -> bool) (s : string) :
  PyStr.lstrip p s = EmptyString
  \/ exists c r, PyStr.lstrip p s = String c r /\ p c = false.
Proof.
  induction s as [|c s IH]; [now left|].
  cbn [PyStr.lstrip]. destruct (p c) eqn:Hc; [exact IH|]. right. eauto.
Qed.

(** Trimming what is trimmed changes nothing. *)
Lemma strip_with_idempotent (p : ascii -> bool) (s : string) :
  PyStr.strip_with p (PyStr.strip_with p s) = PyStr.strip_with p s.
Proof.
  unfold PyStr.strip_with.
  destruct (lstrip_head p s) as [->|(c & r & -> & Hc)]; [reflexivity|].
  destruct (rstrip_keeps_head p c r Hc) as [r' Hr]. rewrite Hr.
  cbn [PyStr.lstrip]. rewrite Hc, <- Hr. apply rstrip_idempotent.
Qed.

(** X10. The ids read off a marker section are pairwise distinct, none is
    empty, and each is trimmed: taking the padding characters (space, full
    stop, comma, square brackets, star, quote marks) off its ends again
    leaves it as it is. *)
Theorem parsed_ids_distinct_and_trimmed (chat_text : string) (ref_start_idx : Z) :
  NoDup (parse_doc_ids chat_text ref_start_idx)
  /\ Forall (fun doc_id =>
               doc_id <> EmptyString
               /\ PyStr.strip_with (PyStr.in_chars doc_id_padding) doc_id = doc_id)
            (parse_doc_ids chat_text ref_start_idx).
Proof.
  unfold parse_doc_ids. split; [apply NoDup_remove_dups|].
  apply Forall_forall. intros doc_id Hin.
  apply elem_of_remove_dups, list_elem_of_filter in Hin as [Hne Hin].
  split; [exact Hne|].
  apply list_elem_of_fmap in Hin as (raw & -> & _).
  apply strip_with_idempotent.
Qed.

Section MarkerPresent.
Context {C : Collaborators}.

(** What the lookups leave in the trace, and on the message. *)
Lemma add_documents_trace (m : ChatMessage.t) (doc_ids : list string) :
  forall w,
    let w' := (add_documents m doc_ids w).2 in
    (exists lookups, trace w' = trace w ++ lookups
                     /\ Forall (fun e => is_lookup e = true) lookups)
    /\ references_of w' (ChatMessage.pk m)
       ⊆ resolved doc_ids ∪ references_of w (ChatMessage.pk m).
Proof.
  induction doc_ids as [|doc_id rest IH]; intros w; cbn zeta.
  - split; [exists []; split; [now rewrite app_nil_r | constructor]|].
    unfold resolved. cbn. set_solver.
  - cbn [add_documents]. unfold bind at 1, call at 1. cbn [fst snd].
    unfold resolved in *. cbn [fmap list_fmap union_list foldr].
    unfold resolve at 1.
    destruct (Document_objects_get doc_id) as [doc| |e].
    + unfold bind at 1, reference_documents_add at 1.
      match goal with |- context [add_documents m rest ?w0] =>
        destruct (IH w0) as [(lookups & Ht & Hl) Hrefs] end.
      cbn zeta in *. split.
      * exists (DocumentGet doc_id :: DbAddReference (ChatMessage.pk m) doc :: lookups).
        split; [|repeat constructor; exact Hl].
        rewrite Ht. cbn [trace record set_reference_documents].
        now rewrite <- !app_assoc.
      * rewrite references_of_added in Hrefs. unfold references_of in *.
        cbn [reference_documents record] in *. set_solver.
    + destruct (IH (record w (DocumentGet doc_id))) as [(lookups & Ht & Hl) Hrefs].
      cbn zeta in *. split.
      * exists (DocumentGet doc_id :: lookups).
        split; [|repeat constructor; exact Hl].
        rewrite Ht. cbn [trace record]. now rewrite <- !app_assoc.
      * unfold references_of in *. cbn [reference_documents record] in *. set_solver.
    + unfold raise. cbn [snd]. split.
      * exists [DocumentGet doc_id]. split; [reflexivity | repeat constructor].
      * unfold references_of. cbn [reference_documents record]. set_solver.
Qed.

(** X8. When the marker occurs in the text, marker extraction returns
    whatever the lookups do (a lookup that raises only ends the lookups):
    the text is cut before the first marker and trimmed, no marker is left
    in it, the row of the message is written once, after the lookups, and
    the message gets no document that is not found for one of the ids. *)
Theorem marker_extraction_with_marker (m : ChatMessage.t) (w : World) :
  occurs ref_text (ChatMessage.original_message m) ->
  let chat_text := ChatMessage.original_message m in
  let ref_start_idx := PyStr.find chat_text ref_text in
  let m' := ChatMessage.with_original_message m
              (PyStr.strip (PyStr.slice_to chat_text ref_start_idx)) in
  exists w' lookups,
    add_reference_documents m w = (Ret m', w')
    /\ ~ occurs ref_text (ChatMessage.original_message m')
    /\ rows w' = <[ChatMessage.pk m := m']> (rows w)
    /\ trace w' = trace w ++ lookups ++ [DbSave (ChatMessage.pk m)]
    /\ Forall (fun e => is_lookup e = true) lookups
    /\ references_of w' (ChatMessage.pk m)
       ⊆ resolved (parse_doc_ids chat_text ref_start_idx)
         ∪ references_of w (ChatMessage.pk m).
Proof.
  intros Hocc. cbn zeta.
  assert (Hfind : (PyStr.find (ChatMessage.original_message m) ref_text =? -1) = false).
  { apply Z.eqb_neq. intros Heq.
    now apply (find_absent_iff _ _ ref_text_not_empty) in Heq. }
  pose proof (without_references_clean (ChatMessage.original_message m)) as Hclean.
  unfold without_references in Hclean. rewrite Hfind in Hclean.
  unfold add_reference_documents. rewrite Hfind.
  unfold bind at 1, try_pass at 1.
  match goal with |- context [add_documents m ?ids w] =>
    destruct (add_documents_trace m ids w) as [(lookups & Ht & Hl) Hrefs];
    destruct (add_documents_calm m ids w) as (_ & _ & _ & Hrows & _);
    destruct (add_documents m ids w) as [[[]|e] w1]
  end; cbn [snd] in *.
  all: unfold bind, ChatMessage_save, ret; cbn [fst snd].
  all: eexists; exists lookups; split; [reflexivity|].
  all: split; [exact Hclean|].
  all: cbn [rows trace record set_rows ChatMessage.pk ChatMessage.with_original_message].
  all: rewrite Hrows, Ht, <- app_assoc.
  all: split; [reflexivity|]; split; [reflexivity|]; split; [exact Hl|].
  all: unfold references_of in *; cbn [reference_documents record set_rows]; exact Hrefs.
Qed.

(** X9. Marker extraction is idempotent: run on the message and the world
    it has just returned, it returns them as they are. *)
Theorem marker_extraction_twice (m : ChatMessage.t) (w : World) :
  let first := add_reference_documents m w in
  exists m1,
    first.1 = Ret m1
    /\ add_reference_documents m1 first.2 = (Ret m1, first.2).
Proof.
  cbn zeta. destruct (add_reference_documents_effect m w) as (w' & Heq & _).
  rewrite Heq. cbn [fst snd]. eexists. split; [reflexivity|].
  unfold add_reference_documents.
  cbn [ChatMessage.original_message ChatMessage.with_original_message].
  pose proof (without_references_clean (ChatMessage.original_message m)) as Hclean.
  apply (find_absent_iff _ _ ref_text_not_empty) in Hclean. now rewrite Hclean.
Qed.

End MarkerPresent.

(** ** The start of a turn *)

Lemma split_head_no_separator (sep : ascii) (s : string) :
  sep ∉ Retrieval.chars (hd EmptyString (PyStr.split sep s)).
Proof.
  unfold Retrieval.chars. induction s as [|c s IH]; [apply not_elem_of_nil|].
  cbn [PyStr.split]. destruct (Ascii.eqb c sep) eqn:Hc; [apply not_elem_of_nil|].
  apply Ascii.eqb_neq in Hc.
  destruct (PyStr.split sep s) as [|piece rest]; cbn [hd list_ascii_of_string] in *.
  - intros Hin%list_elem_of_singleton. congruence.
  - intros [Hin|Hin]%elem_of_cons; [congruence | now apply IH].
Qed.

Lemma clean_query_no_newline (a : Args) :
  PyStr.newline ∉ Retrieval.chars (clean_query a).
Proof.
  unfold clean_query. rewrite replace_char.
  intros (x & Hx & _)%list_elem_of_fmap.
  destruct (Ascii.eqb x PyStr.newline) eqn:Heq; [discriminate|].
  apply Ascii.eqb_neq in Heq. congruence.
Qed.

Lemma filter_agree {A : Type} (P1 P2 : A -> Prop)
    `{!forall x, Decision (P1 x), !forall x, Decision (P2 x)} (l : list A) :
  (forall x, x ∈ l -> P1 x <-> P2 x) ->
  filter P1 l = filter P2 l.
Proof.
  induction l as [|x l IH]; intros Hiff; [reflexivity|].
  assert (Hl : filter P1 l = filter P2 l).
  { apply IH. intros y Hy. apply Hiff. now right. }
  assert (Hx : P1 x <-> P2 x) by (apply Hiff; now left).
  rewrite !filter_cons, Hl.
  destruct (decide (P1 x)), (decide (P2 x)); tauto.
Qed.

Section Prepare.
Context {C : Collaborators}.

(** [prepare], case by case on the need for retrieval and on its answer. *)
Lemma prepare_run (a : Args) (w : World) :
  prepare a w
  = match namespace_of a with
    | None =>
        (Ret (prepared_with a w (Supplied (supplied_reference a))),
         after_reference a (after_query a w))
    | Some namespace =>
        let answer := retrieved a namespace in
        let asked := after_retrieval a w namespace answer.2 in
        match answer.1 with
        | Ret reference =>
            (Ret (prepared_with a w (Retrieved reference)), after_reference a asked)
        | Raise e => (Raise e, asked)
        end
    end.
Proof.
  unfold prepare, namespace_of, supplied_reference, prepared_with, prompt_of,
    after_retrieval, retrieved.
  unfold bind, ret, call_get_reference, stats_get, ChatMessage_objects_create.
  cbn [fst snd]. rewrite !stamp_run. cbn beta iota zeta.
  fold (clean_query a).
  destruct (references a) as [[|c r]|];
    try (destruct (chat_project (chat a)) as [[[[|c' x]|] prompt]|]);
    cbn beta iota zeta; repeat (rewrite stamp_run; cbn beta iota zeta);
    try reflexivity;
    match goal with |- context [Retrieval.get_reference ?t ?k ?n ?m] =>
      destruct (Retrieval.get_reference t k n m) as [[reference|e] calls] end;
    cbn beta iota zeta; cbn [fst snd];
    repeat (rewrite stamp_run; cbn beta iota zeta);
    reflexivity.
Qed.

(** X11. Whenever [prepare] runs (the key is there), the first thing stored
    is the query, as one new row after the rows that were there, whether
    retrieval then succeeds or raises: a USER message with the caller's text
    as display text, with a raw text that has no newline left, and with a
    language code that has no hyphen. *)
Theorem query_is_stored_first (a : Args) (w : World) :
  exists row,
    rows (prepare a w).2 = rows w ++ [row]
    /\ ChatMessage.pk row = length (rows w)
    /\ ChatMessage.messageType row = USER
    /\ ChatMessage.message row = Some (local_translated_text a)
    /\ (PyStr.newline ∉ Retrieval.chars (ChatMessage.original_message row))
    /\ ("-"%char ∉ Retrieval.chars (ChatMessage.language row)).
Proof.
  exists (nurse_query a w). split.
  - rewrite prepare_run. destruct (namespace_of a) as [namespace|]; [|reflexivity].
    cbn zeta. destruct (retrieved a namespace).1; reflexivity.
  - repeat split; cbn [nurse_query ChatMessage.original_message ChatMessage.language].
    + apply clean_query_no_newline.
    + apply split_head_no_separator.
Qed.

(** X12. When [get_reference] raises, [converse] raises the same exception
    and hands out nothing; by then the query is stored and the retrieval
    mark is stamped, but no answer is stored and the model has not been
    called: the trace gains the creation of the query and the calls that
    [get_reference] made, and no more. *)
Theorem retrieval_failure_aborts_turn (fuel : nat) (a : Args) (w : World)
    (namespace : string) (e : Exn) (calls : list Retrieval.Call) :
  PyStr.truthy (openai_key a) = true ->
  namespace_of a = Some namespace ->
  Retrieval.get_reference (I := retrieval) (clean_query a)
    (default EmptyString (openai_key a)) namespace (match_number a) = (Raise e, calls) ->
  let r := converse fuel a w in
  yields r = [] /\ ending r = Raised e
  /\ rows (final r) = rows w ++ [nurse_query a w]
  /\ trace (final r)
     = trace w ++ DbCreate (length (rows w))
                  :: (retrieval_effect namespace (match_number a) <$> calls)
  /\ is_Some (dict_at (final r) (stats_of a) !! "reference_start_time")
  /\ dict_at (final r) (stats_of a) !! "reference_end_time"
     = dict_at w (stats_of a) !! "reference_end_time".
Proof.
  intros Hkey Hns Hraise. cbn zeta. unfold converse.
  rewrite Hkey, prepare_run, Hns. cbn zeta. unfold retrieved. rewrite Hraise.
  cbn [negb yields ending final fst snd].
  split; [reflexivity|]. split; [reflexivity|]. split; [reflexivity|].
  split; [cbn [trace record record_all after_retrieval after_query stamped set_dicts
               tick set_rows];
          now rewrite <- app_assoc|].
  unfold after_retrieval, after_query.
  rewrite dict_at_record_all, dict_at_stamped. split.
  - rewrite lookup_insert_eq. eauto.
  - now rewrite lookup_insert_ne.
Qed.

(** X13. When the caller supplies references, or the chat has no project
    with an id, [converse] makes no retrieval call: [prepare] returns, the
    reference handed on is the supplied text (the empty text if none), and
    the only effect in the trace is the creation of the query. *)
Theorem no_retrieval_without_namespace (a : Args) (w : World) :
  namespace_of a = None ->
  exists p w1,
    prepare a w = (Ret p, w1)
    /\ p_reference p = Supplied (supplied_reference a)
    /\ trace w1 = trace w ++ [DbCreate (length (rows w))].
Proof.
  intros Hns. rewrite prepare_run, Hns.
  eexists. eexists. split; [reflexivity|]. split; reflexivity.
Qed.

(** X24. When the embedding of a query of fewer than 8192 tokens fails, the
    turn goes on: [get_reference] returns the exception object of line 125,
    and [prepare] stamps the end of retrieval and hands this object on as
    the reference for the model. One call to the embedding API has been
    made and the vector index has not been queried. *)
Theorem embedding_failure_is_handed_on (a : Args) (w : World) (namespace : string)
    (e : Exn) :
  namespace_of a = Some namespace ->
  (Retrieval.num_tokens_from_string (Index := retrieval) (clean_query a) "cl100k_base"
   < 8192)%nat ->
  Retrieval.get_embedding (Index := retrieval) (clean_query a)
    (default EmptyString (openai_key a)) = Raise e ->
  exists p w1,
    prepare a w = (Ret p, w1)
    /\ p_reference p = Retrieved (Retrieval.ReferenceException (Retrieval.rewrap e))
    /\ trace w1
       = trace w ++ [DbCreate (length (rows w)); CallGetEmbedding (clean_query a)]
    /\ is_Some (dict_at w1 (stats_of a) !! "reference_end_time").
Proof.
  intros Hns Hshort Hfails.
  assert (Hanswer : retrieved a namespace
                    = (Ret (Retrieval.ReferenceException (Retrieval.rewrap e)),
                       [Retrieval.Embed (clean_query a)])).
  { unfold retrieved, Retrieval.get_reference.
    apply Nat.ltb_lt in Hshort. now rewrite Hshort, Hfails. }
  rewrite prepare_run, Hns. cbn zeta. rewrite Hanswer. cbn [fst snd].
  eexists. eexists. split; [reflexivity|]. split; [reflexivity|]. split.
  - cbn [trace record record_all after_reference after_retrieval after_query stamped
         set_dicts tick set_rows fmap list_fmap retrieval_effect].
    now rewrite <- app_assoc.
  - unfold after_reference. rewrite !dict_at_stamped.
    rewrite lookup_insert_ne by discriminate. rewrite lookup_insert_eq. eauto.
Qed.

Lemma earlier_messages (a : Args) (w : World) :
  rows_keyed w ->
  chat_history_of (rows w ++ [nurse_query a w]) (chat a) (nurse_query a w)
  = as_history <$> filter (fun m => ChatMessage.chat m = chat_id (chat a)) (rows w).
Proof.
  intros Hkeyed. unfold chat_history_of. rewrite filter_app.
  assert (Hlast : filter (fun m => ChatMessage.chat m = chat_id (chat a)
                                   /\ ChatMessage.pk m <> ChatMessage.pk (nurse_query a w))
                         [nurse_query a w] = []).
  { rewrite filter_cons. destruct (decide _) as [[_ Hne]|_]; [congruence|reflexivity]. }
  rewrite Hlast, app_nil_r.
  assert (Hsame : filter (fun m => ChatMessage.chat m = chat_id (chat a)
                                   /\ ChatMessage.pk m <> ChatMessage.pk (nurse_query a w))
                         (rows w)
                  = filter (fun m => ChatMessage.chat m = chat_id (chat a)) (rows w)).
  { apply filter_agree. intros m Hin. split; [tauto|]. intros Hchat.
    split; [exact Hchat|].
    apply list_elem_of_lookup in Hin as [i Hi].
    rewrite (Hkeyed i m Hi). cbn [nurse_query ChatMessage.pk].
    apply lookup_lt_Some in Hi. lia. }
  rewrite Hsame. reflexivity.
Qed.

(** X14. In a table where every row has its position as key, the history
    that [prepare] hands to the model is exactly the messages of this chat
    that were stored before the call, oldest first, each as a Nurse or an
    Ayushma line: the query just stored is not in it, nor is any message of
    another chat. *)
Theorem history_is_earlier_messages (a : Args) (w : World) (p : Prepared) (w1 : World) :
  rows_keyed w ->
  prepare a w = (Ret p, w1) ->
  p_chat_history p
  = as_history <$> filter (fun m => ChatMessage.chat m = chat_id (chat a)) (rows w).
Proof.
  intros Hkeyed Hprep. rewrite prepare_run in Hprep.
  rewrite <- (earlier_messages a w Hkeyed).
  destruct (namespace_of a) as [namespace|]; cbn zeta in Hprep.
  - destruct (retrieved a namespace).1; [|discriminate].
    now injection Hprep as <- _.
  - now injection Hprep as <- _.
Qed.

End Prepare.

(** ** Rows and events of a turn *)

Lemma insert_last_row (l : list ChatMessage.t) (old new : ChatMessage.t) :
  <[length l := new]> (l ++ [old]) = l ++ [new].
Proof. rewrite insert_app_r_alt by lia. now rewrite Nat.sub_diag. Qed.

Section Rows.
Context {C : Collaborators}.

(** After creation and marker extraction the table has one more row: the
    new message, as created or as cut. *)
Lemma extraction_rows (chat_response : string) (chat : Chat) (match_number : Z)
    (temperature : Z) (language : string) (w : World) :
  let fields := new_response chat_response chat match_number temperature language in
  let m0 := ChatMessage.with_pk fields (length (rows w)) in
  let m1 := ChatMessage.with_original_message m0 (without_references chat_response) in
  let w2 := (add_reference_documents m0 (ChatMessage_objects_create fields w).2).2 in
  rows w2 = rows w ++ [m0] \/ rows w2 = rows w ++ [m1].
Proof.
  cbn zeta. unfold ChatMessage_objects_create. cbn [snd].
  match goal with |- context [add_reference_documents ?m ?w1] =>
    destruct (add_reference_documents_effect m w1) as (w2 & -> & _ & _ & _ & _ & Hr)
  end.
  cbn [snd]. cbn [rows record set_rows ChatMessage.pk ChatMessage.with_pk] in Hr.
  destruct Hr as [-> | ->]; [now left|right]. apply insert_last_row.
Qed.

(** [handle_post_response] adds one row and touches no other. *)
Lemma handle_post_response_rows (chat_response : string) (chat : Chat)
    (match_number : Z) (user_language : string) (temperature : Z) (stats : nat)
    (language : string) (generate_audio : bool) (w : World) :
  exists row,
    rows (handle_post_response chat_response chat match_number user_language
            temperature stats language generate_audio w).2
    = rows w ++ [row]
    /\ ChatMessage.messageType row = AYUSHMA
    /\ ChatMessage.pk row = length (rows w).
Proof.
  destruct (handle_post_response_front chat_response chat match_number user_language
              temperature stats language generate_audio w) as (-> & _).
  pose proof (extraction_rows chat_response chat match_number temperature language w)
    as Hrows. cbn zeta in Hrows.
  set (m1 := ChatMessage.with_original_message _ _) in *.
  set (w2 := (add_reference_documents _ _).2) in *.
  pose proof (post_stages_outcome m1 chat user_language stats generate_audio w2) as Hout.
  cbn zeta in Hout.
  destruct (post_stages m1 chat user_language stats generate_audio w2)
    as [[[[shown url] saved]|e] w3]; cbn [fst snd] in *.
  - destruct Hout as [-> ->].
    change (ChatMessage.pk m1) with (length (rows w)).
    destruct Hrows as [-> | ->]; rewrite insert_last_row; eexists;
      (split; [reflexivity|]); split; reflexivity.
  - rewrite Hout. destruct Hrows as [-> | ->]; eexists; (split; [reflexivity|]);
      split; reflexivity.
Qed.

Lemma finish_world (a : Args) (p : Prepared) (chat_response : string)
    (out : list Yielded) (w : World) :
  c_world (finish a p chat_response out w)
  = (handle_post_response chat_response (chat a) (match_number a) (user_language a)
       (temperature a) (stats_of a) (p_language p) (generate_audio a)
       (stamped (stats_of a) "response_end_time" w)).2.
Proof.
  unfold finish, bind. rewrite stamp_run. cbn beta iota.
  destruct (handle_post_response _ _ _ _ _ _ _ _ _) as [[[[shown url] saved]|e] w'];
    reflexivity.
Qed.

(** The loop stores at most one row, the answer. *)
Lemma drain_rows (a : Args) (p : Prepared) (values : list QValue) :
  forall skip_token chat_response out w,
    let after := c_world (drain a p values skip_token chat_response out w) in
    rows after = rows w \/ exists row, rows after = rows w ++ [row].
Proof.
  induction values as [|v values IH]; intros skip_token chat_response out w; cbn zeta;
    [now left|].
  cbn [drain]. destruct (0 <? skip_token)%nat; [apply IH|].
  destruct v as [text| |class_name]; [apply IH | | now left].
  right. rewrite finish_world.
  destruct (handle_post_response_rows chat_response (chat a) (match_number a)
              (user_language a) (temperature a) (stats_of a) (p_language p)
              (generate_audio a) (stamped (stats_of a) "response_end_time" w))
    as (row & Hrow & _).
  exists row. exact Hrow.
Qed.

Lemma prepare_rows (a : Args) (w : World) :
  rows (prepare a w).2 = rows w ++ [nurse_query a w].
Proof.
  rewrite prepare_run. destruct (namespace_of a) as [namespace|]; [|reflexivity].
  cbn zeta. destruct (retrieved a namespace).1; reflexivity.
Qed.

(** X15. [converse] never changes or removes a row that was stored before
    the call, and adds at most three: none without a key, otherwise the
    query first, then at most the answer and an error message. *)
Theorem converse_only_appends_rows (fuel : nat) (a : Args) (w : World) :
  exists more,
    rows (final (converse fuel a w)) = rows w ++ more
    /\ (length more <= 3)%nat
    /\ (if PyStr.truthy (openai_key a)
        then exists rest, more = nurse_query a w :: rest
        else more = []).
Proof.
  unfold converse. destruct (PyStr.truthy (openai_key a)); cbn [negb].
  2: { exists []. cbn [final]. rewrite app_nil_r. repeat split. cbn. lia. }
  pose proof (prepare_rows a w) as Hq.
  destruct (prepare a w) as [[p|e] w1]; cbn [snd] in Hq.
  2: { exists [nurse_query a w]. cbn [final]. split; [exact Hq|]. split; [cbn; lia|eauto]. }
  destruct (stream a); cbn [negb].
  - unfold converse_streaming.
    set (c := consume _ _ _ _ _ _ _ _ _).
    assert (Hc : rows (c_world c) = rows w ++ [nurse_query a w]
                 \/ exists row, rows (c_world c) = rows w ++ [nurse_query a w; row]).
    { subst c.
      match goal with |- context [consume fuel a p ?q ?pr ?sk ?cr ?out ?w0] =>
        destruct (consume_drain_prefix a p fuel q pr sk cr out w0) as [n ->];
        destruct (drain_rows a p (take n (q ++ List.concat pr)) sk cr out w0)
          as [Hsame|[row Hrow]]
      end; cbn zeta in *; cbn [rows record] in *.
      - left. now rewrite Hsame.
      - right. exists row. rewrite Hrow, Hq, <- app_assoc. reflexivity. }
    destruct (c_exit c) as [|e|skip resp].
    + cbn [final]. destruct Hc as [->|[row ->]]; eexists;
        (split; [reflexivity|]); (split; [cbn; lia|eauto]).
    + rewrite on_exception_run.
      destruct (display_text (user_language a) (str_exn e)); cbn zeta; cbn [final rows record set_rows].
      * destruct Hc as [->|[row ->]]; rewrite <- app_assoc; eexists;
          (split; [reflexivity|]); (split; [cbn; lia|eauto]).
      * destruct Hc as [->|[row ->]]; eexists;
          (split; [reflexivity|]); (split; [cbn; lia|eauto]).
    + cbn [final]. destruct Hc as [->|[row ->]]; eexists;
        (split; [reflexivity|]); (split; [cbn; lia|eauto]).
  - unfold converse_blocking. unfold bind at 1, call at 1.
    destruct (get_response _ _ _ _) as [response|e].
    2: { cbn [final rows record]. exists [nurse_query a w].
         split; [exact Hq|]. split; [cbn; lia|eauto]. }
    unfold bind at 1. rewrite stamp_run. cbn beta iota. unfold bind at 1.
    match goal with |- context [handle_post_response ?r ?c ?k ?l ?t ?s ?g ?b ?w0] =>
      destruct (handle_post_response_rows r c k l t s g b w0) as (row & Hrow & _);
      destruct (handle_post_response r c k l t s g b w0) as [[[[shown url] saved]|e] w2]
    end; cbn [snd] in Hrow; cbn [rows record stamped set_dicts tick] in Hrow;
      unfold ret; cbn [final]; exists [nurse_query a w; row];
      (split; [rewrite Hrow, Hq, <- app_assoc; reflexivity|]);
      (split; [cbn; lia|eauto]).
Qed.

End Rows.

Section Events.
Context {C : Collaborators}.

(** What the loop has handed out: events without [stop], and after them
    one event with [stop] exactly when the loop was left by [break]. *)
Lemma drain_shape (a : Args) (p : Prepared) (values : list QValue) :
  forall skip_token chat_response out w,
    let c := drain a p values skip_token chat_response out w in
    exists deltas,
      List.filter is_terminal deltas = []
      /\ ((c_exit c <> Broke /\ c_yields c = out ++ deltas)
          \/ (c_exit c = Broke
              /\ exists last, c_yields c = out ++ deltas ++ [last]
                              /\ is_terminal last = true)).
Proof.
  induction values as [|v values IH]; intros skip_token chat_response out w; cbn zeta.
  - exists []. split; [reflexivity|]. left. cbn. now rewrite app_nil_r.
  - cbn [drain]. destruct (0 <? skip_token)%nat; [apply IH|].
    destruct v as [text| |class_name].
    + destruct (IH skip_token (chat_response +:+ text)
                  (out ++ [delta_event a text (chat_response +:+ text)]) w)
        as (deltas & Hnone & Hcases).
      exists (delta_event a text (chat_response +:+ text) :: deltas).
      split; [cbn [List.filter is_terminal delta_event json_stop create_json_response];
              exact Hnone|].
      destruct Hcases as [[Hexit Hyields] | [Hexit (last & Hyields & Hlast)]].
      * left. split; [exact Hexit|]. rewrite Hyields, <- app_assoc. reflexivity.
      * right. split; [exact Hexit|]. exists last. split; [|exact Hlast].
        rewrite Hyields, <- app_assoc. reflexivity.
    + exists []. split; [reflexivity|]. unfold finish.
      destruct ((stamp _ _ ;; handle_post_response _ _ _ _ _ _ _ _) w)
        as [[[[shown url] saved]|e] w']; cbn [c_exit c_yields].
      * right. split; [reflexivity|]. eexists. split; [reflexivity|reflexivity].
      * left. split; [discriminate|]. now rewrite app_nil_r.
    + exists []. split; [reflexivity|]. left. cbn [c_exit c_yields].
      split; [discriminate|]. now rewrite app_nil_r.
Qed.

(** X16. Whatever the producer puts on the queue and however long the loop
    runs, a streaming turn hands out events without [stop] and then, exactly
    when the generator returns, one last event with [stop] set: a turn never
    shows two terminal events, never shows an event after the terminal one,
    and never returns without one. *)
Theorem terminal_event_is_last_and_only (fuel : nat) (a : Args) (p : Prepared)
    (w : World) :
  let r := converse_streaming fuel a p w in
  exists deltas,
    List.filter is_terminal deltas = []
    /\ ((yields r = deltas /\ ending r <> Returned)
        \/ (exists last, yields r = deltas ++ [last]
                         /\ is_terminal last = true
                         /\ ending r = Returned)).
Proof.
  cbn zeta. unfold converse_streaming.
  match goal with |- context [consume fuel a p ?q ?pr ?sk ?cr ?out ?w0] =>
    destruct (consume_drain_prefix a p fuel q pr sk cr out w0) as [n ->];
    destruct (drain_shape a p (take n (q ++ List.concat pr)) sk cr out w0)
      as (deltas & Hnone & Hcases);
    set (c := drain a p (take n (q ++ List.concat pr)) sk cr out w0) in *
  end.
  cbn zeta in Hcases. cbn [app] in Hcases. exists deltas. split; [exact Hnone|].
  destruct Hcases as [[Hexit Hyields] | [Hexit (last & Hyields & Hlast)]].
  - destruct (c_exit c) as [|e|skip rest]; [now destruct Hexit| |].
    + rewrite on_exception_run.
      destruct (display_text (user_language a) (str_exn e)); cbn zeta.
      * right. eexists. cbn [yields ending]. rewrite Hyields.
        split; [reflexivity|]. split; reflexivity.
      * left. cbn [yields ending]. split; [exact Hyields|discriminate].
    + left. cbn [yields ending]. split; [exact Hyields|discriminate].
  - rewrite Hexit. right. exists last. cbn [yields ending]. repeat split; assumption.
Qed.

(** X17. A value that is no string, arriving after the nine skipped values
    and some tokens (what the producer puts when the model call fails), ends
    the turn on the error path: the tokens before it have been shown, the
    terminal event carries the text of the TypeError of the concatenation
    (not the producer's own message), one error message is stored, and
    nothing put on the queue after that value is read. *)
Theorem producer_failure_mid_stream (fuel : nat) (a : Args) (p : Prepared) (w : World)
    (prefix : list QValue) (tokens : list string) (class_name : string)
    (rest : list QValue) (shown : string) :
  length prefix = String.length "Ayushma: " ->
  List.concat (pushed a p) = prefix ++ (Token <$> tokens) ++ Other class_name :: rest ->
  (length (pushed a p) + length (List.concat (pushed a p)) <= fuel)%nat ->
  display_text (user_language a) (str_exn (not_a_token class_name)) = Ret shown ->
  let r := converse_streaming fuel a p w in
  yields r = delta_events a tokens ++ [error_event a (not_a_token class_name)]
  /\ ending r = Returned
  /\ rows (final r)
     = rows w ++ [error_message a p (not_a_token class_name) shown (started p w)].
Proof.
  intros Hnine Hpushed Hfuel Hshown. cbn zeta. unfold converse_streaming.
  fold (pushed a p). fold (started p w).
  rewrite consume_drain_all by (cbn [app]; exact Hfuel).
  cbn [app]. rewrite Hpushed, <- Hnine, drain_skip_prefix, drain_tokens_then.
  cbn [drain]. change (0 <? 0)%nat with false. cbn iota. cbn [c_exit c_yields c_world].
  rewrite on_exception_run. unfold not_a_token in *. rewrite Hshown.
  cbn beta iota zeta. cbn [yields ending final rows record set_rows].
  split; [reflexivity|]. split; [reflexivity|].
  destruct (negb (String.eqb (user_language a) "en-IN")); reflexivity.
Qed.

(** X18. The end marker after the nine skipped values and the tokens
    [tokens], with a post-processing that returns: the turn shows one event
    per token and then one terminal event with the text and the audio url
    that [handle_post_response] returned for the concatenation of the
    tokens, and its world is the one post-processing left. *)
Theorem completed_stream_shows_final_event (fuel : nat) (a : Args) (p : Prepared)
    (w w' : World) (prefix : list QValue) (tokens : list string)
    (shown : string) (url : option string) (saved : ChatMessage.t) :
  length prefix = String.length "Ayushma: " ->
  List.concat (pushed a p) = prefix ++ (Token <$> tokens) ++ [RESPONSE_END] ->
  (length (pushed a p) + length prefix + length tokens + 1 <= fuel)%nat ->
  handle_post_response (join tokens) (chat a) (match_number a) (user_language a)
    (temperature a) (stats_of a) (p_language p) (generate_audio a)
    (stamped (stats_of a) "response_end_time" (started p w))
  = (Ret (shown, url, saved), w') ->
  converse_streaming fuel a p w
  = {| yields := delta_events a tokens ++ [final_event a shown url];
       ending := Returned;
       final := w' |}.
Proof.
  intros Hnine Hpushed Hfuel Hpost. unfold converse_streaming.
  fold (pushed a p). fold (started p w). fold (tried fuel a p w).
  rewrite (end_marker_after_prefix a p w fuel prefix tokens Hnine Hpushed Hfuel).
  unfold finish, bind. rewrite stamp_run. cbn beta iota. rewrite Hpost. reflexivity.
Qed.

(** A failing stage makes [handle_post_response] raise, with the new row
    left without display text. *)
Lemma handle_post_response_raises (chat_response : string) (chat : Chat)
    (match_number : Z) (user_language : string) (temperature : Z) (stats : nat)
    (language : string) (generate_audio : bool) (w : World) (e : Exn) :
  stage_fails chat user_language (without_references chat_response) generate_audio w e ->
  exists row w',
    handle_post_response chat_response chat match_number user_language temperature
      stats language generate_audio w = (Raise e, w')
    /\ rows w' = rows w ++ [row]
    /\ ChatMessage.messageType row = AYUSHMA
    /\ ChatMessage.message row = None
    /\ ChatMessage.ayushma_audio_url row = None.
Proof.
  intros Hfails.
  destruct (handle_post_response_front chat_response chat match_number user_language
              temperature stats language generate_audio w) as (-> & _ & Hu & _).
  pose proof (extraction_rows chat_response chat match_number temperature language w)
    as Hrows. cbn zeta in Hrows.
  set (m1 := ChatMessage.with_original_message _ _) in *.
  set (w2 := (add_reference_documents _ _).2) in *.
  assert (Hstage : stage_fails chat user_language (ChatMessage.original_message m1)
                     generate_audio w2 e).
  { unfold stage_fails in *. rewrite Hu. exact Hfails. }
  pose proof (post_stages_failure m1 chat user_language stats generate_audio w2 e Hstage)
    as Hraise.
  pose proof (post_stages_outcome m1 chat user_language stats generate_audio w2) as Hout.
  cbn zeta in Hout. rewrite Hraise in Hout.
  destruct (post_stages m1 chat user_language stats generate_audio w2) as [outcome w3].
  cbn [fst snd] in *. subst outcome.
  destruct Hrows as [Hrows | Hrows]; eexists; exists w3; (split; [reflexivity|]);
    (split; [rewrite Hout; exact Hrows|]); repeat split.
Qed.

(** X19. When the end marker arrives and translation, speech synthesis or
    the upload then fails with [e], the streaming turn does not fail: it
    shows the events of the tokens and then the error event of [e], and it
    leaves two assistant rows behind, the answer without display text and
    the error message. *)
Theorem failed_post_processing_stores_two_rows (fuel : nat) (a : Args) (p : Prepared)
    (w : World) (prefix : list QValue) (tokens : list string) (e : Exn)
    (shown : string) :
  length prefix = String.length "Ayushma: " ->
  List.concat (pushed a p) = prefix ++ (Token <$> tokens) ++ [RESPONSE_END] ->
  (length (pushed a p) + length prefix + length tokens + 1 <= fuel)%nat ->
  stage_fails (chat a) (user_language a) (without_references (join tokens))
    (generate_audio a) w e ->
  display_text (user_language a) (str_exn e) = Ret shown ->
  let r := converse_streaming fuel a p w in
  yields r = delta_events a tokens ++ [error_event a e]
  /\ ending r = Returned
  /\ exists answer failure,
       rows (final r) = rows w ++ [answer; failure]
       /\ ChatMessage.messageType answer = AYUSHMA
       /\ ChatMessage.message answer = None
       /\ ChatMessage.ayushma_audio_url answer = None
       /\ ChatMessage.messageType failure = AYUSHMA
       /\ ChatMessage.original_message failure = str_exn e
       /\ ChatMessage.message failure = Some shown.
Proof.
  intros Hnine Hpushed Hfuel Hfails Hshown. cbn zeta. unfold converse_streaming.
  fold (pushed a p). fold (started p w). fold (tried fuel a p w).
  rewrite (end_marker_after_prefix a p w fuel prefix tokens Hnine Hpushed Hfuel).
  unfold finish, bind. rewrite stamp_run. cbn beta iota.
  destruct (handle_post_response_raises (join tokens) (chat a) (match_number a)
              (user_language a) (temperature a) (stats_of a) (p_language p)
              (generate_audio a)
              (stamped (stats_of a) "response_end_time" (started p w)) e Hfails)
    as (row & w' & -> & Hrows & Htype & Hmessage & Hurl).
  cbn [c_exit c_yields c_world]. rewrite on_exception_run, Hshown. cbn zeta.
  cbn [yields ending final]. split; [reflexivity|]. split; [reflexivity|].
  exists row, (error_message a p e shown w').
  split.
  { cbn [rows record set_rows]. rewrite Hrows.
    cbn [rows record stamped set_dicts tick started]. rewrite <- app_assoc.
    destruct (negb (String.eqb (user_language a) "en-IN")); reflexivity. }
  repeat split; assumption.
Qed.

End Events.

(** ** Speech synthesis and upload *)

Section Voice.
Context {C : Collaborators}.

(** Speech synthesis that gives no sound: [None] or an empty byte string. *)
Lemma post_stages_voiceless (m : ChatMessage.t) (chat : Chat) (user_language : string)
    (stats : nat) (w : World) (shown : string) (voice : option string) :
  display_text user_language (ChatMessage.original_message m) = Ret shown ->
  text_to_speech shown user_language = Ret voice ->
  voice = None \/ voice = Some EmptyString ->
  let r := post_stages m chat user_language stats true w in
  exists saved,
    r.1 = Ret (shown, None, saved)
    /\ uuids r.2 = uuids w
    /\ audio_calls (trace r.2) = S (audio_calls (trace w))
    /\ dict_at r.2 stats !! "upload_start_time" = dict_at w stats !! "upload_start_time"
    /\ dict_at r.2 stats !! "upload_end_time" = dict_at w stats !! "upload_end_time".
Proof.
  unfold display_text, post_stages. intros Hshow Htts Hvoice. cbn zeta.
  destruct (negb (String.eqb user_language "en-IN")); run;
    try rewrite Hshow; try injection Hshow as <-; run; rewrite Htts; run;
    destruct Hvoice as [-> | ->]; run; eexists; (split; [reflexivity|]); project;
    repeat first [rewrite dict_at_record | rewrite dict_at_set_rows | rewrite dict_at_stamped];
    rewrite ?audio_calls_snoc; cbn [is_audio_call];
    rewrite ?lookup_insert_ne by discriminate;
    (split; [reflexivity|]); (split; [lia|]); split; reflexivity.
Qed.

Lemma last_three {A : Type} (l : list A) (x y z : A) :
  ((l ++ [x]) ++ [y]) ++ [z] = l ++ [x; y; z].
Proof. now rewrite <- !app_assoc. Qed.

(** Speech synthesis that gives sound, and an upload that returns. *)
Lemma post_stages_voiced (m : ChatMessage.t) (chat : Chat) (user_language : string)
    (stats : nat) (w : World) (shown : string) (c : ascii) (audio : string)
    (url : option string) :
  display_text user_language (ChatMessage.original_message m) = Ret shown ->
  text_to_speech shown user_language = Ret (Some (String c audio)) ->
  upload_file (String c audio) (s3_key chat (uuid4 (uuids w))) = Ret url ->
  let r := post_stages m chat user_language stats true w in
  exists saved earlier,
    r.1 = Ret (shown, url, saved)
    /\ uuids r.2 = S (uuids w)
    /\ audio_calls (trace r.2) = S (S (audio_calls (trace w)))
    /\ trace r.2
       = earlier ++ [CallTextToSpeech shown user_language;
                     CallUpload (String c audio) (s3_key chat (uuid4 (uuids w)));
                     DbSave (ChatMessage.pk m)]
    /\ Forall is_Some (audio_stats (dict_at r.2 stats)).
Proof.
  unfold display_text, post_stages. intros Hshow Htts Hup. cbn zeta.
  destruct (negb (String.eqb user_language "en-IN")); run;
    try rewrite Hshow; try injection Hshow as <-; run; rewrite Htts; run;
    project; rewrite Hup; run; eexists; eexists; (split; [reflexivity|]); project;
    repeat first [rewrite dict_at_record | rewrite dict_at_set_rows
                 | rewrite dict_at_draw_uuid | rewrite dict_at_stamped];
    rewrite ?audio_calls_snoc; cbn [is_audio_call];
    unfold audio_stats, audio_marks; cbn [fmap list_fmap];
    repeat first [rewrite lookup_insert_eq | rewrite lookup_insert_ne by discriminate];
    (split; [reflexivity|]); (split; [lia|]);
    (split; [exact (last_three _ _ _ _)|]);
    repeat constructor; eauto.
Qed.

(** When [handle_post_response] returns, the object it returns is the one
    new row, with the returned text and url. *)
Lemma handle_post_response_returned (chat_response : string) (chat : Chat)
    (match_number : Z) (user_language : string) (temperature : Z) (stats : nat)
    (language : string) (generate_audio : bool) (w w' : World)
    (shown : string) (url : option string) (saved : ChatMessage.t) :
  handle_post_response chat_response chat match_number user_language temperature
    stats language generate_audio w = (Ret (shown, url, saved), w') ->
  rows w' = rows w ++ [saved]
  /\ saved = ChatMessage.with_results
               (ChatMessage.with_original_message
                  (ChatMessage.with_pk
                     (new_response chat_response chat match_number temperature language)
                     (length (rows w)))
                  (without_references chat_response))
               shown url (response_meta (dict_at w' stats)).
Proof.
  destruct (handle_post_response_front chat_response chat match_number user_language
              temperature stats language generate_audio w) as (-> & _).
  pose proof (extraction_rows chat_response chat match_number temperature language w)
    as Hrows. cbn zeta in Hrows.
  set (m1 := ChatMessage.with_original_message _ _) in *.
  set (w2 := (add_reference_documents _ _).2) in *.
  pose proof (post_stages_outcome m1 chat user_language stats generate_audio w2) as Hout.
  cbn zeta in Hout. intros Hrun. rewrite Hrun in Hout. cbn [fst snd] in Hout.
  destruct Hout as [Hsaved Hafter]. split; [|exact Hsaved].
  rewrite Hafter. change (ChatMessage.pk m1) with (length (rows w)).
  destruct Hrows as [-> | ->]; apply insert_last_row.
Qed.

(** X21. When speech synthesis returns no sound ([None] or an empty byte
    string), [handle_post_response] still returns: the upload is skipped
    (one call to the audio services, the synthesis; no uuid drawn; the
    upload marks of the dict untouched), and the answer is stored and
    returned with its display text and no audio url. *)
Theorem silent_voice_skips_upload (chat_response : string) (chat : Chat)
    (match_number : Z) (user_language : string) (temperature : Z) (stats : nat)
    (language : string) (w : World) (shown : string) (voice : option string) :
  display_text user_language (without_references chat_response) = Ret shown ->
  text_to_speech shown user_language = Ret voice ->
  voice = None \/ voice = Some EmptyString ->
  let r := handle_post_response chat_response chat match_number user_language
             temperature stats language true w in
  exists saved,
    r.1 = Ret (shown, None, saved)
    /\ rows r.2 = rows w ++ [saved]
    /\ ChatMessage.message saved = Some shown
    /\ ChatMessage.ayushma_audio_url saved = None
    /\ uuids r.2 = uuids w
    /\ audio_calls (trace r.2) = S (audio_calls (trace w))
    /\ dict_at r.2 stats !! "upload_start_time" = dict_at w stats !! "upload_start_time"
    /\ dict_at r.2 stats !! "upload_end_time" = dict_at w stats !! "upload_end_time".
Proof.
  intros Hshow Htts Hvoice. cbn zeta.
  pose proof (handle_post_response_returned chat_response chat match_number
                user_language temperature stats language true w) as Hret.
  destruct (handle_post_response_front chat_response chat match_number user_language
              temperature stats language true w) as (Hrun & _ & Hu & Hd & Ha & _).
  cbn zeta in Hrun. rewrite Hrun in *.
  set (m1 := ChatMessage.with_original_message _ _) in *.
  set (w2 := (add_reference_documents _ _).2) in *.
  destruct (post_stages_voiceless m1 chat user_language stats w2 shown voice
              Hshow Htts Hvoice) as (saved & Hout & Hu' & Ha' & Hs & He).
  cbn zeta in *.
  destruct (post_stages m1 chat user_language stats true w2) as [outcome w3].
  cbn [fst snd] in *. subst outcome.
  destruct (Hret w3 shown None saved eq_refl) as [Hrows Hsaved].
  exists saved. split; [reflexivity|]. split; [exact Hrows|].
  split; [now rewrite Hsaved|]. split; [now rewrite Hsaved|].
  split; [congruence|]. split; [congruence|].
  rewrite Hs, He, (dict_at_dicts w w2 stats Hd). split; reflexivity.
Qed.

(** X22. When speech synthesis gives sound and the upload, made under the
    key of line 215 (the id of the chat, an underscore, a fresh uuid and
    ".mp3"), returns [url], [handle_post_response] returns [url] and stores
    it in the new row. It has called the two audio services once each and
    drawn one uuid; the synthesis, the upload and the last write are the
    last three effects, in this order; and the four audio marks are all
    there in the stored [meta], as the dict holds them after the call. *)
Theorem voiced_answer_is_uploaded (chat_response : string) (chat : Chat)
    (match_number : Z) (user_language : string) (temperature : Z) (stats : nat)
    (language : string) (w : World) (shown : string) (c : ascii) (audio : string)
    (url : option string) :
  display_text user_language (without_references chat_response) = Ret shown ->
  text_to_speech shown user_language = Ret (Some (String c audio)) ->
  upload_file (String c audio)
    (PyStr.str_int (chat_id chat) +:+ "_" +:+ uuid4 (uuids w) +:+ ".mp3") = Ret url ->
  let r := handle_post_response chat_response chat match_number user_language
             temperature stats language true w in
  exists saved mt earlier,
    r.1 = Ret (shown, url, saved)
    /\ rows r.2 = rows w ++ [saved]
    /\ ChatMessage.message saved = Some shown
    /\ ChatMessage.ayushma_audio_url saved = url
    /\ uuids r.2 = S (uuids w)
    /\ audio_calls (trace r.2) = S (S (audio_calls (trace w)))
    /\ trace r.2
       = earlier
         ++ [CallTextToSpeech shown user_language;
             CallUpload (String c audio)
               (PyStr.str_int (chat_id chat) +:+ "_" +:+ uuid4 (uuids w) +:+ ".mp3");
             DbSave (length (rows w))]
    /\ ChatMessage.meta saved = Some mt
    /\ audio_meta mt = audio_stats (dict_at r.2 stats)
    /\ Forall is_Some (audio_meta mt).
Proof.
  intros Hshow Htts Hup. cbn zeta. fold (s3_key chat (uuid4 (uuids w))) in *.
  pose proof (handle_post_response_returned chat_response chat match_number
                user_language temperature stats language true w) as Hret.
  destruct (handle_post_response_front chat_response chat match_number user_language
              temperature stats language true w) as (Hrun & Hc & Hu & Hd & Ha & _).
  cbn zeta in Hrun. rewrite Hrun in *.
  set (m1 := ChatMessage.with_original_message _ _) in *.
  set (w2 := (add_reference_documents _ _).2) in *.
  rewrite <- Hu in Hup |- *.
  destruct (post_stages_voiced m1 chat user_language stats w2 shown c audio url
              Hshow Htts Hup) as (saved & earlier & Hout & Hu' & Ha' & Htrace & Hmarks).
  cbn zeta in *.
  destruct (post_stages m1 chat user_language stats true w2) as [outcome w3].
  cbn [fst snd] in *. subst outcome.
  destruct (Hret w3 shown url saved eq_refl) as [Hrows Hsaved].
  exists saved, (response_meta (dict_at w3 stats)), earlier.
  split; [reflexivity|]. split; [exact Hrows|].
  split; [now rewrite Hsaved|]. split; [now rewrite Hsaved|].
  split; [congruence|]. split; [congruence|].
  split; [exact Htrace|].
  split; [now rewrite Hsaved|].
  rewrite audio_meta_response_meta. split; [reflexivity|exact Hmarks].
Qed.

End Voice.

(** ** The blocking branch *)

Section Blocking.
Context {C : Collaborators}.

(** X20. A blocking turn for the default language with no audio, whose
    model call returns [response]: the turn hands out one object, the
    stored answer, whose raw and display text are [response] with the
    label "Ayushma: " replaced by nothing and the marker section cut off;
    the rows it leaves are those from before, the query and this answer. *)
Theorem blocking_turn_returns_stored_answer (fuel : nat) (a : Args) (w w1 : World)
    (p : Prepared) (response : string) :
  PyStr.truthy (openai_key a) = true ->
  stream a = false ->
  user_language a = "en-IN" ->
  generate_audio a = false ->
  prepare a w = (Ret p, w1) ->
  get_response (helper_of a p) (p_english_text p) (p_reference p) (p_chat_history p)
  = Ret response ->
  let answer := without_references (PyStr.replace response "Ayushma: " EmptyString) in
  let r := converse fuel a w in
  exists saved,
    yields r = [YieldMessage saved]
    /\ ending r = Returned
    /\ rows (final r) = rows w ++ [nurse_query a w; saved]
    /\ ChatMessage.messageType saved = AYUSHMA
    /\ ChatMessage.original_message saved = answer
    /\ ChatMessage.message saved = Some answer
    /\ ChatMessage.ayushma_audio_url saved = None.
Proof.
  intros Hkey Hstream Hlang Haudio Hprepare Hmodel. cbn zeta.
  rewrite (converse_blocks fuel a w Hkey Hstream).
  pose proof (prepare_rows a w) as Hquery. rewrite Hprepare in *. cbn [snd] in Hquery.
  unfold converse_blocking, bind, call, ret. rewrite Hmodel. cbn beta iota.
  rewrite stamp_run. cbn beta iota. rewrite Hlang, Haudio.
  match goal with |- context [handle_post_response ?r ?c ?k ?l ?t ?s ?g ?b ?w0] =>
    pose proof (handle_post_response_returned r c k l t s g b w0) as Hret;
    destruct (handle_post_response_front r c k l t s g b w0) as (Hrun & _)
  end.
  cbn zeta in Hrun.
  edestruct Hret as [Hrows Hsaved];
    [rewrite Hrun, post_stages_plain; cbn zeta; reflexivity|].
  rewrite Hrun, post_stages_plain. cbn beta iota zeta. cbn [snd yields ending final].
  eexists. split; [reflexivity|]. split; [reflexivity|].
  split.
  { rewrite Hrows. cbn [rows record stamped set_dicts tick]. rewrite Hquery, <- app_assoc.
    reflexivity. }
  repeat split.
Qed.

End Blocking.

(** ** The shared default of [stats] *)

Section Shared.
Context {C : Collaborators}.

(** The rows a blocking turn leaves when it hands out [saved]. *)
Lemma blocking_turn_rows (fuel : nat) (a : Args) (w : World) (saved : ChatMessage.t) :
  stream a = false ->
  yields (converse fuel a w) = [YieldMessage saved] ->
  rows (final (converse fuel a w)) = rows w ++ [nurse_query a w; saved].
Proof.
  intros Hstream Hyield.
  assert (Hkey : PyStr.truthy (openai_key a) = true).
  { destruct (PyStr.truthy (openai_key a)) eqn:Hk; [reflexivity|].
    rewrite (converse_without_key fuel a w Hk) in Hyield. discriminate. }
  rewrite (converse_blocks fuel a w Hkey Hstream) in *.
  pose proof (prepare_rows a w) as Hquery.
  destruct (prepare a w) as [[p|e] w1]; [|discriminate]. cbn [snd] in Hquery.
  unfold converse_blocking, bind, call, ret in *.
  destruct (get_response _ _ _ _) as [response|e]; [|discriminate].
  rewrite stamp_run in *. cbn beta iota in *.
  match goal with |- context [handle_post_response ?r ?c ?k ?l ?t ?s ?g ?b ?w0] =>
    pose proof (handle_post_response_returned r c k l t s g b w0) as Hret;
    destruct (handle_post_response r c k l t s g b w0) as [[[[shown url] stored]|e] w2]
  end; [|discriminate].
  cbn [snd yields final] in *. injection Hyield as <-.
  destruct (Hret w2 shown url stored eq_refl) as [Hrows _].
  rewrite Hrows. cbn [rows record stamped set_dicts tick].
  rewrite Hquery, <- app_assoc. reflexivity.
Qed.

End Shared.

(** C9. The dict bound to the default of [stats] is one object for all the
    calls that leave [stats] out. First, in general: for a blocking turn with
    no audio and no [stats], the answer is stored as the last row of the
    table, after the query, and the audio marks in its stored [meta], and in
    the object handed out, are those the shared dict held when the turn
    began. Second, on a run: after a turn with audio, which stamps the marks
    105 to 108 in the shared dict, a turn with no audio stores these four
    marks with its answer, while the same call made first stores none. *)
Theorem default_stats_is_shared :
  (forall (C : Collaborators) (fuel : nat) (a : Args) (w : World) (saved : ChatMessage.t),
      stats a = None ->
      stream a = false ->
      generate_audio a = false ->
      yields (converse fuel a w) = [YieldMessage saved] ->
      persisted_audio_marks (yields (converse fuel a w))
      = Some (audio_stats (dict_at w default_stats))
      /\ rows (final (converse fuel a w)) = rows w ++ [nurse_query a w; saved]
      /\ stored_audio_marks (final (converse fuel a w))
         = Some (audio_stats (dict_at w default_stats)))
  /\ (let C := Scenario.services true [] in
      let with_audio := Scenario.turn "en-IN" false true in
      let without_audio := Scenario.turn "en-IN" false false in
      let first := converse 0 with_audio Scenario.fresh in
      let later := converse 0 without_audio (final first) in
      let alone := converse 0 without_audio Scenario.fresh in
      persisted_audio_marks (yields alone) = Some [None; None; None; None]
      /\ persisted_audio_marks (yields later)
         = Some [Some 105%nat; Some 106%nat; Some 107%nat; Some 108%nat]
      /\ stored_audio_marks (final alone) = Some [None; None; None; None]
      /\ stored_audio_marks (final later)
         = Some [Some 105%nat; Some 106%nat; Some 107%nat; Some 108%nat]).
Proof.
  split.
  - intros C fuel a w saved Hstats Hstream Haudio Hyield.
    pose proof (default_stats_leak fuel a w saved Hstats Hstream Haudio Hyield) as Hmarks.
    pose proof (blocking_turn_rows fuel a w saved Hstream Hyield) as Hrows.
    split; [exact Hmarks|]. split; [exact Hrows|].
    unfold stored_audio_marks. rewrite Hrows.
    change (rows w ++ [nurse_query a w; saved])
      with (rows w ++ [nurse_query a w] ++ [saved]).
    rewrite app_assoc, last_snoc.
    rewrite Hyield in Hmarks. exact Hmarks.
  - vm_compute. repeat split.
Qed.

(** ** Further worked cases *)

(** C9, on a run: the general law applied to the later of the two turns. *)
Lemma default_stats_run :
  let C := Scenario.services true [] in
  let a := Scenario.turn "en-IN" false false in
  let w := final (converse 0 (Scenario.turn "en-IN" false true) Scenario.fresh) in
  exists saved,
    (stats a = None /\ stream a = false /\ generate_audio a = false
     /\ yields (converse 0 a w) = [YieldMessage saved])
    /\ (persisted_audio_marks (yields (converse 0 a w))
        = Some (audio_stats (dict_at w default_stats))
        /\ rows (final (converse 0 a w)) = rows w ++ [nurse_query a w; saved]
        /\ stored_audio_marks (final (converse 0 a w))
           = Some (audio_stats (dict_at w default_stats))).
Proof.
  cbn zeta. eexists.
  assert (Hyield : yields (@converse (Scenario.services true []) 0
                             (Scenario.turn "en-IN" false false)
                             (final (@converse (Scenario.services true []) 0
                                       (Scenario.turn "en-IN" false true) Scenario.fresh)))
                   = [YieldMessage _]) by (vm_compute; reflexivity).
  split; [split; [reflexivity|]; split; [reflexivity|]; split; [reflexivity|exact Hyield]|].
  exact (proj1 default_stats_is_shared (Scenario.services true []) 0%nat
           (Scenario.turn "en-IN" false false) _ _ eq_refl eq_refl eq_refl Hyield).
Defined.


Lemma split_text_part_run :
  Retrieval.split_text "Hello" !! 0%nat = Some "Hello"
  /\ ((0 * Retrieval.number_of_chars < String.length "Hello")%nat
      /\ "Hello" = Retrieval.part_at Retrieval.number_of_chars "Hello"
                     (0 * Retrieval.number_of_chars)
      /\ String.length "Hello"
         = (Retrieval.number_of_chars
            `min` (String.length "Hello" - 0 * Retrieval.number_of_chars))%nat).
Proof.
  assert (Hpart : Retrieval.split_text "Hello" !! 0%nat = Some "Hello")
    by (vm_compute; reflexivity).
  split; [exact Hpart|].
  exact (split_text_part_sizes "Hello" "Hello" 0 Hpart).
Defined.

Lemma sanitized_reference_run :
  Retrieval.get_sanitized_reference Cases.found !! "28" = Some "How are you,"
  /\ PyStr.newline ∉ Retrieval.chars "How are you,".
Proof.
  assert (Hvalue : Retrieval.get_sanitized_reference Cases.found !! "28"
                   = Some "How are you,") by (vm_compute; reflexivity).
  split; [exact Hvalue|].
  exact (sanitized_reference_no_newline Cases.found "28" "How are you," Hvalue).
Defined.

Lemma embedding_failure_run :
  let I := Retrieval.toy_index ["Hello"] in
  let e := {| exn_class := "APIError"; exn_text := "rate limit" |} in
  (Retrieval.num_tokens_from_string "Hello" "cl100k_base" < 8192)%nat
  /\ Retrieval.get_embedding "Hello" "sk-test" = Raise e
  /\ Retrieval.get_reference "Hello" "sk-test" "project-1" 3
     = (Ret (Retrieval.ReferenceException (Retrieval.rewrap e)),
        [Retrieval.Embed "Hello"]).
Proof.
  cbn zeta.
  assert (Hshort : (@Retrieval.num_tokens_from_string nat (Retrieval.toy_index ["Hello"])
                      "Hello" "cl100k_base" < 8192)%nat) by (vm_compute; lia).
  assert (Hfails : @Retrieval.get_embedding nat (Retrieval.toy_index ["Hello"])
                     "Hello" "sk-test"
                   = Raise {| exn_class := "APIError"; exn_text := "rate limit" |})
    by (vm_compute; reflexivity).
  split; [exact Hshort|]. split; [exact Hfails|].
  exact (proj1 (@embedding_failure_returned_or_raised nat (Retrieval.toy_index ["Hello"])
                  "Hello" "sk-test" "project-1" 3) _ Hshort Hfails).
Defined.

Lemma long_text_reference_run :
  let I := Retrieval.toy_index [] in
  let answer := [{| Retrieval.metadata_document := Some "28";
                    Retrieval.metadata_text := Some "How are you" |}] in
  (8192 <= Retrieval.num_tokens_from_string Cases.long_text "cl100k_base")%nat
  /\ Forall2 (fun part v => Retrieval.get_embedding part "sk-test" = Ret v)
             (Retrieval.split_text Cases.long_text) [8192%nat; 8%nat]
  /\ Forall2 (fun v r => Retrieval.PINECONE_query v 3 "project-1" = Ret r)
             [8192%nat; 8%nat] [answer; answer]
  /\ Retrieval.get_reference Cases.long_text "sk-test" "project-1" 3
     = (Ret (Retrieval.ReferenceText (Retrieval.get_sanitized_reference [answer; answer])),
        (Retrieval.Embed <$> Retrieval.split_text Cases.long_text)
        ++ (Retrieval.Query <$> [8192%nat; 8%nat])).
Proof.
  cbn zeta.
  assert (Hlong : (8192 <= @Retrieval.num_tokens_from_string nat (Retrieval.toy_index [])
                             Cases.long_text "cl100k_base")%nat)
    by (vm_compute; lia).
  assert (Hparts : Retrieval.split_text Cases.long_text
                   = [Retrieval.repeated "a" 8192; Retrieval.repeated "a" 8])
    by (vm_compute; reflexivity).
  assert (Hembed : Forall2 (fun part v =>
                              @Retrieval.get_embedding nat (Retrieval.toy_index [])
                                part "sk-test" = Ret v)
                           (Retrieval.split_text Cases.long_text) [8192%nat; 8%nat]).
  { rewrite Hparts. repeat constructor; vm_compute; reflexivity. }
  assert (Hquery : Forall2 (fun v r =>
                              @Retrieval.PINECONE_query nat (Retrieval.toy_index [])
                                v 3 "project-1" = Ret r)
                           [8192%nat; 8%nat]
                           [[{| Retrieval.metadata_document := Some "28";
                                Retrieval.metadata_text := Some "How are you" |}];
                            [{| Retrieval.metadata_document := Some "28";
                                Retrieval.metadata_text := Some "How are you" |}]]).
  { repeat constructor. }
  split; [exact Hlong|]. split; [exact Hembed|]. split; [exact Hquery|].
  exact (@long_text_reference nat (Retrieval.toy_index []) Cases.long_text "sk-test"
           "project-1" 3 _ _ Hlong Hembed Hquery).
Defined.

Lemma marker_extraction_with_marker_run :
  let m := Cases.answer_with_references in
  let m' := ChatMessage.with_original_message m "Hi there" in
  occurs ref_text (ChatMessage.original_message m)
  /\ exists w' lookups,
       @add_reference_documents Scenario.silent m Cases.one_answer = (Ret m', w')
       /\ ~ occurs ref_text (ChatMessage.original_message m')
       /\ rows w' = <[ChatMessage.pk m := m']> (rows Cases.one_answer)
       /\ trace w' = trace Cases.one_answer ++ lookups ++ [DbSave (ChatMessage.pk m)]
       /\ Forall (fun e => is_lookup e = true) lookups
       /\ references_of w' (ChatMessage.pk m)
          ⊆ @resolved Scenario.silent
              (parse_doc_ids (ChatMessage.original_message m)
                 (PyStr.find (ChatMessage.original_message m) ref_text))
            ∪ references_of Cases.one_answer (ChatMessage.pk m).
Proof.
  cbn zeta.
  assert (Hmarker : occurs ref_text
                      (ChatMessage.original_message Cases.answer_with_references)).
  { exists " Hi there", " 12, 99". reflexivity. }
  split; [exact Hmarker|].
  exact (@marker_extraction_with_marker Scenario.silent Cases.answer_with_references
           Cases.one_answer Hmarker).
Defined.

Lemma retrieval_failure_run :
  let C := Cases.retrieval_down in
  let a := Cases.ward_turn in
  let calls := [Retrieval.Embed "Hello"; Retrieval.Query 5%nat] in
  let r := converse 100 a Scenario.fresh in
  PyStr.truthy (openai_key a) = true
  /\ namespace_of a = Some "project-1"
  /\ Retrieval.get_reference (I := retrieval) (clean_query a)
       (default EmptyString (openai_key a)) "project-1" (match_number a)
     = (Raise Cases.index_down, calls)
  /\ (yields r = [] /\ ending r = Raised Cases.index_down
      /\ rows (final r) = rows Scenario.fresh ++ [nurse_query a Scenario.fresh]
      /\ trace (final r)
         = trace Scenario.fresh
           ++ DbCreate (length (rows Scenario.fresh))
              :: (retrieval_effect "project-1" (match_number a) <$> calls)
      /\ is_Some (dict_at (final r) (stats_of a) !! "reference_start_time")
      /\ dict_at (final r) (stats_of a) !! "reference_end_time"
         = dict_at Scenario.fresh (stats_of a) !! "reference_end_time").
Proof.
  cbn zeta. split; [reflexivity|]. split; [reflexivity|]. split; [reflexivity|].
  exact (@retrieval_failure_aborts_turn Cases.retrieval_down 100 Cases.ward_turn
           Scenario.fresh "project-1" Cases.index_down
           [Retrieval.Embed "Hello"; Retrieval.Query 5%nat] eq_refl eq_refl eq_refl).
Defined.

Lemma no_retrieval_run :
  let a := Scenario.turn "en-IN" false false in
  namespace_of a = None
  /\ exists p w1,
       @prepare Scenario.silent a Scenario.fresh = (Ret p, w1)
       /\ p_reference p = Supplied (supplied_reference a)
       /\ trace w1 = trace Scenario.fresh ++ [DbCreate (length (rows Scenario.fresh))].
Proof.
  cbn zeta. split; [reflexivity|].
  exact (@no_retrieval_without_namespace Scenario.silent (Scenario.turn "en-IN" false false)
           Scenario.fresh eq_refl).
Defined.

Lemma history_run :
  let a := Scenario.turn "en-IN" false false in
  let w := Cases.one_answer in
  let p := prepared_with a w (Supplied (supplied_reference a)) in
  rows_keyed w
  /\ @prepare Scenario.silent a w = (Ret p, after_reference a (after_query a w))
  /\ p_chat_history p
     = as_history <$> filter (fun m => ChatMessage.chat m = chat_id (chat a)) (rows w).
Proof.
  cbn zeta.
  assert (Hkeyed : rows_keyed Cases.one_answer).
  { intros i m Hrow. destruct i as [|i]; [|discriminate Hrow].
    injection Hrow as <-. reflexivity. }
  assert (Hprepare : @prepare Scenario.silent (Scenario.turn "en-IN" false false)
                       Cases.one_answer
                     = (Ret (prepared_with (Scenario.turn "en-IN" false false)
                               Cases.one_answer
                               (Supplied (supplied_reference (Scenario.turn "en-IN" false false)))),
                        after_reference (Scenario.turn "en-IN" false false)
                          (after_query (Scenario.turn "en-IN" false false)
                             Cases.one_answer)))
    by (rewrite prepare_run; reflexivity).
  split; [exact Hkeyed|]. split; [exact Hprepare|].
  exact (@history_is_earlier_messages Scenario.silent (Scenario.turn "en-IN" false false)
           Cases.one_answer _ _ Hkeyed Hprepare).
Defined.

Lemma producer_failure_run :
  let C := Scenario.broken_stream true in
  let a := Scenario.turn "hi-IN" true false in
  let e := not_a_token "Exception" in
  let r := converse_streaming 100 a Scenario.prepared Scenario.fresh in
  (length Scenario.label = String.length "Ayushma: "
   /\ List.concat (pushed a Scenario.prepared)
      = Scenario.label ++ (Token <$> [" partial"]) ++ [Other "Exception"]
   /\ (length (pushed a Scenario.prepared)
       + length (List.concat (pushed a Scenario.prepared)) <= 100)%nat
   /\ display_text (user_language a) (str_exn e) = Ret ("[hi-IN] " +:+ str_exn e))
  /\ (yields r = delta_events a [" partial"] ++ [error_event a e]
      /\ ending r = Returned
      /\ rows (final r)
         = rows Scenario.fresh
           ++ [error_message a Scenario.prepared e ("[hi-IN] " +:+ str_exn e)
                 (started Scenario.prepared Scenario.fresh)]).
Proof.
  cbn zeta.
  assert (Hfuel : (length (@pushed (Scenario.broken_stream true)
                             (Scenario.turn "hi-IN" true false) Scenario.prepared)
                   + length (List.concat
                               (@pushed (Scenario.broken_stream true)
                                  (Scenario.turn "hi-IN" true false) Scenario.prepared))
                   <= 100)%nat) by (vm_compute; lia).
  split; [split; [reflexivity|]; split; [reflexivity|]; split; [exact Hfuel|reflexivity]|].
  exact (@producer_failure_mid_stream (Scenario.broken_stream true) 100
           (Scenario.turn "hi-IN" true false) Scenario.prepared Scenario.fresh
           Scenario.label [" partial"] "Exception" []
           ("[hi-IN] " +:+ str_exn (not_a_token "Exception"))
           eq_refl eq_refl Hfuel eq_refl).
Defined.

Lemma completed_stream_run :
  let C := Scenario.services true [Cases.short_answer] in
  let a := Scenario.turn "hi-IN" true false in
  let post :=
    handle_post_response (join [" Hi"]) (chat a) (match_number a) (user_language a)
      (temperature a) (stats_of a) (p_language Scenario.prepared) (generate_audio a)
      (stamped (stats_of a) "response_end_time"
         (started Scenario.prepared Scenario.fresh)) in
  let url : option string := None in
  let saved := match post.1 with
               | Ret (_, _, saved) => saved
               | Raise _ => Scenario.plain_answer
               end in
  (length Scenario.label = String.length "Ayushma: "
   /\ List.concat (pushed a Scenario.prepared)
      = Scenario.label ++ (Token <$> [" Hi"]) ++ [RESPONSE_END]
   /\ (length (pushed a Scenario.prepared) + length Scenario.label + length [" Hi"] + 1
       <= 100)%nat
   /\ post = (Ret ("[hi-IN]  Hi", url, saved), post.2))
  /\ converse_streaming 100 a Scenario.prepared Scenario.fresh
     = {| yields := delta_events a [" Hi"] ++ [final_event a "[hi-IN]  Hi" url];
          ending := Returned;
          final := post.2 |}.
Proof.
  cbn zeta.
  set (C := Scenario.services true [Cases.short_answer]).
  set (a := Scenario.turn "hi-IN" true false).
  set (post := @handle_post_response C _ _ _ _ _ _ _ _ _).
  assert (Hfuel : (length (@pushed C a Scenario.prepared) + length Scenario.label
                   + length [" Hi"] + 1 <= 100)%nat) by (vm_compute; lia).
  assert (Hpost : post = (Ret ("[hi-IN]  Hi", None,
                               match post.1 with
                               | Ret (_, _, saved) => saved
                               | Raise _ => Scenario.plain_answer
                               end), post.2)) by (vm_compute; reflexivity).
  split; [split; [reflexivity|]; split; [reflexivity|]; split; [exact Hfuel|exact Hpost]|].
  exact (@completed_stream_shows_final_event C 100 a Scenario.prepared Scenario.fresh
           post.2 Scenario.label [" Hi"] _ _ _ eq_refl eq_refl Hfuel Hpost).
Defined.

Lemma failed_post_processing_run :
  let C := Cases.speaking (Raise Cases.speech_failed) [Cases.short_answer] in
  let a := Scenario.turn "en-IN" true true in
  let e := Cases.speech_failed in
  let r := converse_streaming 100 a Scenario.prepared Scenario.fresh in
  (length Scenario.label = String.length "Ayushma: "
   /\ List.concat (pushed a Scenario.prepared)
      = Scenario.label ++ (Token <$> [" Hi"]) ++ [RESPONSE_END]
   /\ (length (pushed a Scenario.prepared) + length Scenario.label + length [" Hi"] + 1
       <= 100)%nat
   /\ stage_fails (chat a) (user_language a) (without_references (join [" Hi"]))
        (generate_audio a) Scenario.fresh e
   /\ display_text (user_language a) (str_exn e) = Ret (str_exn e))
  /\ (yields r = delta_events a [" Hi"] ++ [error_event a e]
      /\ ending r = Returned
      /\ exists answer failure,
           rows (final r) = rows Scenario.fresh ++ [answer; failure]
           /\ ChatMessage.messageType answer = AYUSHMA
           /\ ChatMessage.message answer = None
           /\ ChatMessage.ayushma_audio_url answer = None
           /\ ChatMessage.messageType failure = AYUSHMA
           /\ ChatMessage.original_message failure = str_exn e
           /\ ChatMessage.message failure = Some (str_exn e)).
Proof.
  cbn zeta.
  set (C := Cases.speaking (Raise Cases.speech_failed) [Cases.short_answer]).
  set (a := Scenario.turn "en-IN" true true).
  assert (Hfuel : (length (@pushed C a Scenario.prepared) + length Scenario.label
                   + length [" Hi"] + 1 <= 100)%nat) by (vm_compute; lia).
  assert (Hfails : @stage_fails C (chat a) (user_language a)
                     (without_references (join [" Hi"])) (generate_audio a)
                     Scenario.fresh Cases.speech_failed).
  { right. left. exists (without_references (join [" Hi"])).
    split; [reflexivity|]. split; reflexivity. }
  split; [split; [reflexivity|]; split; [reflexivity|]; split; [exact Hfuel|];
          split; [exact Hfails|reflexivity]|].
  exact (@failed_post_processing_stores_two_rows C 100 a Scenario.prepared Scenario.fresh
           Scenario.label [" Hi"] Cases.speech_failed (str_exn Cases.speech_failed)
           eq_refl eq_refl Hfuel Hfails eq_refl).
Defined.

Lemma blocking_turn_run :
  let C := Scenario.services true [] in
  let a := Scenario.turn "en-IN" false false in
  let w := Scenario.fresh in
  let p := prepared_with a w (Supplied (supplied_reference a)) in
  let r := converse 100 a w in
  (PyStr.truthy (openai_key a) = true
   /\ stream a = false
   /\ user_language a = "en-IN"
   /\ generate_audio a = false
   /\ prepare a w = (Ret p, after_reference a (after_query a w))
   /\ get_response (helper_of a p) (p_english_text p) (p_reference p) (p_chat_history p)
      = Ret "Ayushma: Hi there")
  /\ exists saved,
       yields r = [YieldMessage saved]
       /\ ending r = Returned
       /\ rows (final r) = rows w ++ [nurse_query a w; saved]
       /\ ChatMessage.messageType saved = AYUSHMA
       /\ ChatMessage.original_message saved
          = without_references (PyStr.replace "Ayushma: Hi there" "Ayushma: " EmptyString)
       /\ ChatMessage.message saved
          = Some (without_references
                    (PyStr.replace "Ayushma: Hi there" "Ayushma: " EmptyString))
       /\ ChatMessage.ayushma_audio_url saved = None.
Proof.
  cbn zeta.
  set (C := Scenario.services true []).
  set (a := Scenario.turn "en-IN" false false).
  assert (Hprepare : @prepare C a Scenario.fresh
                     = (Ret (prepared_with a Scenario.fresh (Supplied (supplied_reference a))),
                        after_reference a (after_query a Scenario.fresh)))
    by (rewrite prepare_run; reflexivity).
  split; [do 4 (split; [reflexivity|]); split; [exact Hprepare|reflexivity]|].
  exact (@blocking_turn_returns_stored_answer C 100 a Scenario.fresh _ _
           "Ayushma: Hi there" eq_refl eq_refl eq_refl eq_refl Hprepare eq_refl).
Defined.

Lemma silent_voice_run :
  let C := Cases.speaking (Ret (Some EmptyString)) [] in
  let r := handle_post_response "Hi there" Scenario.room 3 "en-IN" 0 default_stats "en"
             true Scenario.fresh in
  (display_text "en-IN" (without_references "Hi there") = Ret "Hi there"
   /\ text_to_speech "Hi there" "en-IN" = Ret (Some EmptyString)
   /\ (Some EmptyString = None \/ Some EmptyString = Some EmptyString))
  /\ exists saved,
       r.1 = Ret ("Hi there", None, saved)
       /\ rows r.2 = rows Scenario.fresh ++ [saved]
       /\ ChatMessage.message saved = Some "Hi there"
       /\ ChatMessage.ayushma_audio_url saved = None
       /\ uuids r.2 = uuids Scenario.fresh
       /\ audio_calls (trace r.2) = S (audio_calls (trace Scenario.fresh))
       /\ dict_at r.2 default_stats !! "upload_start_time"
          = dict_at Scenario.fresh default_stats !! "upload_start_time"
       /\ dict_at r.2 default_stats !! "upload_end_time"
          = dict_at Scenario.fresh default_stats !! "upload_end_time".
Proof.
  cbn zeta.
  split; [split; [reflexivity|]; split; [reflexivity|]; right; reflexivity|].
  exact (@silent_voice_skips_upload (Cases.speaking (Ret (Some EmptyString)) [])
           "Hi there" Scenario.room 3 "en-IN" 0 default_stats "en" Scenario.fresh
           "Hi there" (Some EmptyString) eq_refl eq_refl (or_intror eq_refl)).
Defined.

Lemma voiced_answer_run :
  let C := Scenario.services true [] in
  let url := Some "https://bucket/1_0000.mp3" in
  let r := handle_post_response "Hi there" Scenario.room 3 "en-IN" 0 default_stats "en"
             true Scenario.fresh in
  (display_text "en-IN" (without_references "Hi there") = Ret "Hi there"
   /\ text_to_speech "Hi there" "en-IN" = Ret (Some (String "m" "p3:Hi there"))
   /\ upload_file (String "m" "p3:Hi there")
        (PyStr.str_int (chat_id Scenario.room) +:+ "_" +:+ uuid4 (uuids Scenario.fresh)
         +:+ ".mp3") = Ret url)
  /\ exists saved mt earlier,
       r.1 = Ret ("Hi there", url, saved)
       /\ rows r.2 = rows Scenario.fresh ++ [saved]
       /\ ChatMessage.message saved = Some "Hi there"
       /\ ChatMessage.ayushma_audio_url saved = url
       /\ uuids r.2 = S (uuids Scenario.fresh)
       /\ audio_calls (trace r.2) = S (S (audio_calls (trace Scenario.fresh)))
       /\ trace r.2
          = earlier
            ++ [CallTextToSpeech "Hi there" "en-IN";
                CallUpload (String "m" "p3:Hi there")
                  (PyStr.str_int (chat_id Scenario.room) +:+ "_"
                   +:+ uuid4 (uuids Scenario.fresh) +:+ ".mp3");
                DbSave (length (rows Scenario.fresh))]
       /\ ChatMessage.meta saved = Some mt
       /\ audio_meta mt = audio_stats (dict_at r.2 default_stats)
       /\ Forall is_Some (audio_meta mt).
Proof.
  cbn zeta.
  split; [split; [reflexivity|]; split; reflexivity|].
  exact (@voiced_answer_is_uploaded (Scenario.services true [])
           "Hi there" Scenario.room 3 "en-IN" 0 default_stats "en" Scenario.fresh
           "Hi there" "m" "p3:Hi there" (Some "https://bucket/1_0000.mp3")
           eq_refl eq_refl eq_refl).
Defined.

Lemma short_text_reference_run :
  let I := Retrieval.toy_index [] in
  (Retrieval.num_tokens_from_string "Hello" "cl100k_base" < 8192)%nat
  /\ Retrieval.get_embedding "Hello" "sk-test" = Ret 5%nat
  /\ Retrieval.get_reference "Hello" "sk-test" "project-1" 3
     = (match Retrieval.PINECONE_query 5%nat 3 "project-1" with
        | Ret similar =>
            Ret (Retrieval.ReferenceText (Retrieval.get_sanitized_reference [similar]))
        | Raise e => Raise e
        end,
        [Retrieval.Embed "Hello"; Retrieval.Query 5%nat]).
Proof.
  cbn zeta.
  assert (Hshort : (@Retrieval.num_tokens_from_string nat (Retrieval.toy_index [])
                      "Hello" "cl100k_base" < 8192)%nat) by (vm_compute; lia).
  assert (Hembed : @Retrieval.get_embedding nat (Retrieval.toy_index []) "Hello" "sk-test"
                   = Ret 5%nat) by (vm_compute; reflexivity).
  split; [exact Hshort|]. split; [exact Hembed|].
  exact (@short_text_reference nat (Retrieval.toy_index []) "Hello" "sk-test"
           "project-1" 3 5%nat Hshort Hembed).
Defined.

Lemma embedding_failure_handed_on_run :
  let C := Cases.embedding_down in
  let a := Cases.ward_turn in
  let e := {| exn_class := "APIError"; exn_text := "rate limit" |} in
  (namespace_of a = Some "project-1"
   /\ (Retrieval.num_tokens_from_string (Index := retrieval) (clean_query a) "cl100k_base"
       < 8192)%nat
   /\ Retrieval.get_embedding (Index := retrieval) (clean_query a)
        (default EmptyString (openai_key a)) = Raise e)
  /\ exists p w1,
       prepare a Scenario.fresh = (Ret p, w1)
       /\ p_reference p = Retrieved (Retrieval.ReferenceException (Retrieval.rewrap e))
       /\ trace w1
          = trace Scenario.fresh
            ++ [DbCreate (length (rows Scenario.fresh)); CallGetEmbedding (clean_query a)]
       /\ is_Some (dict_at w1 (stats_of a) !! "reference_end_time").
Proof.
  cbn zeta.
  assert (Hshort : (@Retrieval.num_tokens_from_string _ (@retrieval Cases.embedding_down)
                      (clean_query Cases.ward_turn) "cl100k_base" < 8192)%nat)
    by (vm_compute; lia).
  assert (Hfails : @Retrieval.get_embedding _ (@retrieval Cases.embedding_down)
                     (clean_query Cases.ward_turn)
                     (default EmptyString (openai_key Cases.ward_turn))
                   = Raise {| exn_class := "APIError"; exn_text := "rate limit" |})
    by (vm_compute; reflexivity).
  split; [split; [reflexivity|]; split; [exact Hshort|exact Hfails]|].
  exact (@embedding_failure_is_handed_on Cases.embedding_down Cases.ward_turn
           Scenario.fresh "project-1" _ eq_refl Hshort Hfails).
Defined.
